(** * Salary manager: the payroll rule engine

    A shallow embedding of the rule functions of the salary manager:
    [recalculateEntry] (services/logic.ts), [validateAccount]
    (services/accountService.ts), [getCenterType]
    (components/CenterCalculation.tsx) and the per-employee collection
    aggregation of [gridRows] (App.tsx), followed by the properties the
    specification states about them. *)

From Stdlib Require Import QArith Qcanon ZArith Zquot String Ascii List Bool.
From stdpp Require Import base gmap strings pretty list fin_maps.

Local Open Scope string_scope.

(** ** JavaScript numbers

    A [number] is an exact rational or [NaN].  Arithmetic is exact and
    propagates [NaN]; every comparison with [NaN] is false; [NaN] and
    zero are the falsy numbers.  Rounding, the two infinities and the sign
    of zero are outside this model; the rule functions divide only by the
    non-zero constants 26, 8 and 100.

    A double rounds each result, so that an equation between two
    expressions is one of the program when both sides apply the same
    operations in the same order, or when every value involved is a whole
    number of magnitude at most 2^53, where the sums of doubles are exact
    in any order ([wholeAmounts] below).  The properties that regroup a sum
    are stated on such amounts. *)
Module JS.

Inductive number : Type :=
| Num (q : Qc)
| NaN.

Definition ofZ (z : Z) : number := Num (Q2Qc (inject_Z z)).
Definition ofQ (q : Q) : number := Num (Q2Qc q).

Definition add (x y : number) : number :=
  match x, y with
  | Num a, Num b => Num (a + b)%Qc
  | _, _ => NaN
  end.

Definition sub (x y : number) : number :=
  match x, y with
  | Num a, Num b => Num (a - b)%Qc
  | _, _ => NaN
  end.

Definition mul (x y : number) : number :=
  match x, y with
  | Num a, Num b => Num (a * b)%Qc
  | _, _ => NaN
  end.

(** [x / y]; a zero divisor, which the rule functions never use, reads
    as [NaN]. *)
Definition div (x y : number) : number :=
  match x, y with
  | Num a, Num b => if Qc_eq_bool b 0%Qc then NaN else Num (a / b)%Qc
  | _, _ => NaN
  end.

(** [x < y], [x > y], [x >= y]. *)
Definition lt (x y : number) : bool :=
  match x, y with
  | Num a, Num b => match (a ?= b)%Qc with Lt => true | _ => false end
  | _, _ => false
  end.

Definition gt (x y : number) : bool := lt y x.

Definition ge (x y : number) : bool :=
  match x, y with
  | Num a, Num b => match (a ?= b)%Qc with Lt => false | _ => true end
  | _, _ => false
  end.

(** [Math.max(x, y)]: [NaN] as soon as one argument is. *)
Definition max (x y : number) : number :=
  match x, y with
  | Num a, Num b => if lt x y then y else x
  | _, _ => NaN
  end.

(** Truthiness of a number, and [x || 0]. *)
Definition truthy (x : number) : bool :=
  match x with
  | Num q => negb (Qc_eq_bool q 0%Qc)
  | NaN => false
  end.

Definition or0 (x : number) : number :=
  if truthy x then x else ofZ 0.

Definition isNaN (x : number) : bool :=
  match x with NaN => true | Num _ => false end.

(** A decidable test for equality of numbers, for closed computations. *)
Definition eqb (x y : number) : bool :=
  match x, y with
  | Num a, Num b => Qc_eq_bool a b
  | NaN, NaN => true
  | _, _ => false
  end.

(** Truthiness of an optional string ([undefined], [null] and the empty
    string are falsy), and [a || b] on such values. *)
Definition truthyS (s : option string) : bool :=
  match s with
  | Some t => negb (String.eqb t "")
  | None => false
  end.

Definition orS (a b : option string) : option string :=
  if truthyS a then a else b.

(** [a === b] for a nullable string [a] and a string [b]. *)
Definition strictEqS (a : option string) (b : string) : bool :=
  match a with
  | Some t => String.eqb t b
  | None => false
  end.

(** The text a template literal inserts for a nullable string. *)
Definition textOf (a : option string) : string :=
  match a with
  | Some t => t
  | None => "null"
  end.

(** [s.startsWith(p)]. *)
Definition startsWith (s p : string) : bool := String.prefix p s.

(** The names every plain object inherits from [Object.prototype]: a
    lookup [o[name]] on an object without an own property of that name
    finds the inherited method (or, for [__proto__], the prototype), which
    is truthy and has no property of the application. *)
Definition inheritedProperty (name : string) : bool :=
  existsb (String.eqb name)
    [ "constructor"; "hasOwnProperty"; "isPrototypeOf";
      "propertyIsEnumerable"; "toLocaleString"; "toString"; "valueOf";
      "__defineGetter__"; "__defineSetter__"; "__lookupGetter__";
      "__lookupSetter__"; "__proto__" ].

(** [!s.includes('-')]: a string in which no dash occurs. *)
Fixpoint dashFree (s : string) : bool :=
  match s with
  | EmptyString => true
  | String c r => negb (Ascii.eqb c "-"%char) && dashFree r
  end.

End JS.

Declare Scope js_scope.
Delimit Scope js_scope with js.
Bind Scope js_scope with JS.number.
Infix "+" := JS.add : js_scope.
Infix "-" := JS.sub : js_scope.
Infix "*" := JS.mul : js_scope.
Infix "/" := JS.div : js_scope.
Notation "x '||0'" := (JS.or0 x) (at level 1, format "x '||0'") : js_scope.

(** ** The types of the application (types.ts) *)

Inductive RowStatus : Type := ACTIVE | INACTIVE | PENDING.

Inductive CenterType : Type := OWN | OFFICE.

Module CommissionStructure.
Record t : Type := mk {
  rowIndex : option JS.number;
  status : option RowStatus;
  typeCode : string;
  own : JS.number;
  office : JS.number
}.
End CommissionStructure.

Module SalaryEntry.
Record t : Type := mk {
  rowIndex : option JS.number;
  status : option RowStatus;
  id : string;
  salary_sheet_id : string;
  employee_id : string;
  basic_salary : JS.number;
  commission_type : option string;
  own_somity_count : JS.number;
  own_somity_collection : JS.number;
  office_somity_count : JS.number;
  office_somity_collection : JS.number;
  center_count : JS.number;
  center_collection : JS.number;
  total_loan_collection : JS.number;
  book_1_5 : JS.number;
  book_3 : JS.number;
  book_5 : JS.number;
  book_8 : JS.number;
  book_10 : JS.number;
  book_12 : JS.number;
  book_no_bonus : JS.number;
  input_late_hours : JS.number;
  input_absent_days : JS.number;
  deduction_cash_advance : JS.number;
  deduction_late : JS.number;
  deduction_abs : JS.number;
  misconductDeduction : JS.number;
  deduction_unlawful : JS.number;
  deduction_tours : JS.number;
  deduction_others : JS.number;
  manager_convenience : JS.number;
  total_books : JS.number;
  total_collection : JS.number;
  total_deductions : JS.number;
  commission : JS.number;
  bonus : JS.number;
  final_salary : JS.number
}.
End SalaryEntry.

(** The optional fifth argument of [recalculateEntry]. *)
Module ManagerContext.
Record t : Type := mk {
  isManager : bool;
  branchTotalCollection : JS.number
}.
End ManagerContext.

(** ** services/logic.ts *)
Module Logic.
Import JS.
Local Open Scope js_scope.

Definition BONUS_TARGET_BOOKS : number := ofZ 50.
Definition TARGET_BONUS_AMOUNT : number := ofZ 500.

(** The six tenors of the book schedule, as the keys [bonusRates] is read
    at. *)
Definition term_1_5 : Qc := Q2Qc (3 # 2).
Definition term_3 : Qc := Q2Qc 3.
Definition term_5 : Qc := Q2Qc 5.
Definition term_8 : Qc := Q2Qc 8.
Definition term_10 : Qc := Q2Qc 10.
Definition term_12 : Qc := Q2Qc 12.

(** [ratesMap[commissionType] || { own: 0, office: 0 }], read at [.own]
    and [.office].  [ratesMap] is a plain object: for a type that is no key
    of it but names an inherited property the lookup is truthy, and its
    [own] and [office] are [undefined], [NaN] in the division by 100. *)
Definition rateStructOf (ratesMap : gmap string CommissionStructure.t)
    (commissionType : string) : number * number :=
  match ratesMap !! commissionType with
  | Some r => (CommissionStructure.own r, CommissionStructure.office r)
  | None =>
      if inheritedProperty commissionType then (NaN, NaN)
      else (ofZ 0, ofZ 0)
  end.

(** [createEmptyEntry]; the identifier [generateId()] draws is passed in. *)
Definition createEmptyEntry (id sheetId employeeId : string)
    (baseSalary : number) (commissionType : option string) : SalaryEntry.t :=
  {| SalaryEntry.rowIndex := None;
     SalaryEntry.status := None;
     SalaryEntry.id := id;
     SalaryEntry.salary_sheet_id := sheetId;
     SalaryEntry.employee_id := employeeId;
     SalaryEntry.basic_salary := baseSalary;
     SalaryEntry.commission_type :=
       Some (match commissionType with Some t => t | None => "A" end);
     SalaryEntry.own_somity_count := ofZ 0;
     SalaryEntry.own_somity_collection := ofZ 0;
     SalaryEntry.office_somity_count := ofZ 0;
     SalaryEntry.office_somity_collection := ofZ 0;
     SalaryEntry.center_count := ofZ 0;
     SalaryEntry.center_collection := ofZ 0;
     SalaryEntry.total_loan_collection := ofZ 0;
     SalaryEntry.book_1_5 := ofZ 0;
     SalaryEntry.book_3 := ofZ 0;
     SalaryEntry.book_5 := ofZ 0;
     SalaryEntry.book_8 := ofZ 0;
     SalaryEntry.book_10 := ofZ 0;
     SalaryEntry.book_12 := ofZ 0;
     SalaryEntry.book_no_bonus := ofZ 0;
     SalaryEntry.input_late_hours := ofZ 0;
     SalaryEntry.input_absent_days := ofZ 0;
     SalaryEntry.deduction_cash_advance := ofZ 0;
     SalaryEntry.deduction_late := ofZ 0;
     SalaryEntry.deduction_abs := ofZ 0;
     SalaryEntry.misconductDeduction := ofZ 0;
     SalaryEntry.deduction_unlawful := ofZ 0;
     SalaryEntry.deduction_tours := ofZ 0;
     SalaryEntry.deduction_others := ofZ 0;
     SalaryEntry.manager_convenience := ofZ 0;
     SalaryEntry.total_books := ofZ 0;
     SalaryEntry.total_collection := ofZ 0;
     SalaryEntry.total_deductions := ofZ 0;
     SalaryEntry.commission := ofZ 0;
     SalaryEntry.bonus := ofZ 0;
     SalaryEntry.final_salary := baseSalary |}.

Section Recalculate.

(** The table of services/bonusRates, a module of the application that is
    read here at a numeric term; a term the table lacks reads as
    [undefined], which is [NaN] in a product. *)
Variable bonusRates : Qc -> number.

Definition recalculateEntry
    (entry : SalaryEntry.t)
    (contractualBaseSalary : number)
    (ratesMap : gmap string CommissionStructure.t)
    (commissionTypeOverride : option string)
    (managerContext : option ManagerContext.t) : SalaryEntry.t :=
  let commissionType : string :=
    textOf (orS (orS commissionTypeOverride (SalaryEntry.commission_type entry))
                (Some "A")) in
  let total_books :=
    SalaryEntry.book_1_5 entry +
    SalaryEntry.book_3 entry +
    SalaryEntry.book_5 entry +
    SalaryEntry.book_8 entry +
    SalaryEntry.book_10 entry +
    SalaryEntry.book_12 entry +
    SalaryEntry.book_no_bonus entry in
  let total_collection :=
    (SalaryEntry.own_somity_collection entry)||0 +
    (SalaryEntry.office_somity_collection entry)||0 +
    (SalaryEntry.center_collection entry)||0 in
  let rateStruct := rateStructOf ratesMap commissionType in
  let ownRate := fst rateStruct / ofZ 100 in
  let officeRate := snd rateStruct / ofZ 100 in
  let collectionCommission :=
    ((SalaryEntry.own_somity_collection entry)||0 * ownRate) +
    ((SalaryEntry.office_somity_collection entry)||0 * officeRate) in
  let bookCommission :=
    (SalaryEntry.book_1_5 entry * bonusRates term_1_5) +
    (SalaryEntry.book_3 entry * bonusRates term_3) +
    (SalaryEntry.book_5 entry * bonusRates term_5) +
    (SalaryEntry.book_8 entry * bonusRates term_8) +
    (SalaryEntry.book_10 entry * bonusRates term_10) +
    (SalaryEntry.book_12 entry * bonusRates term_12) in
  let commission := collectionCommission + bookCommission in
  let bonus :=
    if ge total_books BONUS_TARGET_BOOKS then TARGET_BONUS_AMOUNT else ofZ 0 in
  let dailyRate := contractualBaseSalary / ofZ 26 in
  let hourlyRate := dailyRate / ofZ 8 in
  let deduction_late := (SalaryEntry.input_late_hours entry)||0 * hourlyRate in
  let deduction_abs := (SalaryEntry.input_absent_days entry)||0 * dailyRate in
  let total_deductions :=
    SalaryEntry.deduction_cash_advance entry +
    deduction_late +
    deduction_abs +
    (SalaryEntry.misconductDeduction entry)||0 +
    SalaryEntry.deduction_unlawful entry +
    SalaryEntry.deduction_tours entry +
    SalaryEntry.deduction_others entry in
  let manager_convenience :=
    match managerContext with
    | Some ctx =>
        if ManagerContext.isManager ctx then
          let managerOwnCollection :=
            (SalaryEntry.own_somity_collection entry)||0 +
            (SalaryEntry.office_somity_collection entry)||0 +
            (SalaryEntry.total_loan_collection entry)||0 +
            (SalaryEntry.center_collection entry)||0 in
          let diff :=
            ManagerContext.branchTotalCollection ctx - managerOwnCollection in
          max (ofZ 0) (diff * ofQ (2 # 100))
        else ofZ 0
    | None => (SalaryEntry.manager_convenience entry)||0
    end in
  let final_salary :=
    (SalaryEntry.basic_salary entry)||0 + commission + bonus
      + manager_convenience - total_deductions in
  {| SalaryEntry.rowIndex := SalaryEntry.rowIndex entry;
     SalaryEntry.status := SalaryEntry.status entry;
     SalaryEntry.id := SalaryEntry.id entry;
     SalaryEntry.salary_sheet_id := SalaryEntry.salary_sheet_id entry;
     SalaryEntry.employee_id := SalaryEntry.employee_id entry;
     SalaryEntry.basic_salary := SalaryEntry.basic_salary entry;
     SalaryEntry.commission_type := Some commissionType;
     SalaryEntry.own_somity_count := SalaryEntry.own_somity_count entry;
     SalaryEntry.own_somity_collection := SalaryEntry.own_somity_collection entry;
     SalaryEntry.office_somity_count := SalaryEntry.office_somity_count entry;
     SalaryEntry.office_somity_collection :=
       SalaryEntry.office_somity_collection entry;
     SalaryEntry.center_count := SalaryEntry.center_count entry;
     SalaryEntry.center_collection := SalaryEntry.center_collection entry;
     SalaryEntry.total_loan_collection := SalaryEntry.total_loan_collection entry;
     SalaryEntry.book_1_5 := SalaryEntry.book_1_5 entry;
     SalaryEntry.book_3 := SalaryEntry.book_3 entry;
     SalaryEntry.book_5 := SalaryEntry.book_5 entry;
     SalaryEntry.book_8 := SalaryEntry.book_8 entry;
     SalaryEntry.book_10 := SalaryEntry.book_10 entry;
     SalaryEntry.book_12 := SalaryEntry.book_12 entry;
     SalaryEntry.book_no_bonus := SalaryEntry.book_no_bonus entry;
     SalaryEntry.input_late_hours := SalaryEntry.input_late_hours entry;
     SalaryEntry.input_absent_days := SalaryEntry.input_absent_days entry;
     SalaryEntry.deduction_cash_advance :=
       SalaryEntry.deduction_cash_advance entry;
     SalaryEntry.deduction_late := deduction_late;
     SalaryEntry.deduction_abs := deduction_abs;
     SalaryEntry.misconductDeduction := SalaryEntry.misconductDeduction entry;
     SalaryEntry.deduction_unlawful := SalaryEntry.deduction_unlawful entry;
     SalaryEntry.deduction_tours := SalaryEntry.deduction_tours entry;
     SalaryEntry.deduction_others := SalaryEntry.deduction_others entry;
     SalaryEntry.manager_convenience := manager_convenience;
     SalaryEntry.total_books := total_books;
     SalaryEntry.total_collection := total_collection;
     SalaryEntry.total_deductions := total_deductions;
     SalaryEntry.commission := commission;
     SalaryEntry.bonus := bonus;
     SalaryEntry.final_salary := final_salary |}.

End Recalculate.

End Logic.

(** ** services/accountService.ts *)

Module AccountOpening.
Record t : Type := mk {
  rowIndex : option JS.number;
  status : option RowStatus;
  id : JS.number;
  account_code : string;
  term : JS.number;
  collection_amount : JS.number;
  opened_by_employee_id : string;
  branch_id : string;
  opening_date : string;
  is_counted : bool;
  counted_month : option string;
  salary_sheet_id : option string
}.
End AccountOpening.

(** The object [validateAccount] returns:
    [{ ok: boolean; error?: string; account?: AccountOpening }]. *)
Module Validation.
Record t : Type := mk {
  ok : bool;
  error : option string;
  account : option AccountOpening.t
}.
End Validation.

Module AccountService.
Import JS.
Local Open Scope js_scope.

(** [s.split('-')] *)
Fixpoint split_dash (s : string) : list string :=
  match s with
  | EmptyString => [EmptyString]
  | String c rest =>
      if Ascii.eqb c "-"%char then EmptyString :: split_dash rest
      else match split_dash rest with
           | h :: t => String c h :: t
           | [] => [String c EmptyString]
           end
  end.

(** The element an array destructuring binds at index [i]; a missing
    element is [undefined], which the subtraction it is used in reads as
    [NaN]. *)
Definition element (l : list number) (i : nat) : number := nth i l NaN.

Definition rejected (msg : string) : Validation.t :=
  {| Validation.ok := false; Validation.error := Some msg;
     Validation.account := None |}.

Definition accepted (ac : AccountOpening.t) : Validation.t :=
  {| Validation.ok := true; Validation.error := None;
     Validation.account := Some ac |}.

Section Validate.

(** The built-ins of the language the function calls: [Number] on a
    string, [String.prototype.toLowerCase] and [String.prototype.trim]. *)
Variable Number : string -> number.
Variable toLowerCase : string -> string.
Variable trim : string -> string.

(** [(sheetY - openY) * 12 + (sheetM - openM)] of the two dates. *)
Definition monthDiff (opening_date sheetMonth : string) : number :=
  let opened := map Number (split_dash opening_date) in
  let sheet := map Number (split_dash sheetMonth) in
  let openY := element opened 0 in
  let openM := element opened 1 in
  let sheetY := element sheet 0 in
  let sheetM := element sheet 1 in
  (sheetY - openY) * ofZ 12 + (sheetM - openM).

(** The account the lookup selects: the first one whose lower-cased code
    is the lower-cased, trimmed input. *)
Definition findAccount (code : string) (allAccounts : list AccountOpening.t)
    : option AccountOpening.t :=
  let normalizedCode := toLowerCase (trim code) in
  find (fun a => String.eqb (toLowerCase (AccountOpening.account_code a))
                            normalizedCode) allAccounts.

Definition validateAccount
    (code employeeId branchId sheetMonth : string)
    (allAccounts : list AccountOpening.t) : Validation.t :=
  match findAccount code allAccounts with
  | None => rejected "Account not found"
  | Some ac =>
    if negb (String.eqb (AccountOpening.opened_by_employee_id ac) employeeId)
    then rejected "Belongs to another employee"
    else if negb (String.eqb (AccountOpening.branch_id ac) branchId)
    then rejected "Branch mismatch"
    else if AccountOpening.is_counted ac then
      if strictEqS (AccountOpening.counted_month ac) sheetMonth
      then rejected "Already scanned in this sheet"
      else rejected ("Used in " ++
             textOf (orS (AccountOpening.counted_month ac) (Some "past")))
    else if lt (AccountOpening.collection_amount ac) (ofZ 600)
    then rejected "Not Eligible: Collection < 600"
    else
      let d := monthDiff (AccountOpening.opening_date ac) sheetMonth in
      if lt d (ofZ 0)
      then rejected "Error: Account opened after sheet month"
      else if gt d (ofZ 2)
      then rejected "Expired: 2-month bonus window passed"
      else accepted ac
  end.

End Validate.

(** Instances of the three built-ins on the strings the examples use:
    ASCII text, and date parts written as unsigned decimal digits (the
    empty string converts to 0, as [Number] does). *)
Definition lowerChar (c : ascii) : ascii :=
  let n := nat_of_ascii c in
  if (65 <=? n)%nat && (n <=? 90)%nat then ascii_of_nat (n + 32) else c.

Fixpoint toLowerCaseAscii (s : string) : string :=
  match s with
  | EmptyString => EmptyString
  | String c r => String (lowerChar c) (toLowerCaseAscii r)
  end.

Definition isSpace (c : ascii) : bool :=
  let n := nat_of_ascii c in
  (n =? 32)%nat || ((9 <=? n)%nat && (n <=? 13)%nat).

Fixpoint trimStart (s : string) : string :=
  match s with
  | String c r => if isSpace c then trimStart r else s
  | EmptyString => EmptyString
  end.

Fixpoint trimEnd (s : string) : string :=
  match s with
  | EmptyString => EmptyString
  | String c r =>
      match trimEnd r with
      | EmptyString => if isSpace c then EmptyString else String c EmptyString
      | r' => String c r'
      end
  end.

Definition trimAscii (s : string) : string := trimEnd (trimStart s).

Definition digitOf (c : ascii) : option Z :=
  let n := nat_of_ascii c in
  if (48 <=? n)%nat && (n <=? 57)%nat then Some (Z.of_nat (n - 48)) else None.

Fixpoint digitsValue (acc : Z) (s : string) : option Z :=
  match s with
  | EmptyString => Some acc
  | String c r =>
      match digitOf c with
      | Some d => digitsValue (10 * acc + d)%Z r
      | None => None
      end
  end.

Definition NumberDecimal (s : string) : number :=
  match digitsValue 0 s with
  | Some z => ofZ z
  | None => NaN
  end.

End AccountService.

(** ** Centers and collection records (types.ts) *)

Module Center.
Record t : Type := mk {
  rowIndex : option JS.number;
  status : option RowStatus;
  id : string;
  centerCode : Z;
  centerName : string;
  branchId : string;
  assignedEmployeeId : string;
  type : option CenterType
}.
End Center.

Module CenterCollectionRecord.
Record t : Type := mk {
  rowIndex : option JS.number;
  status : option RowStatus;
  id : string;
  branchId : string;
  employeeId : string;
  centerCode : Z;
  amount : JS.number;
  loanAmount : option JS.number;
  type : CenterType;
  createdAt : string
}.
End CenterCollectionRecord.

Definition isOFFICE (t : option CenterType) : bool :=
  match t with
  | Some OFFICE => true
  | _ => false
  end.

(** [code % 2 !== 0 ? 'OWN' : 'OFFICE'] on an integer code. *)
Definition parityType (code : Z) : CenterType :=
  if negb (Z.rem code 2 =? 0)%Z then OWN else OFFICE.

(** ** components/CenterCalculation.tsx *)
Module CenterCalculation.

(** [getCenterType] is a closure of the entry screen: it reads the master
    list [centers] and the two pieces of screen state [isNewCenter] and
    [newCenterType]. *)
Definition getCenterType
    (centers : list Center.t) (isNewCenter : bool) (newCenterType : CenterType)
    (code : Z) (branchId collectingEmpId : string) : CenterType :=
  match find (fun c => (Center.centerCode c =? code)%Z
                       && String.eqb (Center.branchId c) branchId) centers with
  | Some configuredCenter =>
      if isOFFICE (Center.type configuredCenter) then OFFICE
      else if String.eqb (Center.assignedEmployeeId configuredCenter)
                         collectingEmpId
      then OWN
      else OFFICE
  | None =>
      if isNewCenter then newCenterType
      else parityType code
  end.

End CenterCalculation.

(** ** App.tsx: the collection aggregation of [gridRows] *)
Module App.
Import JS.
Local Open Scope js_scope.

(** [recordsByEmp]: the records grouped by [employeeId], in order. *)
Definition recordsByEmp (centerRecords : list CenterCollectionRecord.t)
    : gmap string (list CenterCollectionRecord.t) :=
  foldl (fun (m : gmap string (list CenterCollectionRecord.t)) r =>
           let k := CenterCollectionRecord.employeeId r in
           match m !! k with
           | None => <[k := [r]]> m
           | Some l => <[k := (l ++ [r])%list]> m
           end) ∅ centerRecords.

(** The key [`${branchId}-${centerCode}`] of the center map. *)
Definition centerKey (branchId : string) (centerCode : Z) : string :=
  branchId ++ "-" ++ pretty centerCode.

(** The centers are uniquely identified by their key. *)
Definition uniqueKeys (centers : list Center.t) : Prop :=
  NoDup (map (fun c => centerKey (Center.branchId c) (Center.centerCode c))
             centers).

(** [centerMap]: every center stored under its key, a later center
    replacing an earlier one with the same key. *)
Definition centerMap (centers : list Center.t) : gmap string Center.t :=
  foldl (fun m c =>
           <[centerKey (Center.branchId c) (Center.centerCode c) := c]> m)
        ∅ centers.

(** The ownership decision taken for one record of the employee
    [employee_id]. *)
Definition isOwn (cmap : gmap string Center.t) (employee_id : string)
    (r : CenterCollectionRecord.t) : bool :=
  match cmap !! centerKey (CenterCollectionRecord.branchId r)
                          (CenterCollectionRecord.centerCode r) with
  | Some center =>
      if isOFFICE (Center.type center) then false
      else String.eqb (Center.assignedEmployeeId center) employee_id
  | None =>
      match CenterCollectionRecord.type r with
      | OWN => true
      | OFFICE => false
      end
  end.

(** The loop that pushes each record to [ownRecords] or [offRecords]. *)
Definition partitionRecords (cmap : gmap string Center.t) (employee_id : string)
    (currentMonthRecords : list CenterCollectionRecord.t)
    : list CenterCollectionRecord.t * list CenterCollectionRecord.t :=
  foldl (fun acc r =>
           if isOwn cmap employee_id r then ((fst acc ++ [r])%list, snd acc)
           else (fst acc, (snd acc ++ [r])%list))
        ([], []) currentMonthRecords.

Definition sumAmount (rs : list CenterCollectionRecord.t) : number :=
  foldl (fun sum r => sum + CenterCollectionRecord.amount r) (ofZ 0) rs.

(** [r.loanAmount || 0] for the optional field. *)
Definition loanOr0 (r : CenterCollectionRecord.t) : number :=
  match CenterCollectionRecord.loanAmount r with
  | Some x => x||0
  | None => ofZ 0
  end.

Definition sumLoan (rs : list CenterCollectionRecord.t) : number :=
  foldl (fun sum r => sum + loanOr0 r) (ofZ 0) rs.

(** [new Set(rs.map(r => r.centerCode)).size] *)
Definition centerCount (rs : list CenterCollectionRecord.t) : nat :=
  size (list_to_set (map CenterCollectionRecord.centerCode rs) : gset Z).

(** The five figures [gridRows] computes for one entry. *)
Module Collections.
Record t : Type := mk {
  own_somity_collection : number;
  own_somity_count : nat;
  office_somity_collection : number;
  office_somity_count : nat;
  total_loan_collection : number
}.
End Collections.

Definition aggregate
    (centers : list Center.t) (centerRecords : list CenterCollectionRecord.t)
    (selectedMonth employee_id : string) : Collections.t :=
  let empRecords := default [] (recordsByEmp centerRecords !! employee_id) in
  let currentMonthRecords :=
    List.filter (fun r => startsWith (CenterCollectionRecord.createdAt r)
                                     selectedMonth) empRecords in
  let parts := partitionRecords (centerMap centers) employee_id
                                currentMonthRecords in
  let ownRecords := fst parts in
  let offRecords := snd parts in
  {| Collections.own_somity_collection := sumAmount ownRecords;
     Collections.own_somity_count := centerCount ownRecords;
     Collections.office_somity_collection := sumAmount offRecords;
     Collections.office_somity_count := centerCount offRecords;
     Collections.total_loan_collection := sumLoan currentMonthRecords |}.

(** The records the specification aggregates for an employee and a month:
    those of [allRecords] that belong to the employee and were created
    within the month. *)
Definition matchedRecords (allRecords : list CenterCollectionRecord.t)
    (month employeeId : string) : list CenterCollectionRecord.t :=
  List.filter (fun r => String.eqb (CenterCollectionRecord.employeeId r)
                                   employeeId
                        && startsWith (CenterCollectionRecord.createdAt r) month)
              allRecords.


(** The sum of a list of numbers as the specification has it: from 0,
    adding the numbers one after the other. *)
Fixpoint totalFrom (acc : number) (xs : list number) : number :=
  match xs with
  | [] => acc
  | x :: rest => totalFrom (acc + x) rest
  end.

Definition total (xs : list number) : number := totalFrom (ofZ 0) xs.



(** The classification [gridRows] gives a record, as a center type. *)
Definition classify (centers : list Center.t) (employee_id : string)
    (r : CenterCollectionRecord.t) : CenterType :=
  if isOwn (centerMap centers) employee_id r then OWN else OFFICE.

Definition isType (t : CenterType) (u : CenterType) : bool :=
  match t, u with
  | OWN, OWN | OFFICE, OFFICE => true
  | _, _ => false
  end.

(** The matched records classified [t]. *)
Definition bucket (t : CenterType) (centers : list Center.t)
    (employee_id : string) (rs : list CenterCollectionRecord.t)
    : list CenterCollectionRecord.t :=
  List.filter (fun r => isType t (classify centers employee_id r)) rs.

End App.

(** ** The collection loader (the sheet service's [getCollections])

    The object built for one row of the collections sheet, from the cells
    already converted by [Number]; [index] is the position of the row. *)
Module SheetService.
Import JS.

Definition getCollectionsRow (index : Z) (id createdAt branchId employeeId : string)
    (centerCode : Z) (amountVal loanVal : number) : CenterCollectionRecord.t :=
  let centerType := parityType centerCode in
  {| CenterCollectionRecord.rowIndex := Some (ofZ (index + 2));
     CenterCollectionRecord.id := id;
     CenterCollectionRecord.createdAt := createdAt;
     CenterCollectionRecord.branchId := branchId;
     CenterCollectionRecord.centerCode := centerCode;
     CenterCollectionRecord.employeeId := employeeId;
     CenterCollectionRecord.amount := amountVal;
     CenterCollectionRecord.loanAmount := Some loanVal;
     CenterCollectionRecord.type := centerType;
     CenterCollectionRecord.status := Some ACTIVE |}.

End SheetService.

(** ** Sample data for the closed examples *)
Module Samples.
Import JS.

(** A book schedule paying 50 per five-year book and nothing otherwise. *)
Definition bonusRates (term : Qc) : number :=
  if Qc_eq_bool term Logic.term_5 then ofZ 50 else ofZ 0.

Definition rateB : CommissionStructure.t :=
  {| CommissionStructure.rowIndex := None;
     CommissionStructure.status := None;
     CommissionStructure.typeCode := "B";
     CommissionStructure.own := ofZ 10;
     CommissionStructure.office := ofZ 6 |}.

Definition ratesMap : gmap string CommissionStructure.t := {[ "B" := rateB ]}.

(** An entry of employee [emp1] with contractual salary 26000 whose
    listed fields are given and whose other figures are zero. *)
Definition entry (basic own office center loan book5 late absent cash mc : number)
    : SalaryEntry.t :=
  {| SalaryEntry.rowIndex := None;
     SalaryEntry.status := None;
     SalaryEntry.id := "e1";
     SalaryEntry.salary_sheet_id := "s1";
     SalaryEntry.employee_id := "emp1";
     SalaryEntry.basic_salary := basic;
     SalaryEntry.commission_type := Some "B";
     SalaryEntry.own_somity_count := ofZ 0;
     SalaryEntry.own_somity_collection := own;
     SalaryEntry.office_somity_count := ofZ 0;
     SalaryEntry.office_somity_collection := office;
     SalaryEntry.center_count := ofZ 0;
     SalaryEntry.center_collection := center;
     SalaryEntry.total_loan_collection := loan;
     SalaryEntry.book_1_5 := ofZ 0;
     SalaryEntry.book_3 := ofZ 0;
     SalaryEntry.book_5 := book5;
     SalaryEntry.book_8 := ofZ 0;
     SalaryEntry.book_10 := ofZ 0;
     SalaryEntry.book_12 := ofZ 0;
     SalaryEntry.book_no_bonus := ofZ 0;
     SalaryEntry.input_late_hours := late;
     SalaryEntry.input_absent_days := absent;
     SalaryEntry.deduction_cash_advance := cash;
     SalaryEntry.deduction_late := ofZ 0;
     SalaryEntry.deduction_abs := ofZ 0;
     SalaryEntry.misconductDeduction := ofZ 0;
     SalaryEntry.deduction_unlawful := ofZ 0;
     SalaryEntry.deduction_tours := ofZ 0;
     SalaryEntry.deduction_others := ofZ 0;
     SalaryEntry.manager_convenience := mc;
     SalaryEntry.total_books := ofZ 0;
     SalaryEntry.total_collection := ofZ 0;
     SalaryEntry.total_deductions := ofZ 0;
     SalaryEntry.commission := ofZ 0;
     SalaryEntry.bonus := ofZ 0;
     SalaryEntry.final_salary := basic |}.

(** The scenario of the specification: 1000 own, 500 office, two
    five-year books. *)
Definition scenarioEntry : SalaryEntry.t :=
  entry (ofZ 26000) (ofZ 1000) (ofZ 500) (ofZ 0) (ofZ 0) (ofZ 2)
        (ofZ 0) (ofZ 0) (ofZ 0) (ofZ 0).

(** The same entry with a malformed own collection. *)
Definition nanOwnEntry : SalaryEntry.t :=
  entry (ofZ 26000) NaN (ofZ 500) (ofZ 100) (ofZ 0) (ofZ 2)
        (ofZ 0) (ofZ 0) (ofZ 0) (ofZ 0).

(** An entry with a malformed five-year book counter. *)
Definition nanBookEntry : SalaryEntry.t :=
  entry (ofZ 26000) (ofZ 1000) (ofZ 500) (ofZ 0) (ofZ 0) NaN
        (ofZ 0) (ofZ 0) (ofZ 0) (ofZ 0).

(** An entry with a malformed cash advance. *)
Definition nanCashEntry : SalaryEntry.t :=
  entry (ofZ 26000) (ofZ 1000) (ofZ 500) (ofZ 0) (ofZ 0) (ofZ 2)
        (ofZ 0) (ofZ 0) NaN (ofZ 0).

(** An entry with malformed late hours and a malformed basic salary. *)
Definition nanLateEntry : SalaryEntry.t :=
  entry NaN (ofZ 1000) (ofZ 500) (ofZ 0) (ofZ 0) (ofZ 2)
        NaN (ofZ 1) (ofZ 0) (ofZ 0).

(** An entry that still carries a manager incentive of 40. *)
Definition staleManagerEntry : SalaryEntry.t :=
  entry (ofZ 26000) (ofZ 1000) (ofZ 500) (ofZ 0) (ofZ 0) (ofZ 2)
        (ofZ 0) (ofZ 0) (ofZ 0) (ofZ 40).

Definition managerOf (total : number) : ManagerContext.t :=
  {| ManagerContext.isManager := true;
     ManagerContext.branchTotalCollection := total |}.

Definition notManager (total : number) : ManagerContext.t :=
  {| ManagerContext.isManager := false;
     ManagerContext.branchTotalCollection := total |}.

(** An account of employee [emp1] in branch [b1]. *)
Definition account (code opening : string) (amount : number)
    (counted : bool) (countedMonth : option string) : AccountOpening.t :=
  {| AccountOpening.rowIndex := None;
     AccountOpening.status := Some ACTIVE;
     AccountOpening.id := ofZ 1;
     AccountOpening.account_code := code;
     AccountOpening.term := ofZ 5;
     AccountOpening.collection_amount := amount;
     AccountOpening.opened_by_employee_id := "emp1";
     AccountOpening.branch_id := "b1";
     AccountOpening.opening_date := opening;
     AccountOpening.is_counted := counted;
     AccountOpening.counted_month := countedMonth;
     AccountOpening.salary_sheet_id := None |}.

(** [validateAccount] with the three built-ins instantiated. *)
Definition validate (code employeeId branchId sheetMonth : string)
    (allAccounts : list AccountOpening.t) : Validation.t :=
  AccountService.validateAccount AccountService.NumberDecimal
    AccountService.toLowerCaseAscii AccountService.trimAscii
    code employeeId branchId sheetMonth allAccounts.

(** A center of branch [b1]. *)
Definition center (code : Z) (assigned : string) (type : option CenterType)
    : Center.t :=
  {| Center.rowIndex := None;
     Center.status := Some ACTIVE;
     Center.id := "c" ++ pretty code;
     Center.centerCode := code;
     Center.centerName := "Center " ++ pretty code;
     Center.branchId := "b1";
     Center.assignedEmployeeId := assigned;
     Center.type := type |}.

(** A collection record of branch [b1], as the loader builds it. *)
Definition record (employee : string) (code : Z) (amount loan : number)
    (createdAt : string) : CenterCollectionRecord.t :=
  SheetService.getCollectionsRow 0 "r" createdAt "b1" employee code amount loan.

(** Center 7 is assigned to [emp1] but marked OFFICE; center 4 is
    assigned to [emp1]; center 9 is assigned to [emp2]. *)
Definition centers : list Center.t :=
  [ center 7 "emp1" (Some OFFICE); center 4 "emp1" None;
    center 9 "emp2" (Some OWN) ].

(** Records of March 2024, with one of [emp2] and one of April between
    them; codes 11 and 12 have no center. *)
Definition records : list CenterCollectionRecord.t :=
  [ record "emp1" 4 (ofZ 100) (ofZ 10) "2024-03-01T08:00:00Z";
    record "emp2" 9 (ofZ 999) (ofZ 99) "2024-03-01T09:00:00Z";
    record "emp1" 4 (ofZ 50) (ofZ 0) "2024-03-02T08:00:00Z";
    record "emp1" 7 (ofZ 30) (ofZ 5) "2024-03-03T08:00:00Z";
    record "emp1" 9 (ofZ 20) NaN "2024-03-04T08:00:00Z";
    record "emp1" 11 (ofZ 7) (ofZ 1) "2024-03-05T08:00:00Z";
    record "emp1" 12 (ofZ 8) (ofZ 2) "2024-03-06T08:00:00Z";
    record "emp1" 4 (ofZ 400) (ofZ 40) "2024-04-01T08:00:00Z" ].

End Samples.

(** ** Employees, branches, sheets and salary rows (types.ts) *)

Module Employee.
Record t : Type := mk {
  rowIndex : option JS.number;
  status : option RowStatus;
  id : string;
  name : string;
  branch_id : string;
  designation : string;
  base_salary : JS.number;
  commission_type : string
}.
End Employee.

Module Branch.
Record t : Type := mk {
  rowIndex : option JS.number;
  status : option RowStatus;
  id : string;
  name : string;
  address : option string;
  phone : option string
}.
End Branch.

Module SalarySheet.
Record t : Type := mk {
  rowIndex : option JS.number;
  status : option RowStatus;
  id : string;
  month : string;
  branch_ids : list string;
  created_at : string
}.
End SalarySheet.

(** [SalaryRow] extends [SalaryEntry] with the employee and the branch;
    the fields it inherits are kept together as [entry]. *)
Module SalaryRow.
Record t : Type := mk {
  entry : SalaryEntry.t;
  employee : Employee.t;
  branch : Branch.t
}.
End SalaryRow.

(** More of the language: [x <= y], and the object spreads that replace
    the collection figures and the book counters of an entry. *)
Module JSMore.
Import JS.
Local Open Scope js_scope.

Definition le (x y : number) : bool :=
  match x, y with
  | Num a, Num b => match (a ?= b)%Qc with Gt => false | _ => true end
  | _, _ => false
  end.

(** [{ ...entry, own_somity_count, own_somity_collection,
    office_somity_count, office_somity_collection, center_count,
    center_collection, total_loan_collection, book_1_5, ..., book_no_bonus }] *)
Definition spread (entry : SalaryEntry.t)
    (own_count own_collection office_count office_collection
     center_count center_collection loan
     b1_5 b3 b5 b8 b10 b12 bno : number) : SalaryEntry.t :=
  {| SalaryEntry.rowIndex := SalaryEntry.rowIndex entry;
     SalaryEntry.status := SalaryEntry.status entry;
     SalaryEntry.id := SalaryEntry.id entry;
     SalaryEntry.salary_sheet_id := SalaryEntry.salary_sheet_id entry;
     SalaryEntry.employee_id := SalaryEntry.employee_id entry;
     SalaryEntry.basic_salary := SalaryEntry.basic_salary entry;
     SalaryEntry.commission_type := SalaryEntry.commission_type entry;
     SalaryEntry.own_somity_count := own_count;
     SalaryEntry.own_somity_collection := own_collection;
     SalaryEntry.office_somity_count := office_count;
     SalaryEntry.office_somity_collection := office_collection;
     SalaryEntry.center_count := center_count;
     SalaryEntry.center_collection := center_collection;
     SalaryEntry.total_loan_collection := loan;
     SalaryEntry.book_1_5 := b1_5;
     SalaryEntry.book_3 := b3;
     SalaryEntry.book_5 := b5;
     SalaryEntry.book_8 := b8;
     SalaryEntry.book_10 := b10;
     SalaryEntry.book_12 := b12;
     SalaryEntry.book_no_bonus := bno;
     SalaryEntry.input_late_hours := SalaryEntry.input_late_hours entry;
     SalaryEntry.input_absent_days := SalaryEntry.input_absent_days entry;
     SalaryEntry.deduction_cash_advance :=
       SalaryEntry.deduction_cash_advance entry;
     SalaryEntry.deduction_late := SalaryEntry.deduction_late entry;
     SalaryEntry.deduction_abs := SalaryEntry.deduction_abs entry;
     SalaryEntry.misconductDeduction := SalaryEntry.misconductDeduction entry;
     SalaryEntry.deduction_unlawful := SalaryEntry.deduction_unlawful entry;
     SalaryEntry.deduction_tours := SalaryEntry.deduction_tours entry;
     SalaryEntry.deduction_others := SalaryEntry.deduction_others entry;
     SalaryEntry.manager_convenience := SalaryEntry.manager_convenience entry;
     SalaryEntry.total_books := SalaryEntry.total_books entry;
     SalaryEntry.total_collection := SalaryEntry.total_collection entry;
     SalaryEntry.total_deductions := SalaryEntry.total_deductions entry;
     SalaryEntry.commission := SalaryEntry.commission entry;
     SalaryEntry.bonus := SalaryEntry.bonus entry;
     SalaryEntry.final_salary := SalaryEntry.final_salary entry |}.

(** [{ ...entry, own_somity_collection, own_somity_count,
    office_somity_collection, office_somity_count, total_loan_collection }] *)
Definition withCollections (entry : SalaryEntry.t)
    (own_collection own_count office_collection office_count loan : number)
    : SalaryEntry.t :=
  spread entry own_count own_collection office_count office_collection
    (SalaryEntry.center_count entry) (SalaryEntry.center_collection entry) loan
    (SalaryEntry.book_1_5 entry) (SalaryEntry.book_3 entry)
    (SalaryEntry.book_5 entry) (SalaryEntry.book_8 entry)
    (SalaryEntry.book_10 entry) (SalaryEntry.book_12 entry)
    (SalaryEntry.book_no_bonus entry).

(** [{ ...entry, center_count, center_collection }] *)
Definition withCenter (entry : SalaryEntry.t)
    (center_count center_collection : number) : SalaryEntry.t :=
  spread entry (SalaryEntry.own_somity_count entry)
    (SalaryEntry.own_somity_collection entry)
    (SalaryEntry.office_somity_count entry)
    (SalaryEntry.office_somity_collection entry)
    center_count center_collection (SalaryEntry.total_loan_collection entry)
    (SalaryEntry.book_1_5 entry) (SalaryEntry.book_3 entry)
    (SalaryEntry.book_5 entry) (SalaryEntry.book_8 entry)
    (SalaryEntry.book_10 entry) (SalaryEntry.book_12 entry)
    (SalaryEntry.book_no_bonus entry).




(** The fields the table edits through [handleInputChange]. *)
Module EditField.
Inductive t : Type :=
| commission_type | basic_salary | center_count | center_collection
| book_no_bonus | deduction_cash_advance | input_late_hours
| input_absent_days | misconductDeduction | deduction_unlawful
| deduction_tours | deduction_others.

Definition code (f : t) : nat :=
  match f with
  | commission_type => 0 | basic_salary => 1 | center_count => 2
  | center_collection => 3 | book_no_bonus => 4
  | deduction_cash_advance => 5 | input_late_hours => 6
  | input_absent_days => 7 | misconductDeduction => 8
  | deduction_unlawful => 9 | deduction_tours => 10 | deduction_others => 11
  end.

Definition eqb (f g : t) : bool := Nat.eqb (code f) (code g).
End EditField.

(** [{ ...row, [field]: value }] for a field of the table: [value] is the
    number written to a numeric field and [text] the string written to
    [commission_type]. *)
Definition withField (entry : SalaryEntry.t) (field : EditField.t)
    (value : number) (text : string) : SalaryEntry.t :=
  let num f old := if EditField.eqb field f then value else old in
  {| SalaryEntry.rowIndex := SalaryEntry.rowIndex entry;
     SalaryEntry.status := SalaryEntry.status entry;
     SalaryEntry.id := SalaryEntry.id entry;
     SalaryEntry.salary_sheet_id := SalaryEntry.salary_sheet_id entry;
     SalaryEntry.employee_id := SalaryEntry.employee_id entry;
     SalaryEntry.basic_salary :=
       num EditField.basic_salary (SalaryEntry.basic_salary entry);
     SalaryEntry.commission_type :=
       if EditField.eqb field EditField.commission_type then Some text
       else SalaryEntry.commission_type entry;
     SalaryEntry.own_somity_count := SalaryEntry.own_somity_count entry;
     SalaryEntry.own_somity_collection :=
       SalaryEntry.own_somity_collection entry;
     SalaryEntry.office_somity_count := SalaryEntry.office_somity_count entry;
     SalaryEntry.office_somity_collection :=
       SalaryEntry.office_somity_collection entry;
     SalaryEntry.center_count :=
       num EditField.center_count (SalaryEntry.center_count entry);
     SalaryEntry.center_collection :=
       num EditField.center_collection (SalaryEntry.center_collection entry);
     SalaryEntry.total_loan_collection :=
       SalaryEntry.total_loan_collection entry;
     SalaryEntry.book_1_5 := SalaryEntry.book_1_5 entry;
     SalaryEntry.book_3 := SalaryEntry.book_3 entry;
     SalaryEntry.book_5 := SalaryEntry.book_5 entry;
     SalaryEntry.book_8 := SalaryEntry.book_8 entry;
     SalaryEntry.book_10 := SalaryEntry.book_10 entry;
     SalaryEntry.book_12 := SalaryEntry.book_12 entry;
     SalaryEntry.book_no_bonus :=
       num EditField.book_no_bonus (SalaryEntry.book_no_bonus entry);
     SalaryEntry.input_late_hours :=
       num EditField.input_late_hours (SalaryEntry.input_late_hours entry);
     SalaryEntry.input_absent_days :=
       num EditField.input_absent_days (SalaryEntry.input_absent_days entry);
     SalaryEntry.deduction_cash_advance :=
       num EditField.deduction_cash_advance
           (SalaryEntry.deduction_cash_advance entry);
     SalaryEntry.deduction_late := SalaryEntry.deduction_late entry;
     SalaryEntry.deduction_abs := SalaryEntry.deduction_abs entry;
     SalaryEntry.misconductDeduction :=
       num EditField.misconductDeduction
           (SalaryEntry.misconductDeduction entry);
     SalaryEntry.deduction_unlawful :=
       num EditField.deduction_unlawful
           (SalaryEntry.deduction_unlawful entry);
     SalaryEntry.deduction_tours :=
       num EditField.deduction_tours (SalaryEntry.deduction_tours entry);
     SalaryEntry.deduction_others :=
       num EditField.deduction_others (SalaryEntry.deduction_others entry);
     SalaryEntry.manager_convenience := SalaryEntry.manager_convenience entry;
     SalaryEntry.total_books := SalaryEntry.total_books entry;
     SalaryEntry.total_collection := SalaryEntry.total_collection entry;
     SalaryEntry.total_deductions := SalaryEntry.total_deductions entry;
     SalaryEntry.commission := SalaryEntry.commission entry;
     SalaryEntry.bonus := SalaryEntry.bonus entry;
     SalaryEntry.final_salary := SalaryEntry.final_salary entry |}.

(** The fields [recalculateEntry] reads without [|| 0] hold numbers: the
    seven book counters and the four deduction amounts that are entered as
    amounts.  Every function of the application that builds or changes an
    entry keeps it so. *)
Definition coerced (entry : SalaryEntry.t) : Prop :=
  Forall (fun x => isNaN x = false)
    [ SalaryEntry.book_1_5 entry; SalaryEntry.book_3 entry;
      SalaryEntry.book_5 entry; SalaryEntry.book_8 entry;
      SalaryEntry.book_10 entry; SalaryEntry.book_12 entry;
      SalaryEntry.book_no_bonus entry;
      SalaryEntry.deduction_cash_advance entry;
      SalaryEntry.deduction_unlawful entry;
      SalaryEntry.deduction_tours entry;
      SalaryEntry.deduction_others entry ].


End JSMore.

(** ** services/accountService.ts: the accounts of an employee *)
Module AccountLists.

Definition getAccountsByEmployee (id : string)
    (allAccounts : list AccountOpening.t) : list AccountOpening.t :=
  List.filter (fun a => String.eqb (AccountOpening.opened_by_employee_id a) id)
              allAccounts.

End AccountLists.

(** ** App.tsx: scan confirmation, sheet generation, the salary grid *)
Module AppState.
Import JS JSMore.
Local Open Scope js_scope.

(** [{ ...acc, is_counted: true, counted_month: selectedMonth,
    salary_sheet_id: currentSheet ? currentSheet.id : null }] *)
Definition markCounted (selectedMonth : string)
    (currentSheet : option SalarySheet.t) (acc : AccountOpening.t)
    : AccountOpening.t :=
  {| AccountOpening.rowIndex := AccountOpening.rowIndex acc;
     AccountOpening.status := AccountOpening.status acc;
     AccountOpening.id := AccountOpening.id acc;
     AccountOpening.account_code := AccountOpening.account_code acc;
     AccountOpening.term := AccountOpening.term acc;
     AccountOpening.collection_amount := AccountOpening.collection_amount acc;
     AccountOpening.opened_by_employee_id :=
       AccountOpening.opened_by_employee_id acc;
     AccountOpening.branch_id := AccountOpening.branch_id acc;
     AccountOpening.opening_date := AccountOpening.opening_date acc;
     AccountOpening.is_counted := true;
     AccountOpening.counted_month := Some selectedMonth;
     AccountOpening.salary_sheet_id :=
       match currentSheet with
       | Some sheet => Some (SalarySheet.id sheet)
       | None => None
       end |}.

(** [branchTotals[k] || 0] *)
Definition lookupOr0 (m : gmap string number) (k : string) : number :=
  match m !! k with
  | Some v => v||0
  | None => ofZ 0
  end.

(** The first loop of the branch totals: the records of the month. *)
Definition recordTotals (centerRecords : list CenterCollectionRecord.t)
    (selectedMonth : string) : gmap string number :=
  foldl (fun (m : gmap string number) r =>
           if startsWith (CenterCollectionRecord.createdAt r) selectedMonth
           then
             let total := CenterCollectionRecord.amount r + App.loanOr0 r in
             <[CenterCollectionRecord.branchId r :=
                 lookupOr0 m (CenterCollectionRecord.branchId r) + total]> m
           else m)
        ∅ centerRecords.

(** [employees.find(emp => emp.id === e.employee_id)] *)
Definition employeeOf (employees : list Employee.t) (employee_id : string)
    : option Employee.t :=
  find (fun emp => String.eqb (Employee.id emp) employee_id) employees.

(** The second loop: the manual center collections of the sheet. *)
Definition branchTotals (centerRecords : list CenterCollectionRecord.t)
    (selectedMonth : string) (entries : list SalaryEntry.t)
    (employees : list Employee.t) : gmap string number :=
  foldl (fun (m : gmap string number) e =>
           match employeeOf employees (SalaryEntry.employee_id e) with
           | Some emp =>
               if truthyS (Some (Employee.branch_id emp))
               then <[Employee.branch_id emp :=
                        lookupOr0 m (Employee.branch_id emp)
                        + (SalaryEntry.center_collection e)||0]> m
               else m
           | None => m
           end)
        (recordTotals centerRecords selectedMonth) entries.

(** [{ id: 'unknown', name: 'Unknown' } as Branch] *)
Definition unknownBranch : Branch.t :=
  {| Branch.rowIndex := None; Branch.status := None;
     Branch.id := "unknown"; Branch.name := "Unknown";
     Branch.address := None; Branch.phone := None |}.

Section Grid.

Variable bonusRates : Qc -> number.
Variable toLowerCase : string -> string.
Variable trim : string -> string.

(** [handleAccountScanned]: the accounts after the scan of [code] is
    confirmed. *)
Definition handleAccountScanned (selectedMonth : string)
    (currentSheet : option SalarySheet.t) (code : string)
    (prev : list AccountOpening.t) : list AccountOpening.t :=
  let normalizedCode := toLowerCase (trim code) in
  map (fun acc =>
         if String.eqb (toLowerCase (AccountOpening.account_code acc))
                       normalizedCode
         then markCounted selectedMonth currentSheet acc
         else acc) prev.

(** [handleGenerate]: the new sheet and its entries, or nothing when the
    user may not generate or no branch is selected.  The identifiers
    drawn by [generateId()] and the clock are passed in. *)
Definition handleGenerate (isNormalUser isManager : bool)
    (userBranch : option string) (selectedBranchIds : list string)
    (selectedMonth sheetId now : string) (entryIds : nat -> string)
    (employees : list Employee.t)
    (commissionRates : gmap string CommissionStructure.t)
    : option (SalarySheet.t * list SalaryEntry.t) :=
  if isNormalUser then None
  else
    let targetBranches :=
      if isManager && truthyS userBranch then [textOf userBranch]
      else selectedBranchIds in
    if (length targetBranches =? 0)%nat then None
    else
      let newSheet :=
        {| SalarySheet.rowIndex := None; SalarySheet.status := None;
           SalarySheet.id := sheetId; SalarySheet.month := selectedMonth;
           SalarySheet.branch_ids := targetBranches;
           SalarySheet.created_at := now |} in
      let targetEmployees :=
        List.filter (fun e => existsb (String.eqb (Employee.branch_id e))
                                      targetBranches) employees in
      let newEntries :=
        imap (fun i emp =>
                Logic.recalculateEntry bonusRates
                  (Logic.createEmptyEntry (entryIds i) (SalarySheet.id newSheet)
                     (Employee.id emp) (Employee.base_salary emp)
                     (Some (Employee.commission_type emp)))
                  (Employee.base_salary emp) commissionRates None None)
             targetEmployees in
      Some (newSheet, newEntries).

(** The manager role detection of the grid. *)
Definition isBranchManager (employee : Employee.t) : bool :=
  String.eqb (toLowerCase (trim (Employee.designation employee)))
             "branch manager"
  || String.eqb (toLowerCase (trim (Employee.designation employee)))
                "branch_manager".

(** The row [gridRows] computes for one entry, or nothing when the entry
    is filtered out. *)
Definition gridRow (isManager : bool) (userBranch : option string)
    (employees : list Employee.t) (branches : list Branch.t)
    (centerRecords : list CenterCollectionRecord.t)
    (commissionRates : gmap string CommissionStructure.t)
    (selectedMonth : string) (centers : list Center.t)
    (totals : gmap string number) (entry : SalaryEntry.t)
    : option SalaryRow.t :=
  match employeeOf employees (SalaryEntry.employee_id entry) with
  | None => None
  | Some employee =>
    if isManager && truthyS userBranch
       && negb (strictEqS userBranch (Employee.branch_id employee))
    then None
    else
      let branch :=
        match find (fun b => String.eqb (Branch.id b)
                                        (Employee.branch_id employee))
                   branches with
        | Some b => b
        | None => unknownBranch
        end in
      let a := App.aggregate centers centerRecords selectedMonth
                 (SalaryEntry.employee_id entry) in
      let branchTotal := lookupOr0 totals (Branch.id branch) in
      let calculatedEntry :=
        Logic.recalculateEntry bonusRates
          (withCollections entry
             (App.Collections.own_somity_collection a)
             (ofZ (Z.of_nat (App.Collections.own_somity_count a)))
             (App.Collections.office_somity_collection a)
             (ofZ (Z.of_nat (App.Collections.office_somity_count a)))
             (App.Collections.total_loan_collection a))
          (Employee.base_salary employee) commissionRates
          (orS (orS (SalaryEntry.commission_type entry)
                    (Some (Employee.commission_type employee)))
               (Some "A"))
          (Some {| ManagerContext.isManager := isBranchManager employee;
                   ManagerContext.branchTotalCollection := branchTotal |}) in
      Some {| SalaryRow.entry := calculatedEntry;
              SalaryRow.employee := employee;
              SalaryRow.branch := branch |}
  end.

Definition gridRows (isNormalUser isManager : bool)
    (userBranch : option string) (entries : list SalaryEntry.t)
    (employees : list Employee.t) (branches : list Branch.t)
    (centerRecords : list CenterCollectionRecord.t)
    (commissionRates : gmap string CommissionStructure.t)
    (selectedMonth : string) (centers : list Center.t) : list SalaryRow.t :=
  if isNormalUser then []
  else
    let totals := branchTotals centerRecords selectedMonth entries employees in
    omap (gridRow isManager userBranch employees branches centerRecords
            commissionRates selectedMonth centers totals) entries.

End Grid.

End AppState.

(** ** The salary table (components/SalaryTable) and the bonus of a term
    (services/salaryCalculation) *)
Module SalaryTable.
Import JS JSMore.
Local Open Scope js_scope.



(** What a manual center collection results in: nothing, the alert for an
    invalid amount, or the recalculated entry. *)
Inductive CenterOutcome : Type :=
| NoRow
| InvalidAmount
| Added (recalculated : SalaryEntry.t).

Section Table.

Variable bonusRates : Qc -> number.
Variable Number : string -> number.
Variable toLowerCase : string -> string.
Variable trim : string -> string.
Variable parseFloat : string -> number.



(** [row.commission_type || row.employee.commission_type || 'A'] *)
Definition typeOfRow (row : SalaryRow.t) : option string :=
  orS (orS (SalaryEntry.commission_type (SalaryRow.entry row))
           (Some (Employee.commission_type (SalaryRow.employee row))))
      (Some "A").


Definition handleCenterSubmit (foundEmployeeRow : option SalaryRow.t)
    (centerAmount : string)
    (commissionRates : gmap string CommissionStructure.t) : CenterOutcome :=
  match foundEmployeeRow with
  | None => NoRow
  | Some row =>
    if String.eqb centerAmount "" then NoRow
    else
      let amount := parseFloat centerAmount in
      if isNaN amount || le amount (ofZ 0) then InvalidAmount
      else
        let updatedEntry :=
          withCenter (SalaryRow.entry row)
            ((SalaryEntry.center_count (SalaryRow.entry row))||0 + ofZ 1)
            ((SalaryEntry.center_collection (SalaryRow.entry row))||0
             + amount) in
        Added (Logic.recalculateEntry bonusRates updatedEntry
                 (Employee.base_salary (SalaryRow.employee row))
                 commissionRates (typeOfRow row) None)
  end.

(** [handleInputChange]: the entry handed to [onUpdateRow], or nothing in
    a read-only table.  [value] is the text of the input. *)
Definition handleInputChange (readOnly : bool) (row : SalaryRow.t)
    (field : EditField.t) (value : string)
    (commissionRates : gmap string CommissionStructure.t)
    : option SalaryEntry.t :=
  if readOnly then None
  else
    let number := (parseFloat value)||0 in
    let updatedEntry := withField (SalaryRow.entry row) field number value in
    let commTypeForCalc :=
      if EditField.eqb field EditField.commission_type then Some value
      else SalaryEntry.commission_type (SalaryRow.entry row) in
    Some (Logic.recalculateEntry bonusRates updatedEntry
            (Employee.base_salary (SalaryRow.employee row)) commissionRates
            (orS (orS commTypeForCalc
                      (Some (Employee.commission_type (SalaryRow.employee row))))
                 (Some "A"))
            None).

End Table.

End SalaryTable.

(** ** The salary slip (components/SalarySlip) *)
Module SalarySlip.
Import JS.
Local Open Scope js_scope.

(** [row.employee.commission_type || 'A'] *)
Definition commType (row : SalaryRow.t) : string :=
  textOf (orS (Some (Employee.commission_type (SalaryRow.employee row)))
              (Some "A")).

Definition ownComm (commissionRates : gmap string CommissionStructure.t)
    (row : SalaryRow.t) : number :=
  let rates := Logic.rateStructOf commissionRates (commType row) in
  SalaryEntry.own_somity_collection (SalaryRow.entry row)
  * (fst rates / ofZ 100).

Definition officeComm (commissionRates : gmap string CommissionStructure.t)
    (row : SalaryRow.t) : number :=
  let rates := Logic.rateStructOf commissionRates (commType row) in
  SalaryEntry.office_somity_collection (SalaryRow.entry row)
  * (snd rates / ofZ 100).

Definition bookCommission (bonusRates : Qc -> number) (row : SalaryRow.t)
    : number :=
  (SalaryEntry.book_1_5 (SalaryRow.entry row) * bonusRates Logic.term_1_5) +
  (SalaryEntry.book_3 (SalaryRow.entry row) * bonusRates Logic.term_3) +
  (SalaryEntry.book_5 (SalaryRow.entry row) * bonusRates Logic.term_5) +
  (SalaryEntry.book_8 (SalaryRow.entry row) * bonusRates Logic.term_8) +
  (SalaryEntry.book_10 (SalaryRow.entry row) * bonusRates Logic.term_10) +
  (SalaryEntry.book_12 (SalaryRow.entry row) * bonusRates Logic.term_12).

Definition totalEarnings (row : SalaryRow.t) : number :=
  (SalaryEntry.basic_salary (SalaryRow.entry row))||0
  + SalaryEntry.commission (SalaryRow.entry row)
  + SalaryEntry.bonus (SalaryRow.entry row)
  + (SalaryEntry.manager_convenience (SalaryRow.entry row))||0.

(** The accounts listed on the slip: counted in this month for the
    employee, with a collection of at least 600. *)
Definition bonusableAccounts (accounts : list AccountOpening.t)
    (row : SalaryRow.t) (month : string) : list AccountOpening.t :=
  List.filter
    (fun acc =>
       String.eqb (AccountOpening.opened_by_employee_id acc)
                  (Employee.id (SalaryRow.employee row))
       && strictEqS (AccountOpening.counted_month acc) month
       && ge (AccountOpening.collection_amount acc) (ofZ 600))
    accounts.

End SalarySlip.

(** ** What the branch totals range over *)
Module GridSpec.
Import JS.


(** An entry whose employee is known and works in the branch. *)
Definition entryOf (employees : list Employee.t) (branchId : string)
    (e : SalaryEntry.t) : bool :=
  match AppState.employeeOf employees (SalaryEntry.employee_id e) with
  | Some emp =>
      truthyS (Some (Employee.branch_id emp))
      && String.eqb (Employee.branch_id emp) branchId
  | None => false
  end.

(** The employees a sheet is generated for. *)
Definition targetEmployees (branch_ids : list string)
    (employees : list Employee.t) : list Employee.t :=
  List.filter (fun e => existsb (String.eqb (Employee.branch_id e)) branch_ids)
              employees.

End GridSpec.

(** ** More sample data *)
Module Samples2.
Import JS.

Definition employee (id branch designation : string) (base : number)
    : Employee.t :=
  {| Employee.rowIndex := None; Employee.status := Some ACTIVE;
     Employee.id := id; Employee.name := "Employee " ++ id;
     Employee.branch_id := branch; Employee.designation := designation;
     Employee.base_salary := base; Employee.commission_type := "B" |}.

Definition branch (id : string) : Branch.t :=
  {| Branch.rowIndex := None; Branch.status := Some ACTIVE;
     Branch.id := id; Branch.name := "Branch " ++ id;
     Branch.address := None; Branch.phone := None |}.

(** [emp1] is a field officer and [emp2] the manager of branch [b1];
    [emp3] works in branch [b2]. *)
Definition employees : list Employee.t :=
  [ employee "emp1" "b1" "Field Officer" (ofZ 26000);
    employee "emp2" "b1" " Branch Manager " (ofZ 39000);
    employee "emp3" "b2" "Field Officer" (ofZ 13000) ].

Definition branches : list Branch.t := [ branch "b1"; branch "b2" ].

(** An entry of the sheet [s1] for an employee, empty but for a manual
    center collection. *)
Definition entryOf (employee_id : string) (center : number) : SalaryEntry.t :=
  JSMore.withCenter
    (Logic.createEmptyEntry ("e-" ++ employee_id) "s1" employee_id
       (ofZ 26000) (Some "B"))
    (ofZ 1) center.

(** The entry of [emp1] still carries an incentive of 40; [ghost] is no
    employee. *)
Definition entries : list SalaryEntry.t :=
  [ Samples.staleManagerEntry; entryOf "emp2" (ofZ 25);
    entryOf "ghost" (ofZ 0); entryOf "emp3" (ofZ 0) ].

Definition row (e : SalaryEntry.t) (emp : Employee.t) : SalaryRow.t :=
  {| SalaryRow.entry := e; SalaryRow.employee := emp;
     SalaryRow.branch := branch (Employee.branch_id emp) |}.

Definition sheet : SalarySheet.t :=
  {| SalarySheet.rowIndex := None; SalarySheet.status := None;
     SalarySheet.id := "s1"; SalarySheet.month := "2024-03";
     SalarySheet.branch_ids := ["b1"]; SalarySheet.created_at := "now" |}.

(** A record of branch [b1] with a malformed amount, on 2024-03-02. *)
Definition badRecord : CenterCollectionRecord.t :=
  Samples.record "emp1" 4 NaN (ofZ 0) "2024-03-02T10:00:00Z".

Definition gridRows (isNormalUser isManager : bool)
    (userBranch : option string) : list SalaryRow.t :=
  AppState.gridRows Samples.bonusRates AccountService.toLowerCaseAscii
    AccountService.trimAscii isNormalUser isManager userBranch entries
    employees branches Samples.records Samples.ratesMap "2024-03"
    Samples.centers.

End Samples2.

(** ** The entry screen (components/CenterCalculation.tsx), continued *)
Module CenterScreen.
Import JS JSMore.
Local Open Scope js_scope.

(** The locked branch and employee of the session. *)
Module ActiveContext.
Record t : Type := mk {
  branchId : string;
  employeeId : string
}.
End ActiveContext.

(** What [onCreateCenter] is given. *)
Module NewCenter.
Record t : Type := mk {
  centerCode : Z;
  centerName : string;
  branchId : string;
  assignedEmployeeId : string;
  type : CenterType
}.
End NewCenter.

(** What a submission of the deposit form results in: a plain return, an
    alert, or the center created on the fly and the records staged. *)
Inductive DepositOutcome : Type :=
| Returned
| Alerted (message : string)
| Staged (created : option NewCenter.t)
         (newRecords : list CenterCollectionRecord.t).

(** [x === y] on numbers. *)
Definition strictEq (x y : number) : bool :=
  match x, y with
  | Num a, Num b => Qc_eq_bool a b
  | _, _ => false
  end.

Definition allRecords (stagedRecords records : list CenterCollectionRecord.t)
    : list CenterCollectionRecord.t :=
  (stagedRecords ++ records)%list.


Definition availableCenters (centers : list Center.t)
    (activeContext : option ActiveContext.t) : list Center.t :=
  match activeContext with
  | None => []
  | Some ctx =>
      List.filter (fun c => String.eqb (Center.branchId c)
                                       (ActiveContext.branchId ctx)) centers
  end.

(** The type the summary gives a record. *)
Definition calculatedType (centers : list Center.t)
    (r : CenterCollectionRecord.t) : CenterType :=
  match find (fun c => (Center.centerCode c
                        =? CenterCollectionRecord.centerCode r)%Z
                       && String.eqb (Center.branchId c)
                                     (CenterCollectionRecord.branchId r))
             centers with
  | Some center =>
      if isOFFICE (Center.type center) then OFFICE
      else if String.eqb (Center.assignedEmployeeId center)
                         (CenterCollectionRecord.employeeId r)
      then OWN
      else OFFICE
  | None => CenterCollectionRecord.type r
  end.

(** The running figures of the loop of [globalSummary]. *)
Module Running.
Record t : Type := mk {
  ownSavings : number;
  ownLoan : number;
  officeSavings : number;
  officeLoan : number;
  ownMap : gset string;
  officeMap : gset string
}.
End Running.

Module Summary.
Record t : Type := mk {
  ownCount : nat;
  ownSavings : number;
  ownLoan : number;
  officeCount : nat;
  officeSavings : number;
  officeLoan : number
}.
End Summary.



Section Screen.

(** [parseFloat], [parseInt] (a [NaN] result is [None]) and
    [String.prototype.trim]. *)
Variable parseFloat : string -> number.
Variable parseInt : string -> option Z.
Variable trim : string -> string.

Definition isNewCenter (centers : list Center.t)
    (activeContext : option ActiveContext.t) (centerCodeInput : string)
    : bool :=
  match parseInt centerCodeInput with
  | None => false
  | Some code =>
      if String.eqb centerCodeInput "" then false
      else negb (existsb (fun c => (Center.centerCode c =? code)%Z)
                         (availableCenters centers activeContext))
  end.

(** [handleSubmitDeposit]; [onCreateCenter] tells whether the screen was
    given that callback, [timestamp] and [tempIdPrefix] are the values the
    clock and the random generator give. *)
Definition handleSubmitDeposit (readOnly : bool)
    (activeContext : option ActiveContext.t) (centers : list Center.t)
    (centerCodeInput amountInput loanInput newCenterName : string)
    (newCenterType : CenterType) (onCreateCenter : bool)
    (timestamp tempIdPrefix : string) : DepositOutcome :=
  if readOnly then Returned
  else
    match activeContext with
    | None => Returned
    | Some ctx =>
      if String.eqb centerCodeInput "" then Returned
      else
        let targetBranchId := ActiveContext.branchId ctx in
        let targetEmployeeId := ActiveContext.employeeId ctx in
        if String.eqb targetBranchId "" then
          Alerted "Critical Error: No branch in active context."
        else
          let amount := (parseFloat amountInput)||0 in
          let loanAmount := (parseFloat loanInput)||0 in
          if (isNaN amount || lt amount (ofZ 0))
             && (isNaN loanAmount || lt loanAmount (ofZ 0))
          then Alerted "Invalid Amounts"
          else if strictEq amount (ofZ 0) && strictEq loanAmount (ofZ 0)
          then Alerted "Please enter at least a Savings or Loan amount."
          else
            match parseInt centerCodeInput with
            | None => Alerted "Invalid Center Code"
            | Some code =>
              if (code <=? 0)%Z then Alerted "Invalid Center Code"
              else
                let isNew :=
                  isNewCenter centers activeContext centerCodeInput in
                let created :=
                  if isNew && onCreateCenter then
                    Some {| NewCenter.centerCode := code;
                            NewCenter.centerName :=
                              textOf (orS (Some (trim newCenterName))
                                          (Some ("Center " ++ pretty code)));
                            NewCenter.branchId := targetBranchId;
                            NewCenter.assignedEmployeeId := targetEmployeeId;
                            NewCenter.type := newCenterType |}
                  else None in
                let type :=
                  CenterCalculation.getCenterType centers isNew newCenterType
                    code targetBranchId targetEmployeeId in
                let savings :=
                  if gt amount (ofZ 0) then
                    [ {| CenterCollectionRecord.rowIndex := None;
                         CenterCollectionRecord.id := tempIdPrefix ++ "_S";
                         CenterCollectionRecord.createdAt := timestamp;
                         CenterCollectionRecord.branchId := targetBranchId;
                         CenterCollectionRecord.employeeId := targetEmployeeId;
                         CenterCollectionRecord.centerCode := code;
                         CenterCollectionRecord.amount := amount;
                         CenterCollectionRecord.loanAmount := Some (ofZ 0);
                         CenterCollectionRecord.type := type;
                         CenterCollectionRecord.status := Some PENDING |} ]
                  else [] in
                let loan :=
                  if gt loanAmount (ofZ 0) then
                    [ {| CenterCollectionRecord.rowIndex := None;
                         CenterCollectionRecord.id := tempIdPrefix ++ "_L";
                         CenterCollectionRecord.createdAt := timestamp;
                         CenterCollectionRecord.branchId := targetBranchId;
                         CenterCollectionRecord.employeeId := targetEmployeeId;
                         CenterCollectionRecord.centerCode := code;
                         CenterCollectionRecord.amount := ofZ 0;
                         CenterCollectionRecord.loanAmount := Some loanAmount;
                         CenterCollectionRecord.type := type;
                         CenterCollectionRecord.status := Some PENDING |} ]
                  else [] in
                Staged created (savings ++ loan)%list
            end
    end.

End Screen.

(** [parseInt] and [parseFloat] on an optional minus sign followed by
    decimal digits and then anything but a point or an exponent: the digits
    read, [NaN] without a leading digit. *)
Fixpoint leadingDigits (acc : option Z) (s : string) : option Z :=
  match s with
  | EmptyString => acc
  | String c r =>
      match AccountService.digitOf c with
      | Some d => leadingDigits (Some (10 * default 0%Z acc + d)%Z) r
      | None => acc
      end
  end.

Definition parseIntDecimal (s : string) : option Z :=
  match s with
  | String "-"%char r => option_map Z.opp (leadingDigits None r)
  | _ => leadingDigits None s
  end.

Definition parseFloatDecimal (s : string) : number :=
  match parseIntDecimal s with
  | Some z => ofZ z
  | None => NaN
  end.

(** The submission of the samples: the context is branch [b1] and employee
    [emp1], the master list is that of the samples. *)
Definition submit (centerCodeInput amountInput loanInput : string)
    (newCenterType : CenterType) : DepositOutcome :=
  handleSubmitDeposit parseFloatDecimal parseIntDecimal
    AccountService.trimAscii false
    (Some {| ActiveContext.branchId := "b1";
             ActiveContext.employeeId := "emp1" |})
    Samples.centers centerCodeInput amountInput loanInput "" newCenterType
    true "2024-03-09T08:00:00Z" "temp_1".

End CenterScreen.

(** ** The center report (components/CenterReport.tsx) *)
Module CenterReport.
Import JS.

(** What [effectiveRecords] maps one record to. *)
Definition effectiveRecord (centers : list Center.t)
    (r : CenterCollectionRecord.t) : CenterCollectionRecord.t :=
  match find (fun c => (Center.centerCode c
                        =? CenterCollectionRecord.centerCode r)%Z
                       && String.eqb (Center.branchId c)
                                     (CenterCollectionRecord.branchId r))
             centers with
  | Some strictMatch => r
  | None =>
      match List.filter (fun c => (Center.centerCode c
                                   =? CenterCollectionRecord.centerCode r)%Z)
                        centers with
      | [master] =>
          let resolvedType :=
            if isOFFICE (Center.type master) then OFFICE
            else if String.eqb (Center.assignedEmployeeId master)
                               (CenterCollectionRecord.employeeId r)
            then OWN
            else OFFICE in
          {| CenterCollectionRecord.rowIndex :=
               CenterCollectionRecord.rowIndex r;
             CenterCollectionRecord.status := CenterCollectionRecord.status r;
             CenterCollectionRecord.id := CenterCollectionRecord.id r;
             CenterCollectionRecord.branchId := Center.branchId master;
             CenterCollectionRecord.employeeId :=
               CenterCollectionRecord.employeeId r;
             CenterCollectionRecord.centerCode :=
               CenterCollectionRecord.centerCode r;
             CenterCollectionRecord.amount := CenterCollectionRecord.amount r;
             CenterCollectionRecord.loanAmount :=
               CenterCollectionRecord.loanAmount r;
             CenterCollectionRecord.type := resolvedType;
             CenterCollectionRecord.createdAt :=
               CenterCollectionRecord.createdAt r |}
      | _ => r
      end
  end.

Definition effectiveRecords (centers : list Center.t)
    (records : list CenterCollectionRecord.t)
    : list CenterCollectionRecord.t :=
  map (effectiveRecord centers) records.

(** The type the aggregation of the report gives a record. *)
Definition effectiveType (centers : list Center.t)
    (r : CenterCollectionRecord.t) : CenterType :=
  match find (fun c => (Center.centerCode c
                        =? CenterCollectionRecord.centerCode r)%Z
                       && String.eqb (Center.branchId c)
                                     (CenterCollectionRecord.branchId r))
             centers with
  | Some center =>
      if isOFFICE (Center.type center) then OFFICE
      else if String.eqb (Center.assignedEmployeeId center)
                         (CenterCollectionRecord.employeeId r)
      then OWN
      else OFFICE
  | None => CenterCollectionRecord.type r
  end.

(** A record of branch [b9], which the master list of the samples does not
    have, for center 4. *)
Definition movedRecord : CenterCollectionRecord.t :=
  SheetService.getCollectionsRow 0 "r" "2024-03-01T08:00:00Z" "b9" "emp1" 4
    (ofZ 100) (ofZ 0).

End CenterReport.

(** ** The branch selection of the application (App.tsx) *)
Module Selection.

(** [toggleBranch] *)
Definition toggleBranch (id : string) (prev : list string) : list string :=
  if existsb (String.eqb id) prev
  then List.filter (fun b => negb (String.eqb b id)) prev
  else (prev ++ [id])%list.

End Selection.

(** * Properties *)

(** ** Numbers *)
Module JSFacts.
Import JS.
Local Open Scope js_scope.

Lemma ofZ_0 : ofZ 0 = Num 0%Qc.
Proof. reflexivity. Qed.

Lemma or0_Num (q : Qc) : (Num q)||0 = Num q.
Proof.
  unfold or0, truthy.
  destruct (Qc_eq_bool q 0%Qc) eqn:E; simpl; [|reflexivity].
  apply Qc_eq_bool_correct in E. now rewrite E.
Qed.

Lemma or0_NaN : NaN||0 = ofZ 0.
Proof. reflexivity. Qed.

Lemma or0_not_NaN (x : number) : isNaN x = false -> x||0 = x.
Proof. destruct x; [intros _; apply or0_Num | discriminate]. Qed.

Lemma or0_is_Num (x : number) : exists q, x||0 = Num q.
Proof. destruct x as [q|]; [exists q; apply or0_Num | now exists 0%Qc]. Qed.

Lemma isNaN_or0 (x : number) : isNaN (x||0) = false.
Proof. destruct (or0_is_Num x) as [q ->]. reflexivity. Qed.

Lemma Qc_eq_bool_refl (q : Qc) : Qc_eq_bool q q = true.
Proof. unfold Qc_eq_bool. destruct (Qcanon.Qc_eq_dec q q); congruence. Qed.

Lemma eqb_eq (x y : number) : eqb x y = true <-> x = y.
Proof.
  destruct x as [a|], y as [b|]; simpl; split; intros H;
    try discriminate; try reflexivity.
  - apply Qc_eq_bool_correct in H. now subst.
  - injection H as ->. apply Qc_eq_bool_refl.
Qed.

Lemma eqb_neq (x y : number) : eqb x y = false -> x <> y.
Proof.
  intros H E. apply eqb_eq in E. congruence.
Qed.






Lemma add_NaN_l (y : number) : NaN + y = NaN.
Proof. reflexivity. Qed.

Lemma lt_NaN_l (y : number) : lt NaN y = false.
Proof. reflexivity. Qed.

Lemma lt_NaN_r (x : number) : lt x NaN = false.
Proof. destruct x; reflexivity. Qed.

(** On rationals the three comparisons are the order of [Qc]. *)
Lemma lt_Num (a b : Qc) : lt (Num a) (Num b) = true <-> (a < b)%Qc.
Proof.
  simpl. unfold Qclt, Qccompare. rewrite Qlt_alt.
  destruct (this a ?= this b)%Q; split; congruence.
Qed.

Lemma lt_Num_false (a b : Qc) : lt (Num a) (Num b) = false <-> (b <= a)%Qc.
Proof.
  split.
  - intros H. apply Qcnot_lt_le. intros L. apply lt_Num in L. congruence.
  - intros H. destruct (lt (Num a) (Num b)) eqn:E; [|reflexivity].
    apply lt_Num in E. exfalso. now apply (Qcle_not_lt _ _ H).
Qed.

End JSFacts.

(** ** The entry calculator *)
Module LogicFacts.
Import JS JSFacts Logic.
Local Open Scope js_scope.

(** The scenario of the specification: commission 100 + 30 + 100, no
    target bonus, final salary the basic salary plus 230. *)
Example recalculate_scenario :
  let out := recalculateEntry Samples.bonusRates Samples.scenarioEntry
               (ofZ 26000) Samples.ratesMap None None in
  SalaryEntry.commission out = ofZ 230 /\
  SalaryEntry.total_books out = ofZ 2 /\
  SalaryEntry.bonus out = ofZ 0 /\
  SalaryEntry.final_salary out = ofZ 26000 + ofZ 230.
Proof.
  cbv zeta. repeat apply conj; apply eqb_eq; vm_compute; reflexivity.
Qed.

(** A sheet is generated by recalculating empty entries: such an entry
    earns its base salary and nothing else. *)
Example recalculate_empty_entry :
  let out := recalculateEntry Samples.bonusRates
               (createEmptyEntry "e1" "s1" "emp1" (ofZ 26000) (Some "B"))
               (ofZ 26000) Samples.ratesMap (Some "B") None in
  SalaryEntry.final_salary out = ofZ 26000 /\
  SalaryEntry.commission out = ofZ 0 /\
  SalaryEntry.total_deductions out = ofZ 0.
Proof.
  cbv zeta. repeat apply conj; apply eqb_eq; vm_compute; reflexivity.
Qed.

(** An unknown commission type falls back to zero rates, unless it names
    an inherited property of the rate object: then both rates are NaN. *)
Lemma rateStructOf_unknown (ratesMap : gmap string CommissionStructure.t)
    (t : string) :
  ratesMap !! t = None ->
  rateStructOf ratesMap t
  = if inheritedProperty t then (NaN, NaN) else (ofZ 0, ofZ 0).
Proof. intros H. unfold rateStructOf. now rewrite H. Qed.

Example rateStructOf_constructor :
  rateStructOf Samples.ratesMap "constructor" = (NaN, NaN) /\
  rateStructOf Samples.ratesMap "A" = (ofZ 0, ofZ 0).
Proof. split; reflexivity. Qed.

(** C1, as stated, fails: with a malformed (NaN) own collection the
    recalculated total is 600 while the sum of the three fields of the
    returned entry is NaN. *)
Lemma recalculate_total_collection_NaN_own :
  let out := recalculateEntry Samples.bonusRates Samples.nanOwnEntry
               (ofZ 26000) Samples.ratesMap None None in
  SalaryEntry.total_collection out = ofZ 600 /\
  SalaryEntry.own_somity_collection out
    + SalaryEntry.office_somity_collection out
    + SalaryEntry.center_collection out = NaN /\
  SalaryEntry.total_collection out <>
    SalaryEntry.own_somity_collection out
    + SalaryEntry.office_somity_collection out
    + SalaryEntry.center_collection out.
Proof.
  cbv zeta. split; [|split].
  - apply eqb_eq. vm_compute. reflexivity.
  - reflexivity.
  - apply eqb_neq. vm_compute. reflexivity.
Qed.

(** C1 (amended): the returned entry satisfies
    total_books = book_1_5 + book_3 + book_5 + book_8 + book_10 + book_12
    + book_no_bonus, and total_collection is the sum of
    own_somity_collection, office_somity_collection and center_collection
    in which a NaN field counts as 0; it is the plain sum of the three
    whenever none of them is NaN. *)
Theorem recalculate_totals
    (bonusRates : Qc -> number) (entry : SalaryEntry.t) (base : number)
    (ratesMap : gmap string CommissionStructure.t) (override : option string)
    (managerContext : option ManagerContext.t) :
  let out := recalculateEntry bonusRates entry base ratesMap override
               managerContext in
  SalaryEntry.total_books out =
    SalaryEntry.book_1_5 out + SalaryEntry.book_3 out + SalaryEntry.book_5 out
    + SalaryEntry.book_8 out + SalaryEntry.book_10 out
    + SalaryEntry.book_12 out + SalaryEntry.book_no_bonus out /\
  SalaryEntry.total_collection out =
    (SalaryEntry.own_somity_collection out)||0
    + (SalaryEntry.office_somity_collection out)||0
    + (SalaryEntry.center_collection out)||0 /\
  (isNaN (SalaryEntry.own_somity_collection out) = false ->
   isNaN (SalaryEntry.office_somity_collection out) = false ->
   isNaN (SalaryEntry.center_collection out) = false ->
   SalaryEntry.total_collection out =
     SalaryEntry.own_somity_collection out
     + SalaryEntry.office_somity_collection out
     + SalaryEntry.center_collection out).
Proof.
  cbv zeta. split; [reflexivity|]. split; [reflexivity|].
  simpl. intros Ho Hf Hc. now rewrite !or0_not_NaN.
Qed.

Lemma recalculate_totals_witness :
  let out := recalculateEntry Samples.bonusRates Samples.scenarioEntry
               (ofZ 26000) Samples.ratesMap None None in
  SalaryEntry.total_collection out =
    SalaryEntry.own_somity_collection out
    + SalaryEntry.office_somity_collection out
    + SalaryEntry.center_collection out.
Proof.
  apply (proj2 (proj2 (recalculate_totals Samples.bonusRates
           Samples.scenarioEntry (ofZ 26000) Samples.ratesMap None None)));
    reflexivity.
Defined.

(** C3, as stated, fails: for a manager whose own collection is NaN the
    incentive is computed with that field as 0 and is 188, while the
    formula over the plain fields is NaN. *)
Lemma recalculate_manager_NaN_own :
  let ctx := Samples.managerOf (ofZ 10000) in
  let out := recalculateEntry Samples.bonusRates Samples.nanOwnEntry
               (ofZ 26000) Samples.ratesMap None (Some ctx) in
  SalaryEntry.manager_convenience out = ofZ 188 /\
  SalaryEntry.manager_convenience out <>
    max (ofZ 0)
        ((ManagerContext.branchTotalCollection ctx
          - (SalaryEntry.own_somity_collection out
             + SalaryEntry.office_somity_collection out
             + SalaryEntry.total_loan_collection out
             + SalaryEntry.center_collection out)) * ofQ (2 # 100)).
Proof.
  cbv zeta. split.
  - apply eqb_eq. vm_compute. reflexivity.
  - apply eqb_neq. vm_compute. reflexivity.
Qed.

(** C3 (amended): with a manager context present, a manager's
    manager_convenience is max(0, (branchTotalCollection -
    (own_somity_collection + office_somity_collection +
    total_loan_collection + center_collection)) * 0.02) where a NaN
    collection field counts as 0 (the plain formula when none of the four
    is NaN), and a non-manager's manager_convenience is 0 whatever the
    entry stored before. *)
Theorem recalculate_manager_convenience
    (bonusRates : Qc -> number) (entry : SalaryEntry.t) (base : number)
    (ratesMap : gmap string CommissionStructure.t) (override : option string)
    (ctx : ManagerContext.t) :
  let out := recalculateEntry bonusRates entry base ratesMap override
               (Some ctx) in
  (ManagerContext.isManager ctx = true ->
   SalaryEntry.manager_convenience out =
     max (ofZ 0)
         ((ManagerContext.branchTotalCollection ctx
           - ((SalaryEntry.own_somity_collection out)||0
              + (SalaryEntry.office_somity_collection out)||0
              + (SalaryEntry.total_loan_collection out)||0
              + (SalaryEntry.center_collection out)||0)) * ofQ (2 # 100))) /\
  (ManagerContext.isManager ctx = true ->
   isNaN (SalaryEntry.own_somity_collection out) = false ->
   isNaN (SalaryEntry.office_somity_collection out) = false ->
   isNaN (SalaryEntry.total_loan_collection out) = false ->
   isNaN (SalaryEntry.center_collection out) = false ->
   SalaryEntry.manager_convenience out =
     max (ofZ 0)
         ((ManagerContext.branchTotalCollection ctx
           - (SalaryEntry.own_somity_collection out
              + SalaryEntry.office_somity_collection out
              + SalaryEntry.total_loan_collection out
              + SalaryEntry.center_collection out)) * ofQ (2 # 100))) /\
  (ManagerContext.isManager ctx = false ->
   SalaryEntry.manager_convenience out = ofZ 0).
Proof.
  cbv zeta. simpl. split; [|split].
  - intros ->. reflexivity.
  - intros -> Ho Hf Hl Hc. now rewrite !or0_not_NaN.
  - intros ->. reflexivity.
Qed.

Lemma recalculate_manager_convenience_witness :
  (let ctx := Samples.managerOf (ofZ 10000) in
   let out := recalculateEntry Samples.bonusRates Samples.scenarioEntry
                (ofZ 26000) Samples.ratesMap None (Some ctx) in
   SalaryEntry.manager_convenience out =
     max (ofZ 0)
         ((ManagerContext.branchTotalCollection ctx
           - (SalaryEntry.own_somity_collection out
              + SalaryEntry.office_somity_collection out
              + SalaryEntry.total_loan_collection out
              + SalaryEntry.center_collection out)) * ofQ (2 # 100))) /\
  (let out := recalculateEntry Samples.bonusRates Samples.staleManagerEntry
                (ofZ 26000) Samples.ratesMap None
                (Some (Samples.notManager (ofZ 10000))) in
   SalaryEntry.manager_convenience out = ofZ 0).
Proof.
  split.
  - apply (proj1 (proj2 (recalculate_manager_convenience Samples.bonusRates
             Samples.scenarioEntry (ofZ 26000) Samples.ratesMap None
             (Samples.managerOf (ofZ 10000))))); reflexivity.
  - apply (proj2 (proj2 (recalculate_manager_convenience Samples.bonusRates
             Samples.staleManagerEntry (ofZ 26000) Samples.ratesMap None
             (Samples.notManager (ofZ 10000))))); reflexivity.
Defined.

(** On NaN late hours and a NaN basic salary, which no function of the
    application writes to an entry (the table stores
    [parseFloat(value) || 0] and a new entry starts from zeros), the [|| 0]
    of the calculator shows: the late deduction is 0 and the final salary
    is a number. *)
Lemma recalculate_deductions_NaN_inputs :
  let out := recalculateEntry Samples.bonusRates Samples.nanLateEntry
               (ofZ 26000) Samples.ratesMap None None in
  SalaryEntry.deduction_late out = ofZ 0 /\
  SalaryEntry.deduction_late out <>
    SalaryEntry.input_late_hours out * (ofZ 26000 / ofZ 26 / ofZ 8) /\
  SalaryEntry.final_salary out = ofZ (-770) /\
  SalaryEntry.final_salary out <>
    SalaryEntry.basic_salary out + SalaryEntry.commission out
    + SalaryEntry.bonus out + SalaryEntry.manager_convenience out
    - SalaryEntry.total_deductions out.
Proof.
  cbv zeta. split; [|split; [|split]].
  - apply eqb_eq. vm_compute. reflexivity.
  - apply eqb_neq. vm_compute. reflexivity.
  - apply eqb_eq. vm_compute. reflexivity.
  - apply eqb_neq. vm_compute. reflexivity.
Qed.

(** C4: on every entry whose late hours, absent days and basic salary
    are numbers, as they are on every entry the application builds,
    deduction_late = input_late_hours * (contractualBaseSalary / 26 / 8),
    deduction_abs = input_absent_days * (contractualBaseSalary / 26) and
    final_salary = basic_salary + commission + bonus + manager_convenience
    - total_deductions on the entry's own basic_salary (the last part of
    the statement).  Two entries with the same late hours and absent days
    get the same two deductions whatever their basic_salary.  The first
    parts give the form the code computes on any entry, with [|| 0] on the
    hours, the days and the basic salary. *)
Theorem recalculate_deductions_and_final
    (bonusRates : Qc -> number) (entry : SalaryEntry.t) (base : number)
    (ratesMap : gmap string CommissionStructure.t) (override : option string)
    (managerContext : option ManagerContext.t) :
  let out := recalculateEntry bonusRates entry base ratesMap override
               managerContext in
  SalaryEntry.deduction_late out =
    (SalaryEntry.input_late_hours out)||0 * (base / ofZ 26 / ofZ 8) /\
  SalaryEntry.deduction_abs out =
    (SalaryEntry.input_absent_days out)||0 * (base / ofZ 26) /\
  SalaryEntry.final_salary out =
    (SalaryEntry.basic_salary out)||0 + SalaryEntry.commission out
    + SalaryEntry.bonus out + SalaryEntry.manager_convenience out
    - SalaryEntry.total_deductions out /\
  SalaryEntry.basic_salary out = SalaryEntry.basic_salary entry /\
  (forall entry' : SalaryEntry.t,
     SalaryEntry.input_late_hours entry' = SalaryEntry.input_late_hours entry ->
     SalaryEntry.input_absent_days entry' = SalaryEntry.input_absent_days entry ->
     let out' := recalculateEntry bonusRates entry' base ratesMap override
                   managerContext in
     SalaryEntry.deduction_late out' = SalaryEntry.deduction_late out /\
     SalaryEntry.deduction_abs out' = SalaryEntry.deduction_abs out) /\
  (isNaN (SalaryEntry.input_late_hours out) = false ->
   isNaN (SalaryEntry.input_absent_days out) = false ->
   isNaN (SalaryEntry.basic_salary out) = false ->
   SalaryEntry.deduction_late out =
     SalaryEntry.input_late_hours out * (base / ofZ 26 / ofZ 8) /\
   SalaryEntry.deduction_abs out =
     SalaryEntry.input_absent_days out * (base / ofZ 26) /\
   SalaryEntry.final_salary out =
     SalaryEntry.basic_salary out + SalaryEntry.commission out
     + SalaryEntry.bonus out + SalaryEntry.manager_convenience out
     - SalaryEntry.total_deductions out).
Proof.
  cbv zeta. repeat (split; [reflexivity|]). split.
  - intros entry' Hl Ha. simpl. now rewrite Hl, Ha.
  - simpl. intros Hl Ha Hb.
    rewrite (or0_not_NaN _ Hl), (or0_not_NaN _ Ha), (or0_not_NaN _ Hb).
    repeat split.
Qed.

(** An entry like the scenario's, 2 hours late and 1 day absent, with the
    basic salary lowered by hand to 20000. *)
Lemma recalculate_deductions_and_final_witness :
  let lowered := Samples.entry (ofZ 20000) (ofZ 1000) (ofZ 500) (ofZ 0) (ofZ 0)
                   (ofZ 2) (ofZ 2) (ofZ 1) (ofZ 0) (ofZ 0) in
  let full := Samples.entry (ofZ 26000) (ofZ 1000) (ofZ 500) (ofZ 0) (ofZ 0)
                (ofZ 2) (ofZ 2) (ofZ 1) (ofZ 0) (ofZ 0) in
  let out := recalculateEntry Samples.bonusRates lowered (ofZ 26000)
               Samples.ratesMap None None in
  let out' := recalculateEntry Samples.bonusRates full (ofZ 26000)
                Samples.ratesMap None None in
  (SalaryEntry.deduction_late out' = SalaryEntry.deduction_late out /\
   SalaryEntry.deduction_abs out' = SalaryEntry.deduction_abs out) /\
  (SalaryEntry.deduction_late out =
     SalaryEntry.input_late_hours out * (ofZ 26000 / ofZ 26 / ofZ 8) /\
   SalaryEntry.deduction_abs out =
     SalaryEntry.input_absent_days out * (ofZ 26000 / ofZ 26) /\
   SalaryEntry.final_salary out =
     SalaryEntry.basic_salary out + SalaryEntry.commission out
     + SalaryEntry.bonus out + SalaryEntry.manager_convenience out
     - SalaryEntry.total_deductions out).
Proof.
  intros lowered full out out'.
  pose proof (recalculate_deductions_and_final Samples.bonusRates lowered
                (ofZ 26000) Samples.ratesMap None None) as H.
  destruct H as (_ & _ & _ & _ & Hsame & Hplain).
  split.
  - apply (Hsame full); reflexivity.
  - apply Hplain; reflexivity.
Defined.

(** The figures of that entry: 250 for the two late hours and 1000 for
    the absent day, on the contractual 26000, and a final salary built on
    the lowered 20000. *)
Example recalculate_lowered_basic :
  let lowered := Samples.entry (ofZ 20000) (ofZ 1000) (ofZ 500) (ofZ 0) (ofZ 0)
                   (ofZ 2) (ofZ 2) (ofZ 1) (ofZ 0) (ofZ 0) in
  let out := recalculateEntry Samples.bonusRates lowered (ofZ 26000)
               Samples.ratesMap None None in
  SalaryEntry.deduction_late out = ofZ 250 /\
  SalaryEntry.deduction_abs out = ofZ 1000 /\
  SalaryEntry.final_salary out = ofZ 18980.
Proof.
  cbv zeta. repeat apply conj; apply eqb_eq; vm_compute; reflexivity.
Qed.

(** On an entry with a NaN book counter or a NaN cash advance, which no
    function of the application builds, the calculator returns NaN
    totals. *)
Example recalculate_NaN_propagates :
  (let out := recalculateEntry Samples.bonusRates Samples.nanBookEntry
                (ofZ 26000) Samples.ratesMap None None in
   SalaryEntry.total_books out = NaN /\
   SalaryEntry.commission out = NaN /\
   SalaryEntry.final_salary out = NaN) /\
  (let out := recalculateEntry Samples.bonusRates Samples.nanCashEntry
                (ofZ 26000) Samples.ratesMap None None in
   SalaryEntry.total_deductions out = NaN /\
   SalaryEntry.final_salary out = NaN).
Proof.
  cbv zeta. repeat split; vm_compute; reflexivity.
Qed.



(** C10: without a manager context the stored manager_convenience is
    carried to the output, only a falsy value (zero or NaN) becoming 0,
    and it is added into final_salary; a stored non-zero incentive is
    therefore retained. *)
Theorem recalculate_without_manager_context
    (bonusRates : Qc -> number) (entry : SalaryEntry.t) (base : number)
    (ratesMap : gmap string CommissionStructure.t) (override : option string) :
  let out := recalculateEntry bonusRates entry base ratesMap override None in
  SalaryEntry.manager_convenience out =
    (SalaryEntry.manager_convenience entry)||0 /\
  SalaryEntry.final_salary out =
    (SalaryEntry.basic_salary entry)||0 + SalaryEntry.commission out
    + SalaryEntry.bonus out + (SalaryEntry.manager_convenience entry)||0
    - SalaryEntry.total_deductions out /\
  (forall q : Qc, q <> 0%Qc ->
     SalaryEntry.manager_convenience entry = Num q ->
     SalaryEntry.manager_convenience out = Num q /\
     SalaryEntry.manager_convenience out <> ofZ 0).
Proof.
  cbv zeta. split; [reflexivity|]. split; [reflexivity|].
  intros q Hq Hm. simpl. rewrite Hm, or0_Num. split; [reflexivity|].
  rewrite ofZ_0. congruence.
Qed.

Lemma recalculate_without_manager_context_witness :
  let out := recalculateEntry Samples.bonusRates Samples.staleManagerEntry
               (ofZ 26000) Samples.ratesMap None None in
  SalaryEntry.manager_convenience out = Num (Q2Qc 40) /\
  SalaryEntry.manager_convenience out <> ofZ 0.
Proof.
  apply (proj2 (proj2 (recalculate_without_manager_context Samples.bonusRates
           Samples.staleManagerEntry (ofZ 26000) Samples.ratesMap None))
         (Q2Qc 40)).
  - discriminate.
  - reflexivity.
Defined.

(** The stale incentive of 40 is paid: the final salary is 26270. *)
Example recalculate_stale_incentive_paid :
  SalaryEntry.final_salary
    (recalculateEntry Samples.bonusRates Samples.staleManagerEntry
       (ofZ 26000) Samples.ratesMap None None) = ofZ 26270.
Proof. apply eqb_eq. vm_compute. reflexivity. Qed.

End LogicFacts.

(** ** The account eligibility validator *)
Module AccountServiceFacts.
Import JS JSFacts AccountService.
Local Open Scope js_scope.

Section Validate.

Context (Number : string -> number) (toLowerCase trim : string -> string).

Local Abbreviation validateAccount :=
  (validateAccount Number toLowerCase trim).
Local Abbreviation monthDiff := (monthDiff Number).
Local Abbreviation lookup := (findAccount toLowerCase trim).

Lemma lookup_matches code allAccounts ac :
  lookup code allAccounts = Some ac ->
  In ac allAccounts /\
  toLowerCase (AccountOpening.account_code ac) = toLowerCase (trim code).
Proof.
  intros H. unfold findAccount in H. apply find_some in H as [Hin Heq].
  split; [exact Hin|]. now apply String.eqb_eq.
Qed.

(** Acceptance is exactly the conjunction of the six checks passing on
    the selected account. *)
Lemma validateAccount_accepted_iff code employeeId branchId sheetMonth
    allAccounts ac :
  validateAccount code employeeId branchId sheetMonth allAccounts = accepted ac
  <->
  lookup code allAccounts = Some ac /\
  AccountOpening.opened_by_employee_id ac = employeeId /\
  AccountOpening.branch_id ac = branchId /\
  AccountOpening.is_counted ac = false /\
  lt (AccountOpening.collection_amount ac) (ofZ 600) = false /\
  lt (monthDiff (AccountOpening.opening_date ac) sheetMonth) (ofZ 0) = false /\
  gt (monthDiff (AccountOpening.opening_date ac) sheetMonth) (ofZ 2) = false.
Proof.
  unfold AccountService.validateAccount. cbv zeta.
  destruct (lookup code allAccounts) as [a|];
    [|split; [discriminate|intros [? _]; discriminate]].
  destruct (String.eqb (AccountOpening.opened_by_employee_id a) employeeId)
    eqn:Eo; cbn [negb].
  2:{ apply String.eqb_neq in Eo.
      split; [discriminate|]. intros (Ha & Ho & _). congruence. }
  apply String.eqb_eq in Eo.
  destruct (String.eqb (AccountOpening.branch_id a) branchId) eqn:Eb;
    cbn [negb].
  2:{ apply String.eqb_neq in Eb.
      split; [discriminate|]. intros (Ha & _ & Hb & _). congruence. }
  apply String.eqb_eq in Eb.
  destruct (AccountOpening.is_counted a) eqn:Ec.
  { split.
    - destruct (strictEqS _ _); discriminate.
    - intros (Ha & _ & _ & Hc & _). congruence. }
  destruct (lt (AccountOpening.collection_amount a) (ofZ 600)) eqn:Ea.
  { split; [discriminate|]. intros (Ha & _ & _ & _ & Hl & _). congruence. }
  destruct (lt (monthDiff (AccountOpening.opening_date a) sheetMonth) (ofZ 0)) eqn:El.
  { split; [discriminate|]. intros (Ha & _ & _ & _ & _ & Hl & _). congruence. }
  destruct (gt (monthDiff (AccountOpening.opening_date a) sheetMonth) (ofZ 2)) eqn:Eg.
  { split; [discriminate|]. intros (Ha & _ & _ & _ & _ & _ & Hg). congruence. }
  unfold accepted. split.
  - intros [= ->]. repeat split; assumption.
  - intros ([= ->] & _). reflexivity.
Qed.


(** On a numeric amount and a numeric month difference the three
    comparisons are: amount at least 600, difference between 0 and 2. *)
Lemma window_numeric (a d : Qc) :
  lt (Num a) (ofZ 600) = false /\ lt (Num d) (ofZ 0) = false
    /\ gt (Num d) (ofZ 2) = false
  <-> (Q2Qc 600 <= a)%Qc /\ (0 <= d)%Qc /\ (d <= Q2Qc 2)%Qc.
Proof.
  unfold gt, ofZ. rewrite !lt_Num_false. reflexivity.
Qed.

(** On an account whose amount and month difference are numbers, Ok is
    returned exactly when the selected account belongs to the scanning
    employee and branch, is not counted, has an amount of at least 600
    and a month difference between 0 and 2. *)
Lemma validateAccount_accepted_numeric code employeeId branchId sheetMonth
    allAccounts ac (a d : Qc) :
  AccountOpening.collection_amount ac = Num a ->
  monthDiff (AccountOpening.opening_date ac) sheetMonth = Num d ->
  (validateAccount code employeeId branchId sheetMonth allAccounts
     = accepted ac
   <->
   lookup code allAccounts = Some ac /\
   AccountOpening.opened_by_employee_id ac = employeeId /\
   AccountOpening.branch_id ac = branchId /\
   AccountOpening.is_counted ac = false /\
   (Q2Qc 600 <= a)%Qc /\ (0 <= d)%Qc /\ (d <= Q2Qc 2)%Qc).
Proof.
  intros Ha Hd. rewrite validateAccount_accepted_iff, Ha, Hd.
  rewrite <- window_numeric. tauto.
Qed.

(** A date without a dash splits into a single part, so the month read
    from it is [undefined] and the month difference is NaN, whatever the
    sheet month. *)
Lemma split_dash_dashFree (s : string) :
  dashFree s = true -> split_dash s = [s].
Proof.
  induction s as [|c s IH]; [reflexivity|].
  cbn [dashFree split_dash]. intros H.
  apply andb_true_iff in H as [Hc Hs]. apply negb_true_iff in Hc.
  now rewrite Hc, (IH Hs).
Qed.

Lemma monthDiff_undated (opening_date sheetMonth : string) :
  dashFree opening_date = true -> monthDiff opening_date sheetMonth = NaN.
Proof.
  intros H. unfold AccountService.monthDiff.
  rewrite (split_dash_dashFree _ H). cbn [map element nth].
  destruct (element _ 1); destruct ((_ - _) * _); reflexivity.
Qed.

(** Such an account passes the time-window check for every sheet month:
    it is accepted as soon as the five earlier checks pass. *)
Lemma validateAccount_undated code employeeId branchId sheetMonth allAccounts
    ac :
  lookup code allAccounts = Some ac ->
  AccountOpening.opened_by_employee_id ac = employeeId ->
  AccountOpening.branch_id ac = branchId ->
  AccountOpening.is_counted ac = false ->
  lt (AccountOpening.collection_amount ac) (ofZ 600) = false ->
  dashFree (AccountOpening.opening_date ac) = true ->
  validateAccount code employeeId branchId sheetMonth allAccounts = accepted ac.
Proof.
  intros Hf Ho Hb Hc Ha Hd. apply validateAccount_accepted_iff.
  rewrite (monthDiff_undated _ _ Hd). repeat split; assumption.
Qed.

(** C7: the rejection reasons are checked in the order not found,
    ownership, branch, already counted, amount floor, time window, and the
    first failing one is returned; a counted account that passes the
    ownership and branch checks is rejected with "Already scanned in this
    sheet" when its counted_month is the sheet month and with "Used in
    <countedMonth>" otherwise; a counted account is never returned as Ok. *)
Theorem validateAccount_order code employeeId branchId sheetMonth allAccounts :
  let r := validateAccount code employeeId branchId sheetMonth allAccounts in
  (lookup code allAccounts = None -> r = rejected "Account not found") /\
  (forall ac, lookup code allAccounts = Some ac ->
     let d := monthDiff (AccountOpening.opening_date ac) sheetMonth in
     (AccountOpening.opened_by_employee_id ac <> employeeId ->
      r = rejected "Belongs to another employee") /\
     (AccountOpening.opened_by_employee_id ac = employeeId ->
      AccountOpening.branch_id ac <> branchId ->
      r = rejected "Branch mismatch") /\
     (AccountOpening.opened_by_employee_id ac = employeeId ->
      AccountOpening.branch_id ac = branchId ->
      AccountOpening.is_counted ac = true ->
      (AccountOpening.counted_month ac = Some sheetMonth ->
       r = rejected "Already scanned in this sheet") /\
      (forall m, AccountOpening.counted_month ac = Some m ->
         m <> sheetMonth -> m <> "" -> r = rejected ("Used in " ++ m)) /\
      (AccountOpening.counted_month ac <> Some sheetMonth ->
       exists m, r = rejected ("Used in " ++ m))) /\
     (AccountOpening.opened_by_employee_id ac = employeeId ->
      AccountOpening.branch_id ac = branchId ->
      AccountOpening.is_counted ac = false ->
      (lt (AccountOpening.collection_amount ac) (ofZ 600) = true ->
       r = rejected "Not Eligible: Collection < 600") /\
      (lt (AccountOpening.collection_amount ac) (ofZ 600) = false ->
       lt d (ofZ 0) = true ->
       r = rejected "Error: Account opened after sheet month") /\
      (lt (AccountOpening.collection_amount ac) (ofZ 600) = false ->
       lt d (ofZ 0) = false -> gt d (ofZ 2) = true ->
       r = rejected "Expired: 2-month bonus window passed")) /\
     (AccountOpening.is_counted ac = true ->
      Validation.ok r = false /\ Validation.account r = None)) /\
  (forall ac, Validation.account r = Some ac ->
     AccountOpening.is_counted ac = false).
Proof.
  cbv zeta. unfold AccountService.validateAccount. cbv zeta.
  destruct (lookup code allAccounts) as [a|].
  2:{ split; [reflexivity|]. split; [discriminate|]. discriminate. }
  split; [discriminate|].
  destruct (String.eqb (AccountOpening.opened_by_employee_id a) employeeId)
    eqn:Eo; cbn [negb].
  2:{ apply String.eqb_neq in Eo. split; [|discriminate].
      intros ac [= <-]. repeat split; try reflexivity; intros; congruence. }
  apply String.eqb_eq in Eo.
  destruct (String.eqb (AccountOpening.branch_id a) branchId) eqn:Eb;
    cbn [negb].
  2:{ apply String.eqb_neq in Eb. split; [|discriminate].
      intros ac [= <-]. repeat split; try reflexivity; intros; congruence. }
  apply String.eqb_eq in Eb.
  destruct (AccountOpening.is_counted a) eqn:Ec.
  { split.
    2:{ destruct (strictEqS _ _); discriminate. }
    intros ac [= <-]. rewrite Ec.
    split; [congruence|]. split; [congruence|]. split.
    - intros _ _ _. split; [|split].
      + intros Hm. rewrite Hm. cbn [strictEqS]. now rewrite String.eqb_refl.
      + intros m Hm Hne Hnz. rewrite Hm. cbn [strictEqS].
        apply String.eqb_neq in Hne. rewrite Hne.
        unfold orS, truthyS. apply String.eqb_neq in Hnz. now rewrite Hnz.
      + intros Hne. destruct (AccountOpening.counted_month a) as [m|] eqn:Em.
        * cbn [strictEqS]. destruct (String.eqb m sheetMonth) eqn:E.
          -- apply String.eqb_eq in E. congruence.
          -- eexists. reflexivity.
        * eexists. reflexivity.
    - split; [intros; congruence|].
      intros _. destruct (strictEqS _ _); split; reflexivity. }
  destruct (lt (AccountOpening.collection_amount a) (ofZ 600)) eqn:Ea.
  { split; [|discriminate]. intros ac [= <-]. rewrite Ec, Ea.
    repeat split; try reflexivity; intros; congruence. }
  destruct (lt (monthDiff (AccountOpening.opening_date a) sheetMonth) (ofZ 0))
    eqn:El.
  { split; [|discriminate]. intros ac [= <-]. rewrite Ec, Ea, El.
    repeat split; try reflexivity; intros; congruence. }
  destruct (gt (monthDiff (AccountOpening.opening_date a) sheetMonth) (ofZ 2))
    eqn:Eg.
  { split; [|discriminate]. intros ac [= <-]. rewrite Ec, Ea, El, Eg.
    repeat split; try reflexivity; intros; congruence. }
  split.
  - intros ac [= <-]. rewrite Ec, Ea, El, Eg.
    repeat split; try reflexivity; intros; congruence.
  - intros ac [= <-]. exact Ec.
Qed.

End Validate.

(** The third scenario of the specification: the account counted for
    2024-03 is scanned again against the sheet of 2024-03. *)
Lemma validateAccount_order_witness :
  let ac := Samples.account "ac-1" "2024-01-15" (ofZ 600) true
              (Some "2024-03") in
  Samples.validate " AC-1 " "emp1" "b1" "2024-03" [ac]
    = rejected "Already scanned in this sheet".
Proof.
  intros ac.
  pose proof (validateAccount_order NumberDecimal toLowerCaseAscii trimAscii
                " AC-1 " "emp1" "b1" "2024-03" [ac]) as H.
  cbv zeta in H. destruct H as (_ & H & _).
  destruct (H ac eq_refl) as (_ & _ & Hc & _).
  apply Hc; reflexivity.
Defined.

(** The boundaries of the amount floor and of the bonus window, on an
    account opened on 2024-01-15. *)
Example validateAccount_boundaries :
  let low := Samples.account "ac-1" "2024-01-15" (ofZ 599) false None in
  let ok := Samples.account "ac-1" "2024-01-15" (ofZ 600) false None in
  Samples.validate "AC-1" "emp1" "b1" "2024-03" [low]
    = rejected "Not Eligible: Collection < 600" /\
  Samples.validate "AC-1" "emp1" "b1" "2024-03" [ok] = accepted ok /\
  Samples.validate "AC-1" "emp1" "b1" "2024-04" [ok]
    = rejected "Expired: 2-month bonus window passed" /\
  Samples.validate "AC-1" "emp1" "b1" "2023-12" [ok]
    = rejected "Error: Account opened after sheet month" /\
  Samples.validate "AC-1" "emp2" "b1" "2024-03" [low]
    = rejected "Belongs to another employee".
Proof.
  cbv zeta. repeat apply conj; vm_compute; reflexivity.
Qed.

(** C2: an account whose opening date is empty, as the account loader
    stores a missing date, has no month difference in [0, 2] (it is NaN),
    and an account whose amount is NaN has no amount of at least 600; both
    are returned as Ok. *)
Theorem validateAccount_accepts_malformed :
  let undated := Samples.account "ac-1" "" (ofZ 600) false None in
  let unpriced := Samples.account "ac-2" "2024-01-15" NaN false None in
  monthDiff NumberDecimal "" "2024-03" = NaN /\
  Samples.validate "AC-1" "emp1" "b1" "2024-03" [undated] = accepted undated /\
  ge (AccountOpening.collection_amount unpriced) (ofZ 600) = false /\
  Samples.validate "AC-2" "emp1" "b1" "2024-03" [unpriced] = accepted unpriced.
Proof.
  cbv zeta. repeat apply conj; vm_compute; reflexivity.
Qed.

End AccountServiceFacts.

(** ** Center ownership and the collection aggregation *)
Module AppFacts.
Import JS JSFacts App.
Local Open Scope js_scope.

Local Abbreviation keyOf c :=
  (centerKey (Center.branchId c) (Center.centerCode c)).

(** *** The grouping of records by employee *)




(** *** The two buckets *)






(** *** Counting centers *)









(** Three own records on two centers count as two centers; a NaN loan
    amount counts as 0. *)
Example aggregate_sample :
  let a := aggregate Samples.centers Samples.records "2024-03" "emp1" in
  Collections.own_somity_collection a = ofZ 157 /\
  Collections.own_somity_count a = 2%nat /\
  length (bucket OWN Samples.centers "emp1"
            (matchedRecords Samples.records "2024-03" "emp1")) = 3%nat /\
  Collections.office_somity_collection a = ofZ 58 /\
  Collections.office_somity_count a = 3%nat /\
  Collections.total_loan_collection a = ofZ 18.
Proof.
  cbv zeta. repeat apply conj;
    solve [vm_compute; reflexivity | apply eqb_eq; vm_compute; reflexivity].
Qed.

(** *** The center map *)

Lemma centerMap_step_other (cs : list Center.t) (m : gmap string Center.t)
    (k : string) :
  (forall c, In c cs -> keyOf c <> k) ->
  foldl (fun m c => <[keyOf c := c]> m) m cs !! k = m !! k.
Proof.
  revert m. induction cs as [|c cs IH]; intros m H; [reflexivity|].
  cbn [foldl]. rewrite IH by (intros c' Hc'; apply H; now right).
  apply lookup_insert_ne. apply H. now left.
Qed.

Lemma centerMap_step_NoDup (cs : list Center.t) (m : gmap string Center.t)
    (c : Center.t) :
  NoDup (map (fun c => keyOf c) cs) -> In c cs ->
  foldl (fun m c => <[keyOf c := c]> m) m cs !! keyOf c = Some c.
Proof.
  revert m. induction cs as [|c0 cs IH]; intros m Hnd Hin; [destruct Hin|].
  cbn [map] in Hnd. apply NoDup_cons in Hnd as [Hfresh Hnd].
  cbn [foldl]. destruct Hin as [->|Hin].
  - rewrite centerMap_step_other; [apply lookup_insert_eq|].
    intros c' Hc' E. apply Hfresh. rewrite <- E.
    apply list_elem_of_In, in_map_iff. now exists c'.
  - now apply IH.
Qed.

(** With pairwise distinct keys every center is found under its key. *)
Lemma centerMap_lookup (centers : list Center.t) (c : Center.t) :
  NoDup (map (fun c => keyOf c) centers) -> In c centers ->
  centerMap centers !! keyOf c = Some c.
Proof. apply centerMap_step_NoDup. Qed.

(** A key no center has is absent from the map. *)
Lemma centerMap_lookup_None (centers : list Center.t) (k : string) :
  (forall c, In c centers -> keyOf c <> k) -> centerMap centers !! k = None.
Proof.
  intros H. unfold centerMap. rewrite centerMap_step_other by exact H.
  apply lookup_empty.
Qed.

Lemma NoDup_map_inj {A B} (f : A -> B) (l : list A) (x y : A) :
  NoDup (map f l) -> In x l -> In y l -> f x = f y -> x = y.
Proof.
  induction l as [|z l IH]; intros Hnd Hx Hy E; [destruct Hx|].
  cbn [map] in Hnd. apply NoDup_cons in Hnd as [Hfresh Hnd].
  destruct Hx as [->|Hx], Hy as [->|Hy]; try reflexivity.
  - exfalso. apply Hfresh. rewrite E. apply list_elem_of_In, in_map_iff.
    now exists y.
  - exfalso. apply Hfresh. rewrite <- E. apply list_elem_of_In, in_map_iff.
    now exists x.
  - now apply IH.
Qed.

(** Branch ids without a dash make the key determine branch and code, so
    that distinct keys are then distinct (branchId, centerCode) pairs. *)
Lemma centerKey_inj (b1 b2 : string) (c1 c2 : Z) :
  dashFree b1 = true -> dashFree b2 = true ->
  centerKey b1 c1 = centerKey b2 c2 -> b1 = b2 /\ c1 = c2.
Proof.
  unfold centerKey. revert b2.
  induction b1 as [|a1 b1 IH]; intros [|a2 b2] H1 H2 E; cbn in *.
  - injection E as E. split; [reflexivity|]. now apply (inj pretty).
  - injection E as Ea _. subst a2. discriminate.
  - injection E as Ea _. subst a1. discriminate.
  - injection E as -> E.
    apply andb_true_iff in H1 as [_ H1]. apply andb_true_iff in H2 as [_ H2].
    destruct (IH b2 H1 H2 E) as [-> ->]. now split.
Qed.

(** Non-negative codes do so too, whatever the branch ids: the decimal
    digits of such a code hold no dash, so the last dash of a key is the
    separator. *)
Lemma pretty_N_char_not_dash (x : N) :
  Ascii.eqb (pretty_N_char x) "-"%char = false.
Proof. unfold pretty_N_char. repeat case_match; reflexivity. Qed.

Lemma dashFree_pretty_N_go (x : N) (s : string) :
  dashFree s = true -> dashFree (pretty_N_go x s) = true.
Proof.
  revert s. induction (N.lt_wf_0 x) as [x _ IH]; intros s Hs.
  destruct (N.eq_dec x 0%N) as [->|Hx]; [now rewrite pretty_N_go_0|].
  rewrite pretty_N_go_step by lia.
  apply IH; [apply N.div_lt; lia|].
  cbn [dashFree]. now rewrite pretty_N_char_not_dash, Hs.
Qed.

Lemma dashFree_pretty (code : Z) :
  (0 <= code)%Z -> dashFree (pretty code) = true.
Proof.
  destruct code as [|p|p]; intros H; [reflexivity| |lia].
  unfold pretty, pretty_Z, pretty, pretty_positive, pretty, pretty_N.
  case_decide; [reflexivity|]. now apply dashFree_pretty_N_go.
Qed.

Lemma dashFree_after_dash (b d : string) :
  dashFree (b ++ String "-"%char d) = false.
Proof.
  induction b as [|a b IH]; [reflexivity|].
  simpl. rewrite IH. apply andb_false_r.
Qed.

Lemma key_split (b1 b2 d1 d2 : string) :
  dashFree d1 = true -> dashFree d2 = true ->
  b1 ++ "-" ++ d1 = b2 ++ "-" ++ d2 -> b1 = b2 /\ d1 = d2.
Proof.
  change ("-" ++ d1) with (String "-"%char d1).
  change ("-" ++ d2) with (String "-"%char d2).
  revert b2. induction b1 as [|a1 b1 IH]; intros [|a2 b2] H1 H2 E;
    simpl in E.
  - injection E as E. now split.
  - injection E as _ E. subst d1. now rewrite dashFree_after_dash in H1.
  - injection E as _ E. subst d2. now rewrite dashFree_after_dash in H2.
  - injection E as -> E. destruct (IH b2 H1 H2 E) as [-> ->]. now split.
Qed.

Lemma centerKey_inj_nonneg (b1 b2 : string) (c1 c2 : Z) :
  (0 <= c1)%Z -> (0 <= c2)%Z ->
  centerKey b1 c1 = centerKey b2 c2 -> b1 = b2 /\ c1 = c2.
Proof.
  intros H1 H2 E. unfold centerKey in E.
  apply key_split in E as [-> E]; try now apply dashFree_pretty.
  split; [reflexivity|]. now apply (inj pretty).
Qed.

(** Centers with non-negative codes that are uniquely identified by
    (branchId, centerCode) have pairwise distinct keys. *)
Lemma uniqueKeys_of_unique_pairs (centers : list Center.t) :
  (forall c, In c centers -> (0 <= Center.centerCode c)%Z) ->
  NoDup (map (fun c => (Center.branchId c, Center.centerCode c)) centers) ->
  uniqueKeys centers.
Proof.
  unfold uniqueKeys. induction centers as [|c cs IH]; intros Hpos Hnd.
  - constructor.
  - cbn [map] in *. apply NoDup_cons in Hnd as [Hfresh Hnd].
    apply NoDup_cons. split.
    + intros Hin. apply Hfresh.
      apply list_elem_of_In, in_map_iff in Hin as (c' & E & Hc').
      apply centerKey_inj_nonneg in E as [Eb Ec];
        [|apply Hpos; now right|apply Hpos; now left].
      apply list_elem_of_In, in_map_iff. exists c'. split; [|exact Hc'].
      now rewrite Eb, Ec.
    + apply IH; [|exact Hnd]. intros c' Hc'. apply Hpos. now right.
Qed.

(** *** The two resolvers *)

(** With unique keys the entry screen finds the center registered for a
    code and branch. *)
Lemma find_center (centers : list Center.t) (c : Center.t) :
  uniqueKeys centers -> In c centers ->
  find (fun c' => (Center.centerCode c' =? Center.centerCode c)%Z
                  && String.eqb (Center.branchId c') (Center.branchId c))
       centers = Some c.
Proof.
  intros Hnd Hin.
  destruct (find _ centers) as [c'|] eqn:E.
  - apply find_some in E as [Hin' Hp].
    apply andb_true_iff in Hp as [Hc Hb].
    apply Z.eqb_eq in Hc. apply String.eqb_eq in Hb.
    f_equal. apply (NoDup_map_inj _ _ _ _ Hnd Hin' Hin). now rewrite Hc, Hb.
  - apply (find_none _ _ E) in Hin.
    now rewrite Z.eqb_refl, String.eqb_refl in Hin.
Qed.

Lemma parityType_odd (code : Z) : Z.odd code = true -> parityType code = OWN.
Proof.
  intros H. unfold parityType. rewrite Zquot.Zrem_odd, H.
  destruct code; try discriminate; reflexivity.
Qed.

Lemma parityType_even (code : Z) :
  Z.even code = true -> parityType code = OFFICE.
Proof.
  intros H. unfold parityType. now rewrite Zquot.Zrem_even, H.
Qed.

(** C6: when the master list, whose centers are uniquely identified by
    their key, holds a center for the record's branch and code that is
    marked OFFICE, the salary grid and the entry screen both classify the
    record OFFICE, for every collecting employee and so also for the one
    the center is assigned to. *)
Theorem office_override (centers : list Center.t) (c : Center.t)
    (r : CenterCollectionRecord.t) (employee : string)
    (isNewCenter : bool) (newCenterType : CenterType) :
  uniqueKeys centers ->
  In c centers ->
  Center.branchId c = CenterCollectionRecord.branchId r ->
  Center.centerCode c = CenterCollectionRecord.centerCode r ->
  Center.type c = Some OFFICE ->
  classify centers employee r = OFFICE /\
  classify centers (Center.assignedEmployeeId c) r = OFFICE /\
  CenterCalculation.getCenterType centers isNewCenter newCenterType
    (CenterCollectionRecord.centerCode r) (CenterCollectionRecord.branchId r)
    employee = OFFICE /\
  CenterCalculation.getCenterType centers isNewCenter newCenterType
    (CenterCollectionRecord.centerCode r) (CenterCollectionRecord.branchId r)
    (Center.assignedEmployeeId c) = OFFICE.
Proof.
  intros Hnd Hin Hb Hc Ht.
  assert (Hg : forall e, classify centers e r = OFFICE).
  { intros e. unfold classify, isOwn. rewrite <- Hb, <- Hc.
    rewrite (centerMap_lookup centers c Hnd Hin), Ht. reflexivity. }
  assert (Hs : forall e,
             CenterCalculation.getCenterType centers isNewCenter newCenterType
               (CenterCollectionRecord.centerCode r)
               (CenterCollectionRecord.branchId r) e = OFFICE).
  { intros e. unfold CenterCalculation.getCenterType. rewrite <- Hb, <- Hc.
    rewrite (find_center centers c Hnd Hin), Ht. reflexivity. }
  repeat split; auto.
Qed.

(** Center 7 is assigned to emp1 and marked OFFICE; emp1's own collection
    there is classified OFFICE. *)
Lemma office_override_witness :
  let c := Samples.center 7 "emp1" (Some OFFICE) in
  let r := Samples.record "emp1" 7 (ofZ 30) (ofZ 5) "2024-03-03T08:00:00Z" in
  classify Samples.centers "emp1" r = OFFICE /\
  classify Samples.centers (Center.assignedEmployeeId c) r = OFFICE /\
  CenterCalculation.getCenterType Samples.centers false OWN
    (CenterCollectionRecord.centerCode r) (CenterCollectionRecord.branchId r)
    "emp1" = OFFICE /\
  CenterCalculation.getCenterType Samples.centers false OWN
    (CenterCollectionRecord.centerCode r) (CenterCollectionRecord.branchId r)
    (Center.assignedEmployeeId c) = OFFICE.
Proof.
  intros c r.
  apply (office_override Samples.centers c r "emp1" false OWN).
  - apply (bool_decide_unpack _). vm_compute. exact I.
  - simpl. left. reflexivity.
  - reflexivity.
  - reflexivity.
  - reflexivity.
Defined.

(** C9, as stated, fails: while a new center is being entered with type
    OFFICE chosen, the entry screen classifies the odd code 1, which has
    no master entry, as OFFICE. *)
Lemma getCenterType_new_center_odd :
  Z.odd 1 = true /\
  CenterCalculation.getCenterType [] true OFFICE 1 "b1" "emp1" = OFFICE /\
  CenterCalculation.getCenterType [] true OFFICE 1 "b1" "emp1" <> OWN.
Proof. repeat split. discriminate. Qed.

(** C9 (amended): for a branch and center code under whose key the master
    list has no entry, the entry screen returns the type chosen for the new
    center while a new center is being entered and otherwise classifies by
    parity (odd code OWN, even code OFFICE); the salary grid keeps the type
    stored on the record, which for a record built by the collection loader
    is the parity of its code. *)
Theorem no_master_entry_fallback (centers : list Center.t) (code : Z)
    (branchId employee : string) :
  (forall c, In c centers -> keyOf c <> centerKey branchId code) ->
  (forall newCenterType,
     CenterCalculation.getCenterType centers true newCenterType code branchId
       employee = newCenterType) /\
  (forall newCenterType,
     CenterCalculation.getCenterType centers false newCenterType code branchId
       employee = parityType code) /\
  (forall r, CenterCollectionRecord.branchId r = branchId ->
     CenterCollectionRecord.centerCode r = code ->
     classify centers employee r = CenterCollectionRecord.type r) /\
  (forall index id createdAt collector amountVal loanVal,
     classify centers employee
       (SheetService.getCollectionsRow index id createdAt branchId collector
          code amountVal loanVal) = parityType code) /\
  (Z.odd code = true -> parityType code = OWN) /\
  (Z.even code = true -> parityType code = OFFICE).
Proof.
  intros Hno.
  assert (Hfind : find (fun c => (Center.centerCode c =? code)%Z
                                 && String.eqb (Center.branchId c) branchId)
                       centers = None).
  { destruct (find _ centers) as [c|] eqn:E; [|reflexivity].
    apply find_some in E as [Hin Hp].
    apply andb_true_iff in Hp as [Hc Hb].
    apply Z.eqb_eq in Hc. apply String.eqb_eq in Hb.
    exfalso. apply (Hno c Hin). now rewrite Hc, Hb. }
  assert (Hgrid : forall r, CenterCollectionRecord.branchId r = branchId ->
            CenterCollectionRecord.centerCode r = code ->
            classify centers employee r = CenterCollectionRecord.type r).
  { intros r Hb Hc. unfold classify, isOwn. rewrite Hb, Hc.
    rewrite (centerMap_lookup_None centers _ Hno).
    now destruct (CenterCollectionRecord.type r). }
  split; [|split; [|split; [|split; [|split]]]].
  - intros t. unfold CenterCalculation.getCenterType. now rewrite Hfind.
  - intros t. unfold CenterCalculation.getCenterType. now rewrite Hfind.
  - exact Hgrid.
  - intros. now rewrite Hgrid.
  - apply parityType_odd.
  - apply parityType_even.
Qed.

(** Codes 11 and 12 have no center in the sample master list. *)
Lemma no_master_entry_fallback_witness :
  CenterCalculation.getCenterType Samples.centers false OFFICE 11 "b1" "emp1"
    = OWN /\
  classify Samples.centers "emp1"
    (Samples.record "emp1" 11 (ofZ 7) (ofZ 1) "2024-03-05T08:00:00Z") = OWN.
Proof.
  assert (H : forall c, In c Samples.centers -> keyOf c <> centerKey "b1" 11).
  { intros c Hin. simpl in Hin.
    destruct Hin as [<-|[<-|[<-|[]]]]; vm_compute; discriminate. }
  destruct (no_master_entry_fallback Samples.centers 11 "b1" "emp1" H)
    as (_ & Hscreen & _ & Hgrid & Hodd & _).
  split.
  - rewrite Hscreen. apply Hodd. reflexivity.
  - unfold Samples.record. rewrite Hgrid. apply Hodd. reflexivity.
Defined.

End AppFacts.

(** ** More on numbers: the laws of the exact arithmetic *)
Module NumberAlgebra.
Import JS JSFacts JSMore.
Local Open Scope js_scope.

Lemma add_comm (x y : number) : x + y = y + x.
Proof. destruct x, y; simpl; try reflexivity. f_equal. apply Qcplus_comm. Qed.


Lemma add_0_l (x : number) : ofZ 0 + x = x.
Proof. destruct x; simpl; [|reflexivity]. f_equal. apply Qcplus_0_l. Qed.

Lemma add_0_r (x : number) : x + ofZ 0 = x.
Proof. rewrite add_comm. apply add_0_l. Qed.

Lemma sub_0_r (x : number) : x - ofZ 0 = x.
Proof.
  destruct x; simpl; [|reflexivity]. f_equal.
  unfold Qcminus. change (- Q2Qc (inject_Z 0))%Qc with 0%Qc.
  apply Qcplus_0_r.
Qed.

Lemma mul_0_l (q : Qc) : ofZ 0 * Num q = ofZ 0.
Proof. simpl. unfold ofZ. f_equal. apply Qcmult_0_l. Qed.

Lemma or0_idem (x : number) : (x||0)||0 = x||0.
Proof. destruct (or0_is_Num x) as [q ->]. apply or0_Num. Qed.

Lemma or0_ofZ (z : Z) : (ofZ z)||0 = ofZ z.
Proof. apply or0_Num. Qed.

Lemma div_Num (q : Qc) (z : Z) :
  Qc_eq_bool (Q2Qc (inject_Z z)) 0%Qc = false ->
  Num q / ofZ z = Num (q / Q2Qc (inject_Z z))%Qc.
Proof. intros H. simpl. now rewrite H. Qed.

Lemma ge_Num (a b : Qc) : ge (Num a) (Num b) = true <-> (b <= a)%Qc.
Proof.
  simpl. unfold Qcle, Qccompare. rewrite Qle_alt, <- Qcompare_antisym.
  destruct (this b ?= this a)%Q; simpl; split; congruence.
Qed.

Lemma ge_Num_false (a b : Qc) : ge (Num a) (Num b) = false <-> (a < b)%Qc.
Proof.
  simpl. unfold Qclt, Qccompare. rewrite Qlt_alt.
  destruct (this a ?= this b)%Q; split; congruence.
Qed.

Lemma le_Num (a b : Qc) : le (Num a) (Num b) = true <-> (a <= b)%Qc.
Proof.
  simpl. unfold Qcle, Qccompare. rewrite Qle_alt.
  destruct (this a ?= this b)%Q; split; congruence.
Qed.



End NumberAlgebra.

(** ** More on the entry calculator *)
Module LogicMore.
Import JS JSFacts JSMore NumberAlgebra Logic.
Local Open Scope js_scope.

Lemma orS_l (a b : option string) : truthyS a = true -> orS a b = a.
Proof. intros H. unfold orS. now rewrite H. Qed.

Lemma orS_r (a b : option string) : truthyS a = false -> orS a b = b.
Proof. intros H. unfold orS. now rewrite H. Qed.

(** The commission type an entry is calculated with is never empty, and
    calculating again with it chooses it again. *)
Lemma commissionType_stable (override ct : option string) :
  let t := textOf (orS (orS override ct) (Some "A")) in
  textOf (orS (orS override (Some t)) (Some "A")) = t.
Proof.
  cbv zeta. destruct (truthyS override) eqn:Eo.
  - now rewrite !(orS_l override) by exact Eo.
  - rewrite !(orS_r override) by exact Eo.
    destruct (truthyS ct) eqn:Ec.
    + destruct ct as [t|]; [|discriminate].
      rewrite (orS_l (Some t)) by exact Ec. cbn [textOf].
      now rewrite (orS_l (Some t)) by exact Ec.
    + rewrite (orS_r ct) by exact Ec. reflexivity.
Qed.

(** X1: recalculating an entry that was just recalculated, with the same
    arguments, changes nothing. *)
Theorem recalculate_idempotent
    (bonusRates : Qc -> number) (entry : SalaryEntry.t) (base : number)
    (ratesMap : gmap string CommissionStructure.t) (override : option string)
    (managerContext : option ManagerContext.t) :
  let out := recalculateEntry bonusRates entry base ratesMap override
               managerContext in
  recalculateEntry bonusRates out base ratesMap override managerContext = out.
Proof.
  cbv zeta. unfold recalculateEntry. cbv zeta.
  cbn [SalaryEntry.rowIndex SalaryEntry.status SalaryEntry.id
       SalaryEntry.salary_sheet_id SalaryEntry.employee_id
       SalaryEntry.basic_salary SalaryEntry.commission_type
       SalaryEntry.own_somity_count SalaryEntry.own_somity_collection
       SalaryEntry.office_somity_count SalaryEntry.office_somity_collection
       SalaryEntry.center_count SalaryEntry.center_collection
       SalaryEntry.total_loan_collection SalaryEntry.book_1_5
       SalaryEntry.book_3 SalaryEntry.book_5 SalaryEntry.book_8
       SalaryEntry.book_10 SalaryEntry.book_12 SalaryEntry.book_no_bonus
       SalaryEntry.input_late_hours SalaryEntry.input_absent_days
       SalaryEntry.deduction_cash_advance SalaryEntry.misconductDeduction
       SalaryEntry.deduction_unlawful SalaryEntry.deduction_tours
       SalaryEntry.deduction_others SalaryEntry.manager_convenience].
  rewrite (commissionType_stable override (SalaryEntry.commission_type entry)).
  destruct managerContext as [ctx|]; [reflexivity|].
  now rewrite or0_idem.
Qed.

(** X2: the target bonus is paid from exactly 50 books on: a numeric
    total of at least 50 earns 500, a smaller one earns nothing, and a
    NaN total earns nothing. *)
Theorem bonus_threshold
    (bonusRates : Qc -> number) (entry : SalaryEntry.t) (base : number)
    (ratesMap : gmap string CommissionStructure.t) (override : option string)
    (managerContext : option ManagerContext.t) :
  let out := recalculateEntry bonusRates entry base ratesMap override
               managerContext in
  (forall n : Qc, SalaryEntry.total_books out = Num n ->
     (Q2Qc 50 <= n)%Qc -> SalaryEntry.bonus out = ofZ 500) /\
  (forall n : Qc, SalaryEntry.total_books out = Num n ->
     (n < Q2Qc 50)%Qc -> SalaryEntry.bonus out = ofZ 0) /\
  (SalaryEntry.total_books out = NaN -> SalaryEntry.bonus out = ofZ 0).
Proof.
  cbv zeta. unfold recalculateEntry. cbv zeta.
  cbn [SalaryEntry.total_books SalaryEntry.bonus].
  split; [|split].
  - intros n -> H. apply ge_Num in H.
    change BONUS_TARGET_BOOKS with (Num (Q2Qc 50)). now rewrite H.
  - intros n -> H. apply ge_Num_false in H.
    change BONUS_TARGET_BOOKS with (Num (Q2Qc 50)). now rewrite H.
  - intros ->. reflexivity.
Qed.

(** Fifty five-year books earn the bonus, forty-nine do not. *)
Lemma bonus_threshold_witness :
  SalaryEntry.bonus
    (recalculateEntry Samples.bonusRates
       (Samples.entry (ofZ 26000) (ofZ 0) (ofZ 0) (ofZ 0) (ofZ 0) (ofZ 50)
          (ofZ 0) (ofZ 0) (ofZ 0) (ofZ 0))
       (ofZ 26000) Samples.ratesMap None None) = ofZ 500 /\
  SalaryEntry.bonus
    (recalculateEntry Samples.bonusRates
       (Samples.entry (ofZ 26000) (ofZ 0) (ofZ 0) (ofZ 0) (ofZ 0) (ofZ 49)
          (ofZ 0) (ofZ 0) (ofZ 0) (ofZ 0))
       (ofZ 26000) Samples.ratesMap None None) = ofZ 0.
Proof.
  split.
  - apply (proj1 (bonus_threshold Samples.bonusRates _ (ofZ 26000)
                    Samples.ratesMap None None) (Q2Qc 50)).
    + apply eqb_eq. vm_compute. reflexivity.
    + vm_compute. discriminate.
  - apply (proj1 (proj2 (bonus_threshold Samples.bonusRates _ (ofZ 26000)
                           Samples.ratesMap None None)) (Q2Qc 49)).
    + apply eqb_eq. vm_compute. reflexivity.
    + vm_compute. reflexivity.
Defined.

(** X3: the commission is decided by the own and office collections, the
    six term counters and the commission type alone: two entries that
    agree on these get the same commission whatever their center
    collection, loan collection, no-bonus books, deductions, basic salary,
    contractual salary and manager context. *)
Theorem commission_independent
    (bonusRates : Qc -> number) (entry entry' : SalaryEntry.t)
    (base base' : number) (ratesMap : gmap string CommissionStructure.t)
    (override : option string)
    (managerContext managerContext' : option ManagerContext.t) :
  SalaryEntry.own_somity_collection entry'
    = SalaryEntry.own_somity_collection entry ->
  SalaryEntry.office_somity_collection entry'
    = SalaryEntry.office_somity_collection entry ->
  SalaryEntry.book_1_5 entry' = SalaryEntry.book_1_5 entry ->
  SalaryEntry.book_3 entry' = SalaryEntry.book_3 entry ->
  SalaryEntry.book_5 entry' = SalaryEntry.book_5 entry ->
  SalaryEntry.book_8 entry' = SalaryEntry.book_8 entry ->
  SalaryEntry.book_10 entry' = SalaryEntry.book_10 entry ->
  SalaryEntry.book_12 entry' = SalaryEntry.book_12 entry ->
  SalaryEntry.commission_type entry' = SalaryEntry.commission_type entry ->
  SalaryEntry.commission
    (recalculateEntry bonusRates entry' base' ratesMap override managerContext')
  = SalaryEntry.commission
      (recalculateEntry bonusRates entry base ratesMap override managerContext).
Proof.
  intros Ho Hf H1 H2 H3 H4 H5 H6 Ht.
  unfold recalculateEntry. cbv zeta. cbn [SalaryEntry.commission].
  now rewrite Ho, Hf, H1, H2, H3, H4, H5, H6, Ht.
Qed.

(** The scenario entry, and the same entry with 700 of center collection,
    90 of loan collection, a lowered basic salary, a late hour and a stale
    incentive, recalculated for a manager. *)
Lemma commission_independent_witness :
  SalaryEntry.commission
    (recalculateEntry Samples.bonusRates
       (Samples.entry (ofZ 20000) (ofZ 1000) (ofZ 500) (ofZ 700) (ofZ 90)
          (ofZ 2) (ofZ 1) (ofZ 0) (ofZ 0) (ofZ 40))
       (ofZ 30000) Samples.ratesMap None
       (Some (Samples.managerOf (ofZ 10000))))
  = SalaryEntry.commission
      (recalculateEntry Samples.bonusRates Samples.scenarioEntry (ofZ 26000)
         Samples.ratesMap None None).
Proof.
  apply commission_independent; reflexivity.
Defined.

(** X4: with a manager context the manager incentive is never negative,
    and a manager whose own collections reach the branch total gets 0. *)
Theorem manager_convenience_nonnegative
    (bonusRates : Qc -> number) (entry : SalaryEntry.t) (base : number)
    (ratesMap : gmap string CommissionStructure.t) (override : option string)
    (ctx : ManagerContext.t) :
  let out := recalculateEntry bonusRates entry base ratesMap override
               (Some ctx) in
  (SalaryEntry.manager_convenience out = NaN \/
   exists q : Qc, SalaryEntry.manager_convenience out = Num q /\ (0 <= q)%Qc) /\
  (forall t s : Qc,
     ManagerContext.branchTotalCollection ctx = Num t ->
     (SalaryEntry.own_somity_collection entry)||0
     + (SalaryEntry.office_somity_collection entry)||0
     + (SalaryEntry.total_loan_collection entry)||0
     + (SalaryEntry.center_collection entry)||0 = Num s ->
     (t <= s)%Qc ->
     SalaryEntry.manager_convenience out = ofZ 0).
Proof.
  cbv zeta. unfold recalculateEntry. cbv zeta.
  cbn [SalaryEntry.manager_convenience]. split.
  - destruct (ManagerContext.isManager ctx).
    2:{ right. exists 0%Qc. split; [reflexivity|apply Qcle_refl]. }
    destruct ((_ - _) * _) as [x|]; [|now left]. right.
    unfold max. destruct (lt (ofZ 0) (Num x)) eqn:E.
    + exists x. split; [reflexivity|]. apply lt_Num in E.
      now apply Qclt_le_weak.
    + exists 0%Qc. split; [reflexivity|apply Qcle_refl].
  - intros t s Ht Hs Hle. destruct (ManagerContext.isManager ctx);
      [|reflexivity].
    rewrite Ht, Hs. cbn [sub mul ofQ]. unfold max.
    assert (H : lt (ofZ 0) (Num ((t - s) * Q2Qc (2 # 100))%Qc) = false).
    { apply lt_Num_false.
      apply Qcle_trans with (0 * Q2Qc (2 # 100))%Qc;
        [|rewrite Qcmult_0_l; vm_compute; discriminate].
      apply Qcmult_le_compat_r; [|vm_compute; discriminate].
      unfold Qcminus. rewrite <- (Qcplus_opp_r s).
      apply Qcplus_le_compat; [exact Hle|apply Qcle_refl]. }
    now rewrite H.
Qed.

(** A manager who collected the 1500 of the branch alone. *)
Lemma manager_convenience_nonnegative_witness :
  SalaryEntry.manager_convenience
    (recalculateEntry Samples.bonusRates Samples.scenarioEntry (ofZ 26000)
       Samples.ratesMap None (Some (Samples.managerOf (ofZ 1500)))) = ofZ 0.
Proof.
  apply (proj2 (manager_convenience_nonnegative Samples.bonusRates
                  Samples.scenarioEntry (ofZ 26000) Samples.ratesMap None
                  (Samples.managerOf (ofZ 1500)))
           (Q2Qc 1500) (Q2Qc 1500)).
  - reflexivity.
  - apply eqb_eq. vm_compute. reflexivity.
  - vm_compute. discriminate.
Defined.

End LogicMore.

(** ** Scan confirmation *)
Module ScanFacts.
Import JS JSFacts AccountService AppState.
Local Open Scope js_scope.

Lemma find_map_same {A} (p : A -> bool) (f : A -> A) (l : list A) :
  (forall x, p (f x) = p x) ->
  find p (map f l) = option_map f (find p l).
Proof.
  intros H. induction l as [|x l IH]; [reflexivity|].
  cbn [map find]. rewrite H. now destruct (p x).
Qed.

Section Scan.

Context (Number : string -> number) (toLowerCase trim : string -> string).

Local Abbreviation validateAccount :=
  (validateAccount Number toLowerCase trim).
Local Abbreviation lookup := (findAccount toLowerCase trim).
Local Abbreviation handleAccountScanned :=
  (handleAccountScanned toLowerCase trim).

(** The stamp written on one account by the confirmation of [code]. *)
Local Abbreviation stamp month sheet code acc :=
  (if String.eqb (toLowerCase (AccountOpening.account_code acc))
                 (toLowerCase (trim code))
   then markCounted month sheet acc else acc).

Lemma stamp_code month sheet code acc :
  AccountOpening.account_code (stamp month sheet code acc)
  = AccountOpening.account_code acc.
Proof. now destruct (String.eqb _ _). Qed.

(** After a confirmation the lookup selects the same account, stamped. *)
Lemma lookup_scanned month sheet scanned code accounts :
  lookup code (handleAccountScanned month sheet scanned accounts)
  = option_map (fun acc => stamp month sheet scanned acc)
               (lookup code accounts).
Proof.
  unfold findAccount, AppState.handleAccountScanned. cbv zeta.
  apply find_map_same. intros acc. now rewrite stamp_code.
Qed.

(** X5: once the scan of an accepted account is confirmed, the same code
    is rejected as "Already scanned in this sheet" for that sheet month and
    as "Used in <month>" for every other month, provided the stored code
    carries no surrounding blanks. *)
Theorem scanned_account_is_rejected code employeeId branchId month sheet
    accounts ac :
  validateAccount code employeeId branchId month accounts = accepted ac ->
  toLowerCase (trim (AccountOpening.account_code ac))
    = toLowerCase (AccountOpening.account_code ac) ->
  let accounts' :=
    handleAccountScanned month sheet (AccountOpening.account_code ac)
      accounts in
  validateAccount code employeeId branchId month accounts'
    = rejected "Already scanned in this sheet" /\
  (forall later, later <> month -> month <> "" ->
     validateAccount code employeeId branchId later accounts'
       = rejected ("Used in " ++ month)).
Proof.
  intros Hok Hcode accounts'.
  assert (Hfind : lookup code accounts = Some ac /\
                  AccountOpening.opened_by_employee_id ac = employeeId /\
                  AccountOpening.branch_id ac = branchId).
  { revert Hok. unfold AccountService.validateAccount. cbv zeta.
    destruct (lookup code accounts) as [a|]; [|discriminate].
    destruct (String.eqb (AccountOpening.opened_by_employee_id a) employeeId)
      eqn:Eo; cbn [negb]; [|discriminate].
    destruct (String.eqb (AccountOpening.branch_id a) branchId) eqn:Eb;
      cbn [negb]; [|discriminate].
    apply String.eqb_eq in Eo, Eb.
    repeat match goal with
           | |- context [if ?b then _ else _] => destruct b; try discriminate
           end.
    unfold accepted. now intros [= ->]. }
  destruct Hfind as (Hf & Ho & Hb).
  assert (Hf' : lookup code accounts' = Some (markCounted month sheet ac)).
  { unfold accounts'. rewrite lookup_scanned, Hf. cbn [option_map].
    now rewrite Hcode, String.eqb_refl. }
  split.
  - unfold AccountService.validateAccount. cbv zeta. rewrite Hf'.
    cbn [markCounted AccountOpening.opened_by_employee_id
         AccountOpening.branch_id AccountOpening.is_counted
         AccountOpening.counted_month strictEqS].
    now rewrite Ho, Hb, !String.eqb_refl.
  - intros later Hl Hm. unfold AccountService.validateAccount. cbv zeta.
    rewrite Hf'.
    cbn [markCounted AccountOpening.opened_by_employee_id
         AccountOpening.branch_id AccountOpening.is_counted
         AccountOpening.counted_month strictEqS].
    rewrite Ho, Hb, !String.eqb_refl. cbn [negb].
    assert (E : String.eqb month later = false).
    { apply String.eqb_neq. congruence. }
    rewrite E. unfold orS, truthyS.
    apply String.eqb_neq in Hm. now rewrite Hm.
Qed.

(** X6: a confirmation keeps the list in place: every account keeps its
    code, owner, branch, amount and opening date, a counted account stays
    counted, an account with another code is untouched, and every account
    with the confirmed code, counted before or not, is stamped with the
    sheet month. *)
Theorem handleAccountScanned_frame month sheet code (prev : list AccountOpening.t) :
  Forall2
    (fun acc acc' =>
       AccountOpening.account_code acc' = AccountOpening.account_code acc /\
       AccountOpening.opened_by_employee_id acc'
         = AccountOpening.opened_by_employee_id acc /\
       AccountOpening.branch_id acc' = AccountOpening.branch_id acc /\
       AccountOpening.collection_amount acc'
         = AccountOpening.collection_amount acc /\
       AccountOpening.opening_date acc' = AccountOpening.opening_date acc /\
       (AccountOpening.is_counted acc = true ->
        AccountOpening.is_counted acc' = true) /\
       (toLowerCase (AccountOpening.account_code acc)
          <> toLowerCase (trim code) -> acc' = acc) /\
       (toLowerCase (AccountOpening.account_code acc)
          = toLowerCase (trim code) ->
        AccountOpening.is_counted acc' = true /\
        AccountOpening.counted_month acc' = Some month))
    prev (handleAccountScanned month sheet code prev).
Proof.
  unfold AppState.handleAccountScanned. cbv zeta.
  induction prev as [|acc prev IH]; cbn [map]; constructor; [|exact IH].
  destruct (String.eqb (toLowerCase (AccountOpening.account_code acc))
                       (toLowerCase (trim code))) eqn:E.
  - apply String.eqb_eq in E. repeat split; try reflexivity.
    intros H. contradiction.
  - apply String.eqb_neq in E. repeat split; try reflexivity; try tauto;
      intros H; contradiction.
Qed.

End Scan.

(** The account accepted for the sheet of 2024-03 is confirmed, then
    scanned again for that sheet and for the sheet of 2024-04. *)
Lemma scanned_account_is_rejected_witness :
  let ac := Samples.account "ac-1" "2024-01-15" (ofZ 600) false None in
  let accounts' :=
    handleAccountScanned toLowerCaseAscii trimAscii "2024-03"
      (Some Samples2.sheet) "ac-1" [ac] in
  Samples.validate "AC-1" "emp1" "b1" "2024-03" accounts'
    = rejected "Already scanned in this sheet" /\
  Samples.validate "AC-1" "emp1" "b1" "2024-04" accounts'
    = rejected "Used in 2024-03".
Proof.
  intros ac accounts'.
  assert (Hok : Samples.validate "AC-1" "emp1" "b1" "2024-03" [ac]
                = accepted ac) by (vm_compute; reflexivity).
  destruct (scanned_account_is_rejected NumberDecimal toLowerCaseAscii
              trimAscii "AC-1" "emp1" "b1" "2024-03" (Some Samples2.sheet)
              [ac] ac Hok eq_refl) as [H1 H2].
  split; [exact H1|]. apply H2; discriminate.
Defined.

End ScanFacts.

(** ** The accounts of an employee, the salary table and the slip *)
Module TableFacts.
Import JS JSFacts JSMore NumberAlgebra AccountService AppState SalaryTable.
Local Open Scope js_scope.

Lemma find_filter_first {A} (p q : A -> bool) (l : list A) (x : A) :
  find p l = Some x -> q x = true -> find p (List.filter q l) = Some x.
Proof.
  induction l as [|y l IH]; [discriminate|]. cbn [find List.filter].
  destruct (p y) eqn:Ep.
  - intros [= ->] Hq. rewrite Hq. cbn [find]. now rewrite Ep.
  - intros Hf Hq. destruct (q y); [cbn [find]; rewrite Ep|]; now apply IH.
Qed.


Section Table.

Context (bonusRates : Qc -> number) (Number : string -> number)
        (toLowerCase trim : string -> string) (parseFloat : string -> number).

Local Abbreviation validateAccount :=
  (validateAccount Number toLowerCase trim).

(** X7: restricting the list to the accounts of the scanning employee
    loses no acceptance: an account accepted from the full list is
    accepted from [getAccountsByEmployee], whose members are exactly the
    employee's accounts. *)
Theorem getAccountsByEmployee_accepts code employeeId branchId month
    (allAccounts : list AccountOpening.t) ac :
  validateAccount code employeeId branchId month allAccounts = accepted ac ->
  validateAccount code employeeId branchId month
    (AccountLists.getAccountsByEmployee employeeId allAccounts) = accepted ac /\
  (forall a, In a (AccountLists.getAccountsByEmployee employeeId allAccounts)
     <-> In a allAccounts /\
         AccountOpening.opened_by_employee_id a = employeeId).
Proof.
  intros H. split.
  - apply AccountServiceFacts.validateAccount_accepted_iff in H.
    apply AccountServiceFacts.validateAccount_accepted_iff.
    destruct H as (Hf & Ho & Hrest). split; [|split; assumption].
    unfold findAccount, AccountLists.getAccountsByEmployee in *. cbv zeta in *.
    apply find_filter_first; [exact Hf|]. now apply String.eqb_eq.
  - intros a. unfold AccountLists.getAccountsByEmployee.
    rewrite filter_In, String.eqb_eq. reflexivity.
Qed.


(** X9: an account accepted for an employee and then confirmed is listed
    on that employee's slip for the sheet month when its amount is a
    number; an account accepted with a NaN amount is confirmed as well but
    never listed. *)
Theorem scanned_account_on_slip code branchId month sheet accounts ac
    (row : SalaryRow.t) :
  validateAccount code (Employee.id (SalaryRow.employee row)) branchId month
    accounts = accepted ac ->
  toLowerCase (trim (AccountOpening.account_code ac))
    = toLowerCase (AccountOpening.account_code ac) ->
  let accounts' :=
    handleAccountScanned toLowerCase trim month sheet
      (AccountOpening.account_code ac) accounts in
  In (markCounted month sheet ac) accounts' /\
  (forall a : Qc, AccountOpening.collection_amount ac = Num a ->
     In (markCounted month sheet ac)
        (SalarySlip.bonusableAccounts accounts' row month)) /\
  (AccountOpening.collection_amount ac = NaN ->
   ~ In (markCounted month sheet ac)
        (SalarySlip.bonusableAccounts accounts' row month)).
Proof.
  intros H Hcode accounts'.
  apply AccountServiceFacts.validateAccount_accepted_iff in H.
  destruct H as (Hf & Ho & _ & _ & Ha & _).
  apply AccountServiceFacts.lookup_matches in Hf as [Hin _].
  assert (Hin' : In (markCounted month sheet ac) accounts').
  { unfold accounts', AppState.handleAccountScanned. cbv zeta.
    apply in_map_iff. exists ac. split; [|exact Hin].
    now rewrite Hcode, String.eqb_refl. }
  split; [exact Hin'|]. split.
  - intros a Hnum. unfold SalarySlip.bonusableAccounts.
    apply filter_In. split; [exact Hin'|].
    cbn [markCounted AccountOpening.opened_by_employee_id
         AccountOpening.counted_month AccountOpening.collection_amount
         strictEqS].
    rewrite Ho, !String.eqb_refl, Hnum. cbn [andb].
    rewrite Hnum in Ha. apply lt_Num_false in Ha. now apply ge_Num.
  - intros Hnan Hin''. unfold SalarySlip.bonusableAccounts in Hin''.
    apply filter_In in Hin'' as [_ Hp].
    cbn [markCounted AccountOpening.collection_amount] in Hp.
    rewrite Hnan in Hp. cbn [ge] in Hp. now rewrite andb_false_r in Hp.
Qed.

(** X10: on a row that was recalculated with the commission type of its
    employee, the three commission lines of the slip add up to the row's
    commission whenever the own and office collections are numbers. *)
Theorem slip_breakdown_matches (entry : SalaryEntry.t) (base : number)
    (commissionRates : gmap string CommissionStructure.t)
    (override : option string) (managerContext : option ManagerContext.t)
    (employee : Employee.t) (branch : Branch.t) :
  let row :=
    {| SalaryRow.entry :=
         Logic.recalculateEntry bonusRates entry base commissionRates override
           managerContext;
       SalaryRow.employee := employee; SalaryRow.branch := branch |} in
  SalaryEntry.commission_type (SalaryRow.entry row)
    = Some (SalarySlip.commType row) ->
  isNaN (SalaryEntry.own_somity_collection entry) = false ->
  isNaN (SalaryEntry.office_somity_collection entry) = false ->
  SalarySlip.ownComm commissionRates row
  + SalarySlip.officeComm commissionRates row
  + SalarySlip.bookCommission bonusRates row
  = SalaryEntry.commission (SalaryRow.entry row).
Proof.
  cbv zeta. intros Ht Ho Hf.
  unfold SalarySlip.ownComm, SalarySlip.officeComm, SalarySlip.bookCommission,
    SalarySlip.commType, Logic.recalculateEntry in *.
  cbv zeta in *.
  cbn [SalaryRow.entry SalaryRow.employee SalaryEntry.commission
       SalaryEntry.commission_type SalaryEntry.own_somity_collection
       SalaryEntry.office_somity_collection SalaryEntry.book_1_5
       SalaryEntry.book_3 SalaryEntry.book_5 SalaryEntry.book_8
       SalaryEntry.book_10 SalaryEntry.book_12] in *.
  injection Ht as Ht. rewrite <- Ht.
  now rewrite (or0_not_NaN _ Ho), (or0_not_NaN _ Hf).
Qed.

(** X11: a manual center collection that is taken adds a positive
    numeric amount: the center collection grows by it and the center count
    by one, the total collection is the own and office collections plus the
    new center collection, and the commission stays what a plain
    recalculation of the row gives. *)
Theorem center_submit_adds (row : SalaryRow.t) (centerAmount : string)
    (commissionRates : gmap string CommissionStructure.t)
    (updated : SalaryEntry.t) :
  handleCenterSubmit bonusRates parseFloat (Some row) centerAmount
    commissionRates = Added updated ->
  let before :=
    Logic.recalculateEntry bonusRates (SalaryRow.entry row)
      (Employee.base_salary (SalaryRow.employee row)) commissionRates
      (typeOfRow row) None in
  exists a : Qc,
    parseFloat centerAmount = Num a /\ (0 < a)%Qc /\
    SalaryEntry.center_collection updated
      = (SalaryEntry.center_collection (SalaryRow.entry row))||0 + Num a /\
    SalaryEntry.center_count updated
      = (SalaryEntry.center_count (SalaryRow.entry row))||0 + ofZ 1 /\
    SalaryEntry.total_collection updated
      = (SalaryEntry.own_somity_collection (SalaryRow.entry row))||0
        + (SalaryEntry.office_somity_collection (SalaryRow.entry row))||0
        + ((SalaryEntry.center_collection (SalaryRow.entry row))||0 + Num a) /\
    SalaryEntry.commission updated = SalaryEntry.commission before.
Proof.
  unfold handleCenterSubmit. cbv zeta.
  destruct (String.eqb centerAmount ""); [discriminate|].
  destruct (parseFloat centerAmount) as [a|] eqn:Ea; [|discriminate].
  cbn [isNaN orb]. destruct (le (Num a) (ofZ 0)) eqn:El; [discriminate|].
  intros [= <-]. exists a. split; [reflexivity|]. split.
  { apply Qcnot_le_lt. intros Hle. apply le_Num in Hle.
    change (ofZ 0) with (Num 0%Qc) in El. congruence. }
  unfold Logic.recalculateEntry. cbv zeta.
  cbn [withCenter spread SalaryEntry.center_collection SalaryEntry.center_count
       SalaryEntry.total_collection SalaryEntry.commission
       SalaryEntry.own_somity_collection SalaryEntry.office_somity_collection
       SalaryEntry.book_1_5 SalaryEntry.book_3 SalaryEntry.book_5
       SalaryEntry.book_8 SalaryEntry.book_10 SalaryEntry.book_12
       SalaryEntry.commission_type].
  repeat split.
  destruct (or0_is_Num (SalaryEntry.center_collection (SalaryRow.entry row)))
    as [c Hc].
  rewrite Hc. cbn [add]. now rewrite or0_Num.
Qed.

End Table.

(** The account of emp1 behind an account of emp2 with another code. *)
Lemma getAccountsByEmployee_accepts_witness :
  let other :=
    {| AccountOpening.rowIndex := None; AccountOpening.status := Some ACTIVE;
       AccountOpening.id := ofZ 2; AccountOpening.account_code := "ac-9";
       AccountOpening.term := ofZ 3;
       AccountOpening.collection_amount := ofZ 900;
       AccountOpening.opened_by_employee_id := "emp2";
       AccountOpening.branch_id := "b1";
       AccountOpening.opening_date := "2024-02-01";
       AccountOpening.is_counted := false;
       AccountOpening.counted_month := None;
       AccountOpening.salary_sheet_id := None |} in
  let ac := Samples.account "ac-1" "2024-01-15" (ofZ 600) false None in
  Samples.validate "AC-1" "emp1" "b1" "2024-03"
    (AccountLists.getAccountsByEmployee "emp1" [other; ac]) = accepted ac.
Proof.
  intros other ac.
  apply (getAccountsByEmployee_accepts NumberDecimal toLowerCaseAscii
           trimAscii "AC-1" "emp1" "b1" "2024-03" [other; ac] ac).
  vm_compute. reflexivity.
Defined.


(** The confirmed account ac-1 is on the March slip of emp1. *)
Lemma scanned_account_on_slip_witness :
  let row := Samples2.row Samples.scenarioEntry
               (Samples2.employee "emp1" "b1" "Field Officer" (ofZ 26000)) in
  let ac := Samples.account "ac-1" "2024-01-15" (ofZ 600) false None in
  In (markCounted "2024-03" (Some Samples2.sheet) ac)
     (SalarySlip.bonusableAccounts
        (handleAccountScanned toLowerCaseAscii trimAscii "2024-03"
           (Some Samples2.sheet) "ac-1" [ac]) row "2024-03").
Proof.
  intros row ac.
  assert (H : Samples.validate "AC-1" "emp1" "b1" "2024-03" [ac] = accepted ac)
    by (vm_compute; reflexivity).
  destruct (scanned_account_on_slip NumberDecimal toLowerCaseAscii trimAscii
              "AC-1" "b1" "2024-03" (Some Samples2.sheet) [ac] ac row H
              eq_refl) as (_ & Hnum & _).
  apply (Hnum (Q2Qc 600)). reflexivity.
Defined.

(** The slip of the scenario row: 100 + 30 + 100. *)
Lemma slip_breakdown_matches_witness :
  let row :=
    {| SalaryRow.entry :=
         Logic.recalculateEntry Samples.bonusRates Samples.scenarioEntry
           (ofZ 26000) Samples.ratesMap None None;
       SalaryRow.employee :=
         Samples2.employee "emp1" "b1" "Field Officer" (ofZ 26000);
       SalaryRow.branch := Samples2.branch "b1" |} in
  SalarySlip.ownComm Samples.ratesMap row
  + SalarySlip.officeComm Samples.ratesMap row
  + SalarySlip.bookCommission Samples.bonusRates row
  = SalaryEntry.commission (SalaryRow.entry row).
Proof.
  apply (slip_breakdown_matches Samples.bonusRates Samples.scenarioEntry
           (ofZ 26000) Samples.ratesMap None None
           (Samples2.employee "emp1" "b1" "Field Officer" (ofZ 26000))
           (Samples2.branch "b1")); reflexivity.
Defined.

(** 25 is added by hand to the scenario row. *)
Lemma center_submit_adds_witness :
  let row := Samples2.row Samples.scenarioEntry
               (Samples2.employee "emp1" "b1" "Field Officer" (ofZ 26000)) in
  let updated :=
    Logic.recalculateEntry Samples.bonusRates
      (withCenter Samples.scenarioEntry (ofZ 0 + ofZ 1) (ofZ 0 + ofZ 25))
      (ofZ 26000) Samples.ratesMap (Some "B") None in
  exists a : Qc,
    NumberDecimal "25" = Num a /\ (0 < a)%Qc /\
    SalaryEntry.center_collection updated
      = (SalaryEntry.center_collection (SalaryRow.entry row))||0 + Num a /\
    SalaryEntry.center_count updated
      = (SalaryEntry.center_count (SalaryRow.entry row))||0 + ofZ 1 /\
    SalaryEntry.total_collection updated
      = (SalaryEntry.own_somity_collection (SalaryRow.entry row))||0
        + (SalaryEntry.office_somity_collection (SalaryRow.entry row))||0
        + ((SalaryEntry.center_collection (SalaryRow.entry row))||0 + Num a) /\
    SalaryEntry.commission updated
      = SalaryEntry.commission
          (Logic.recalculateEntry Samples.bonusRates (SalaryRow.entry row)
             (Employee.base_salary (SalaryRow.employee row)) Samples.ratesMap
             (typeOfRow row) None).
Proof.
  intros row updated.
  apply (center_submit_adds Samples.bonusRates NumberDecimal row "25"
           Samples.ratesMap updated).
  vm_compute. reflexivity.
Defined.

End TableFacts.

(** ** Branch totals, the salary grid and sheet generation *)
Module GridFacts.
Import JS JSFacts JSMore NumberAlgebra AppState GridSpec.
Local Open Scope js_scope.














Example branch_total_sample :
  lookupOr0 (branchTotals Samples.records "2024-03" Samples2.entries
               Samples2.employees) "b1" = ofZ 1356.
Proof. apply eqb_eq. vm_compute. reflexivity. Qed.


Example branch_total_reset_sample :
  lookupOr0 (branchTotals (firstn 2 Samples.records
                           ++ Samples2.badRecord :: skipn 2 Samples.records)
               "2024-03" Samples2.entries Samples2.employees) "b1"
  = ofZ 148.
Proof. apply eqb_eq. vm_compute. reflexivity. Qed.

Section Grid.

Context (bonusRates : Qc -> number) (toLowerCase trim : string -> string).

Local Abbreviation gridRows := (gridRows bonusRates toLowerCase trim).
Local Abbreviation isBranchManager := (isBranchManager toLowerCase trim).

(** X14: a normal user gets no rows; otherwise every row of the grid
    belongs to an entry of the sheet whose employee is known, keeps that
    entry's id, shows for a manager with a branch only employees of that
    branch, and carries the collections aggregated for the employee and
    month from the records, not the ones stored on the entry. *)
Theorem gridRows_rows isNormalUser isManager userBranch entries employees
    branches centerRecords commissionRates selectedMonth centers :
  (isNormalUser = true ->
   gridRows isNormalUser isManager userBranch entries employees branches
     centerRecords commissionRates selectedMonth centers = []) /\
  (forall row,
     In row (gridRows isNormalUser isManager userBranch entries employees
               branches centerRecords commissionRates selectedMonth centers) ->
     exists entry,
       In entry entries /\
       employeeOf employees (SalaryEntry.employee_id entry)
         = Some (SalaryRow.employee row) /\
       SalaryEntry.id (SalaryRow.entry row) = SalaryEntry.id entry /\
       SalaryEntry.employee_id (SalaryRow.entry row)
         = SalaryEntry.employee_id entry /\
       (isManager = true -> truthyS userBranch = true ->
        userBranch = Some (Employee.branch_id (SalaryRow.employee row))) /\
       let a := App.aggregate centers centerRecords selectedMonth
                  (SalaryEntry.employee_id entry) in
       SalaryEntry.own_somity_collection (SalaryRow.entry row)
         = App.Collections.own_somity_collection a /\
       SalaryEntry.office_somity_collection (SalaryRow.entry row)
         = App.Collections.office_somity_collection a /\
       SalaryEntry.total_loan_collection (SalaryRow.entry row)
         = App.Collections.total_loan_collection a /\
       SalaryEntry.own_somity_count (SalaryRow.entry row)
         = ofZ (Z.of_nat (App.Collections.own_somity_count a)) /\
       SalaryEntry.office_somity_count (SalaryRow.entry row)
         = ofZ (Z.of_nat (App.Collections.office_somity_count a))).
Proof.
  split.
  - intros ->. reflexivity.
  - intros row. unfold AppState.gridRows.
    destruct isNormalUser; [intros []|]. cbv zeta.
    intros Hin. apply list_elem_of_In, list_elem_of_omap in Hin.
    destruct Hin as (entry & Hentry & Hrow).
    apply list_elem_of_In in Hentry. exists entry. split; [exact Hentry|].
    unfold gridRow in Hrow.
    destruct (employeeOf employees (SalaryEntry.employee_id entry))
      as [employee|]; [|discriminate].
    destruct (isManager && truthyS userBranch
              && negb (strictEqS userBranch (Employee.branch_id employee)))
      eqn:Ev; [discriminate|].
    cbv zeta in Hrow. injection Hrow as <-.
    cbn [SalaryRow.employee SalaryRow.entry]. split; [reflexivity|].
    split; [reflexivity|]. split; [reflexivity|]. split.
    + intros -> Ht. rewrite Ht in Ev. cbn [andb] in Ev.
      apply negb_false_iff in Ev. destruct userBranch as [u|]; [|discriminate].
      cbn [strictEqS] in Ev. apply String.eqb_eq in Ev. now subst u.
    + repeat split.
Qed.

(** X15: in the grid only an employee whose designation is "branch
    manager" or "branch_manager", up to case and surrounding blanks, can
    carry a manager incentive: every other row has incentive 0 whatever
    its entry stored, and no row has a negative incentive. *)
Theorem gridRows_incentive isNormalUser isManager userBranch entries employees
    branches centerRecords commissionRates selectedMonth centers row :
  In row (gridRows isNormalUser isManager userBranch entries employees
            branches centerRecords commissionRates selectedMonth centers) ->
  (isBranchManager (SalaryRow.employee row) = false ->
   SalaryEntry.manager_convenience (SalaryRow.entry row) = ofZ 0) /\
  (SalaryEntry.manager_convenience (SalaryRow.entry row) = NaN \/
   exists q : Qc,
     SalaryEntry.manager_convenience (SalaryRow.entry row) = Num q /\
     (0 <= q)%Qc).
Proof.
  unfold AppState.gridRows. destruct isNormalUser; [intros []|]. cbv zeta.
  intros Hin. apply list_elem_of_In, list_elem_of_omap in Hin.
  destruct Hin as (entry & _ & Hrow). unfold gridRow in Hrow.
  destruct (employeeOf employees (SalaryEntry.employee_id entry))
    as [employee|]; [|discriminate].
  destruct (isManager && truthyS userBranch
            && negb (strictEqS userBranch (Employee.branch_id employee)));
    [discriminate|].
  cbv zeta in Hrow. injection Hrow as <-.
  cbn [SalaryRow.employee SalaryRow.entry].
  unfold Logic.recalculateEntry. cbv zeta.
  cbn [SalaryEntry.manager_convenience ManagerContext.isManager
       ManagerContext.branchTotalCollection].
  split.
  - intros ->. reflexivity.
  - destruct (isBranchManager employee).
    2:{ right. exists 0%Qc. split; [reflexivity|apply Qcle_refl]. }
    destruct ((_ - _) * _) as [x|]; [|now left]. right.
    unfold max. destruct (lt (ofZ 0) (Num x)) eqn:E.
    + exists x. split; [reflexivity|]. apply lt_Num in E.
      now apply Qclt_le_weak.
    + exists 0%Qc. split; [reflexivity|apply Qcle_refl].
Qed.

End Grid.

(** The first row of the sample grid is emp1, a field officer whose entry
    stored an incentive of 40: the row shows none. *)
Lemma gridRows_incentive_witness :
  match Samples2.gridRows false false None with
  | row :: _ =>
      SalaryEntry.manager_convenience
        (Samples.staleManagerEntry) = ofZ 40 /\
      SalaryEntry.manager_convenience (SalaryRow.entry row) = ofZ 0
  | [] => False
  end.
Proof.
  destruct (Samples2.gridRows false false None) as [|row rows] eqn:E.
  - vm_compute in E. discriminate.
  - split; [reflexivity|].
    apply (gridRows_incentive Samples.bonusRates
             AccountService.toLowerCaseAscii AccountService.trimAscii
             false false None Samples2.entries Samples2.employees
             Samples2.branches Samples.records Samples.ratesMap "2024-03"
             Samples.centers row).
    + change (In row (Samples2.gridRows false false None)).
      rewrite E. now left.
    + vm_compute in E. injection E as <- _. reflexivity.
Defined.

(** A manager of branch b2 sees rows of branch b2 alone. *)
Lemma gridRows_rows_witness :
  match Samples2.gridRows false true (Some "b2") with
  | row :: _ => Employee.branch_id (SalaryRow.employee row) = "b2"
  | [] => False
  end.
Proof.
  destruct (Samples2.gridRows false true (Some "b2")) as [|row rows] eqn:E.
  - vm_compute in E. discriminate.
  - destruct (proj2 (gridRows_rows Samples.bonusRates
                AccountService.toLowerCaseAscii AccountService.trimAscii
                false true (Some "b2") Samples2.entries Samples2.employees
                Samples2.branches Samples.records Samples.ratesMap "2024-03"
                Samples.centers) row) as (_ & _ & _ & _ & _ & Hb & _).
    + change (In row (Samples2.gridRows false true (Some "b2"))).
      rewrite E. now left.
    + specialize (Hb eq_refl eq_refl). now injection Hb as <-.
Defined.

End GridFacts.

(** ** Generating a sheet *)
Module GenerateFacts.
Import JS JSFacts JSMore NumberAlgebra Logic AppState GridSpec.
Local Open Scope js_scope.

Lemma Forall2_imap {A B} (P : A -> B -> Prop) (f : nat -> A -> B)
    (l : list A) :
  (forall i x, In x l -> P x (f i x)) -> Forall2 P l (imap f l).
Proof.
  revert f. induction l as [|x l IH]; intros f H; cbn [imap].
  - constructor.
  - constructor; [apply H; now left|].
    apply IH. intros i y Hy. apply H. now right.
Qed.

Section Generate.

Context (bonusRates : Qc -> number).

Lemma recalculate_fresh id sheetId employeeId (b : Qc) (ct : string)
    (rates : gmap string CommissionStructure.t) :
  Forall (fun t => isNaN (bonusRates t) = false)
    [term_1_5; term_3; term_5; term_8; term_10; term_12] ->
  map_Forall (fun _ r => isNaN (CommissionStructure.own r) = false /\
                         isNaN (CommissionStructure.office r) = false)
             rates ->
  (rates !! ct = None -> inheritedProperty ct = false) ->
  let out := recalculateEntry bonusRates
               (createEmptyEntry id sheetId employeeId (Num b) (Some ct))
               (Num b) rates None None in
  SalaryEntry.final_salary out = Num b /\
  SalaryEntry.commission out = ofZ 0 /\
  SalaryEntry.bonus out = ofZ 0 /\
  SalaryEntry.manager_convenience out = ofZ 0 /\
  SalaryEntry.total_deductions out = ofZ 0.
Proof.
  intros Hb Hr Hi. cbv zeta.
  unfold recalculateEntry, createEmptyEntry. cbv zeta.
  cbn [SalaryEntry.final_salary SalaryEntry.commission SalaryEntry.bonus
       SalaryEntry.manager_convenience SalaryEntry.total_deductions
       SalaryEntry.basic_salary SalaryEntry.commission_type
       SalaryEntry.own_somity_collection SalaryEntry.office_somity_collection
       SalaryEntry.center_collection SalaryEntry.total_loan_collection
       SalaryEntry.book_1_5 SalaryEntry.book_3 SalaryEntry.book_5
       SalaryEntry.book_8 SalaryEntry.book_10 SalaryEntry.book_12
       SalaryEntry.book_no_bonus SalaryEntry.input_late_hours
       SalaryEntry.input_absent_days SalaryEntry.deduction_cash_advance
       SalaryEntry.misconductDeduction SalaryEntry.deduction_unlawful
       SalaryEntry.deduction_tours SalaryEntry.deduction_others].
  set (T := textOf _).
  assert (HT : exists o f : Qc, rateStructOf rates T = (Num o, Num f)).
  { unfold rateStructOf. destruct (rates !! T) as [r|] eqn:E.
    - destruct (Hr _ _ E) as [Ho Hf].
      destruct (CommissionStructure.own r) as [o|]; [|discriminate].
      destruct (CommissionStructure.office r) as [f|]; [|discriminate].
      now exists o, f.
    - assert (Ei : inheritedProperty T = false).
      { subst T. unfold orS in *. cbn [truthyS] in *.
        destruct (String.eqb ct "") eqn:Ec; cbn [negb textOf] in *;
          [reflexivity|now apply Hi]. }
      rewrite Ei. now exists (Q2Qc (inject_Z 0)), (Q2Qc (inject_Z 0)). }
  destruct HT as (o & f & ->). cbn [fst snd].
  assert (HB : forall t, In t [term_1_5; term_3; term_5; term_8; term_10;
                               term_12] ->
                         ofZ 0 * bonusRates t = ofZ 0).
  { intros t Ht. rewrite List.Forall_forall in Hb. specialize (Hb t Ht).
    destruct (bonusRates t); [apply mul_0_l|discriminate]. }
  rewrite !HB by (cbn [In]; tauto).
  rewrite !or0_ofZ, !div_Num by reflexivity. rewrite !mul_0_l, !add_0_l.
  change (ge (ofZ 0) BONUS_TARGET_BOOKS) with false. cbv iota.
  rewrite or0_Num, !add_0_r, sub_0_r. repeat apply conj; reflexivity.
Qed.

(** X16: generating a sheet.  A normal user generates nothing; a manager
    with a branch generates for that branch whatever was selected.  When
    the bonus table, the commission rates and the base salaries hold finite
    numbers and the commission type of every employee is a key of the rate
    object or at least no property it inherits (such as "constructor"), the
    sheet has one entry per employee of its branches, in the order of the
    employee list, and each entry pays the base salary and nothing else: no
    commission, bonus, incentive or deduction. *)
Theorem handleGenerate_fresh isNormalUser isManager userBranch
    selectedBranchIds selectedMonth sheetId now entryIds employees
    commissionRates sheet newEntries :
  Forall (fun t => isNaN (bonusRates t) = false)
    [term_1_5; term_3; term_5; term_8; term_10; term_12] ->
  map_Forall (fun _ r => isNaN (CommissionStructure.own r) = false /\
                         isNaN (CommissionStructure.office r) = false)
             commissionRates ->
  Forall (fun e => isNaN (Employee.base_salary e) = false) employees ->
  Forall (fun e => commissionRates !! Employee.commission_type e = None ->
                   inheritedProperty (Employee.commission_type e) = false)
         employees ->
  handleGenerate bonusRates isNormalUser isManager userBranch
    selectedBranchIds selectedMonth sheetId now entryIds employees
    commissionRates = Some (sheet, newEntries) ->
  isNormalUser = false /\
  SalarySheet.branch_ids sheet <> [] /\
  SalarySheet.branch_ids sheet
    = (if isManager && truthyS userBranch then [textOf userBranch]
       else selectedBranchIds) /\
  Forall2 (fun emp e =>
             SalaryEntry.employee_id e = Employee.id emp /\
             SalaryEntry.salary_sheet_id e = SalarySheet.id sheet /\
             SalaryEntry.basic_salary e = Employee.base_salary emp /\
             SalaryEntry.final_salary e = Employee.base_salary emp /\
             SalaryEntry.commission e = ofZ 0 /\
             SalaryEntry.bonus e = ofZ 0 /\
             SalaryEntry.manager_convenience e = ofZ 0 /\
             SalaryEntry.total_deductions e = ofZ 0)
          (targetEmployees (SalarySheet.branch_ids sheet) employees)
          newEntries.
Proof.
  intros Hb Hr He Ht. unfold handleGenerate.
  destruct isNormalUser; [discriminate|]. cbv zeta.
  set (targetBranches := if isManager && truthyS userBranch then _ else _).
  destruct (length targetBranches =? 0)%nat eqn:El; [discriminate|].
  intros [= <- <-]. cbn [SalarySheet.branch_ids SalarySheet.id].
  split; [reflexivity|]. split.
  { intros E. now rewrite E in El. }
  split; [reflexivity|].
  apply Forall2_imap. intros i emp Hin.
  apply List.filter_In in Hin. destruct Hin as [Hin _].
  rewrite List.Forall_forall in He, Ht. specialize (He emp Hin).
  specialize (Ht emp Hin).
  destruct (Employee.base_salary emp) as [b|] eqn:Eb; [|discriminate].
  destruct (recalculate_fresh (entryIds i) sheetId (Employee.id emp) b
              (Employee.commission_type emp) commissionRates Hb Hr Ht)
    as (Hf & Hc & Hbo & Hm & Hd).
  repeat apply conj; try assumption; reflexivity.
Qed.

End Generate.
(** The manager of branch b1 selects branch b2 and generates: the sheet
    is for b1 and has the two entries of emp1 and emp2. *)
Lemma handleGenerate_fresh_witness :
  match handleGenerate Samples.bonusRates false true (Some "b1") ["b2"]
          "2024-03" "s1" "now" (fun _ => "e") Samples2.employees
          Samples.ratesMap with
  | Some (sheet, newEntries) =>
      SalarySheet.branch_ids sheet = ["b1"] /\ length newEntries = 2%nat
  | None => False
  end.
Proof.
  destruct (handleGenerate Samples.bonusRates false true (Some "b1") ["b2"]
              "2024-03" "s1" "now" (fun _ => "e") Samples2.employees
              Samples.ratesMap) as [[sheet newEntries]|] eqn:E.
  - destruct (handleGenerate_fresh Samples.bonusRates false true (Some "b1")
                ["b2"] "2024-03" "s1" "now" (fun _ => "e") Samples2.employees
                Samples.ratesMap sheet newEntries) as (_ & _ & Hs & Hf).
    + repeat constructor.
    + apply map_Forall_singleton. split; reflexivity.
    + repeat constructor.
    + repeat constructor; discriminate.
    + exact E.
    + split; [exact Hs|]. apply Forall2_length in Hf. rewrite <- Hf, Hs.
      reflexivity.
  - vm_compute in E. discriminate.
Defined.

End GenerateFacts.

(** ** More on the aggregation of the grid *)
Module AggregateFacts.
Import JS JSFacts JSMore NumberAlgebra App AppFacts.
Local Open Scope js_scope.

Local Abbreviation keyOf c :=
  (centerKey (Center.branchId c) (Center.centerCode c)).








(** X19: for a record whose branch and code name a center of a master
    list with pairwise distinct keys, the salary grid and the entry screen
    classify alike, by the center alone: OFFICE when the center is marked
    OFFICE, else OWN exactly when the center is assigned to the employee.
    The type stored on the record plays no part, so that changing the
    master list reclassifies records already stored. *)
Theorem registered_center_classification centers c r employee
    isNewCenter newCenterType :
  uniqueKeys centers ->
  In c centers ->
  Center.branchId c = CenterCollectionRecord.branchId r ->
  Center.centerCode c = CenterCollectionRecord.centerCode r ->
  classify centers employee r
  = (if isOFFICE (Center.type c) then OFFICE
     else if String.eqb (Center.assignedEmployeeId c) employee then OWN
          else OFFICE) /\
  CenterCalculation.getCenterType centers isNewCenter newCenterType
    (CenterCollectionRecord.centerCode r) (CenterCollectionRecord.branchId r)
    employee
  = classify centers employee r.
Proof.
  intros Hu Hin Hb Hc.
  assert (E1 : classify centers employee r
               = (if isOFFICE (Center.type c) then OFFICE
                  else if String.eqb (Center.assignedEmployeeId c) employee
                       then OWN else OFFICE)).
  { unfold classify, isOwn. rewrite <- Hb, <- Hc.
    rewrite (centerMap_lookup centers c Hu Hin).
    destruct (isOFFICE (Center.type c)); [reflexivity|].
    now destruct (String.eqb _ employee). }
  split; [exact E1|]. rewrite E1.
  unfold CenterCalculation.getCenterType. rewrite <- Hb, <- Hc.
  now rewrite (find_center centers c Hu Hin).
Qed.

Lemma registered_center_classification_witness :
  let r := Samples.record "emp1" 4 (ofZ 100) (ofZ 10) "2024-03-01T08:00:00Z" in
  classify Samples.centers "emp2" r = OFFICE /\
  CenterCalculation.getCenterType Samples.centers false OWN 4 "b1" "emp2"
  = classify Samples.centers "emp2" r.
Proof.
  intros r.
  apply (registered_center_classification Samples.centers
           (Samples.center 4 "emp1" None) r "emp2" false OWN).
  - apply (bool_decide_unpack _). vm_compute. exact I.
  - right. now left.
  - reflexivity.
  - reflexivity.
Defined.

Lemma centerMap_last (cs : list Center.t) (c : Center.t) :
  centerMap (cs ++ [c]) !! keyOf c = Some c.
Proof.
  unfold centerMap. rewrite foldl_app. cbn [foldl]. apply lookup_insert_eq.
Qed.

(** X20: when two centers of the master list share branch and code, the
    entry screen decides by the first and the salary grid by the last: with
    the first marked OFFICE and the last an own center of the employee, the
    screen stores OFFICE while the grid counts the record as OWN. *)
Theorem duplicate_center_disagreement first mid last r employee
    isNewCenter newCenterType :
  Center.branchId first = CenterCollectionRecord.branchId r ->
  Center.centerCode first = CenterCollectionRecord.centerCode r ->
  Center.branchId last = CenterCollectionRecord.branchId r ->
  Center.centerCode last = CenterCollectionRecord.centerCode r ->
  Center.type first = Some OFFICE ->
  isOFFICE (Center.type last) = false ->
  Center.assignedEmployeeId last = employee ->
  CenterCalculation.getCenterType (first :: mid ++ [last])%list isNewCenter
    newCenterType (CenterCollectionRecord.centerCode r)
    (CenterCollectionRecord.branchId r) employee = OFFICE /\
  classify (first :: mid ++ [last])%list employee r = OWN.
Proof.
  intros Hb1 Hc1 Hb2 Hc2 Ht1 Ht2 Ha. split.
  - unfold CenterCalculation.getCenterType. cbn [find].
    rewrite Hb1, Hc1, Z.eqb_refl, String.eqb_refl. cbn [andb].
    now rewrite Ht1.
  - unfold classify, isOwn. rewrite <- Hb2, <- Hc2.
    rewrite (app_comm_cons mid [last] first), centerMap_last.
    now rewrite Ht2, Ha, String.eqb_refl.
Qed.

Lemma duplicate_center_disagreement_witness :
  let r := Samples.record "emp1" 7 (ofZ 30) (ofZ 5) "2024-03-03T08:00:00Z" in
  let centers := (Samples.center 7 "emp1" (Some OFFICE)
                  :: [Samples.center 4 "emp1" None]
                  ++ [Samples.center 7 "emp1" (Some OWN)])%list in
  CenterCalculation.getCenterType centers false OWN 7 "b1" "emp1" = OFFICE /\
  classify centers "emp1" r = OWN.
Proof.
  intros r centers.
  apply (duplicate_center_disagreement (Samples.center 7 "emp1" (Some OFFICE))
           [Samples.center 4 "emp1" None]
           (Samples.center 7 "emp1" (Some OWN)) r "emp1" false OWN);
    reflexivity.
Defined.

End AggregateFacts.

(** ** The entry screen *)
Module ScreenFacts.
Import JS JSFacts JSMore NumberAlgebra App AppFacts CenterScreen.
Local Open Scope js_scope.

Local Abbreviation keyOf c :=
  (centerKey (Center.branchId c) (Center.centerCode c)).

Local Abbreviation keyOfRecord r :=
  (centerKey (CenterCollectionRecord.branchId r)
             (CenterCollectionRecord.centerCode r)).

Lemma calculatedType_classify centers r :
  uniqueKeys centers ->
  (forall c, In c centers -> (0 <= Center.centerCode c)%Z) ->
  (0 <= CenterCollectionRecord.centerCode r)%Z ->
  calculatedType centers r
  = classify centers (CenterCollectionRecord.employeeId r) r.
Proof.
  intros Hu Hpos Hr. unfold calculatedType, classify, isOwn.
  destruct (find _ centers) as [c|] eqn:E.
  - apply find_some in E as [Hin Hp].
    apply andb_true_iff in Hp as [Hc Hb].
    apply Z.eqb_eq in Hc. apply String.eqb_eq in Hb.
    rewrite <- Hb, <- Hc, (centerMap_lookup centers c Hu Hin).
    destruct (isOFFICE (Center.type c)); [reflexivity|].
    now destruct (String.eqb _ _).
  - rewrite centerMap_lookup_None.
    + now destruct (CenterCollectionRecord.type r).
    + intros c Hin Ek.
      apply centerKey_inj_nonneg in Ek as [Eb Ec]; [|now apply Hpos|exact Hr].
      apply (find_none _ _ E) in Hin.
      now rewrite Eb, Ec, Z.eqb_refl, String.eqb_refl in Hin.
Qed.

(** X21: the summary of the entry screen classifies a record as the
    salary grid does for the record's own employee, when the keys of the
    master list are pairwise distinct and the codes of the centers and of
    the record are not negative. *)
Theorem calculatedType_matches_grid centers r :
  uniqueKeys centers ->
  (forall c, In c centers -> (0 <= Center.centerCode c)%Z) ->
  (0 <= CenterCollectionRecord.centerCode r)%Z ->
  calculatedType centers r
  = classify centers (CenterCollectionRecord.employeeId r) r.
Proof. apply calculatedType_classify. Qed.

Lemma calculatedType_matches_grid_witness :
  Forall (fun r => calculatedType Samples.centers r
                   = classify Samples.centers
                       (CenterCollectionRecord.employeeId r) r)
         Samples.records.
Proof.
  apply List.Forall_forall. intros r Hr.
  apply calculatedType_matches_grid.
  - apply (bool_decide_unpack _). vm_compute. exact I.
  - intros c Hc. simpl in Hc. destruct Hc as [<-|[<-|[<-|[]]]]; simpl; lia.
  - revert r Hr. apply List.Forall_forall. repeat constructor; discriminate.
Defined.





Section Screen.

Context (parseFloat : string -> number) (parseInt : string -> option Z)
        (trim : string -> string).

Local Abbreviation isNewCenter := (isNewCenter parseInt).
Local Abbreviation handleSubmitDeposit :=
  (handleSubmitDeposit parseFloat parseInt trim).

(** A code is new in the locked branch exactly when the master list has
    no center of that branch and code. *)
Lemma find_available centers (ctx : ActiveContext.t) (code : Z) :
  existsb (fun c => (Center.centerCode c =? code)%Z)
          (availableCenters centers (Some ctx))
  = match find (fun c => (Center.centerCode c =? code)%Z
                         && String.eqb (Center.branchId c)
                                       (ActiveContext.branchId ctx))
               centers with
    | Some _ => true
    | None => false
    end.
Proof.
  unfold availableCenters. induction centers as [|c cs IH]; [reflexivity|].
  cbn [List.filter find].
  destruct (String.eqb (Center.branchId c) (ActiveContext.branchId ctx));
    cbn [existsb]; destruct (Center.centerCode c =? code)%Z;
    cbn [andb orb]; try reflexivity; exact IH.
Qed.

Lemma getCenterType_submitted centers ctx centerCodeInput code newCenterType :
  parseInt centerCodeInput = Some code ->
  centerCodeInput <> "" ->
  CenterCalculation.getCenterType centers
    (isNewCenter centers (Some ctx) centerCodeInput) newCenterType code
    (ActiveContext.branchId ctx) (ActiveContext.employeeId ctx)
  = CenterCalculation.getCenterType centers true newCenterType code
      (ActiveContext.branchId ctx) (ActiveContext.employeeId ctx) /\
  (isNewCenter centers (Some ctx) centerCodeInput = true <->
   find (fun c => (Center.centerCode c =? code)%Z
                  && String.eqb (Center.branchId c)
                                (ActiveContext.branchId ctx)) centers = None).
Proof.
  intros Hp Hne. unfold CenterScreen.isNewCenter. rewrite Hp.
  apply String.eqb_neq in Hne. rewrite Hne, find_available.
  unfold CenterCalculation.getCenterType.
  destruct (find _ centers) as [c|]; cbn [negb]; split;
    try reflexivity; split; congruence.
Qed.

(** X23: what a submission stages.  The code typed is a positive integer;
    at most two records are staged, each in the locked branch, for the
    locked employee and that code, pending, and either a savings record
    with a positive amount and loan 0 or a loan record with a positive loan
    and amount 0.  Their type is decided by the first center of the master
    list with that branch and code and is otherwise the type chosen for the
    new center: the rule of odd and even codes is never used.  A center is
    created only with the callback given and no such center in the list. *)
Theorem handleSubmitDeposit_staged readOnly activeContext centers
    centerCodeInput amountInput loanInput newCenterName newCenterType
    onCreateCenter timestamp tempIdPrefix created newRecords :
  handleSubmitDeposit readOnly activeContext centers centerCodeInput
    amountInput loanInput newCenterName newCenterType onCreateCenter
    timestamp tempIdPrefix = Staged created newRecords ->
  exists ctx code,
    activeContext = Some ctx /\
    parseInt centerCodeInput = Some code /\
    (0 < code)%Z /\
    (length newRecords <= 2)%nat /\
    Forall (fun r =>
              CenterCollectionRecord.branchId r = ActiveContext.branchId ctx /\
              CenterCollectionRecord.employeeId r
                = ActiveContext.employeeId ctx /\
              CenterCollectionRecord.centerCode r = code /\
              CenterCollectionRecord.status r = Some PENDING /\
              CenterCollectionRecord.type r
                = CenterCalculation.getCenterType centers true newCenterType
                    code (ActiveContext.branchId ctx)
                    (ActiveContext.employeeId ctx) /\
              ((exists a : Qc,
                  CenterCollectionRecord.amount r = Num a /\ (0 < a)%Qc /\
                  CenterCollectionRecord.loanAmount r = Some (ofZ 0)) \/
               (exists l : Qc,
                  CenterCollectionRecord.amount r = ofZ 0 /\
                  CenterCollectionRecord.loanAmount r = Some (Num l) /\
                  (0 < l)%Qc)))
           newRecords /\
    (forall nc, created = Some nc ->
       onCreateCenter = true /\
       find (fun c => (Center.centerCode c =? code)%Z
                      && String.eqb (Center.branchId c)
                                    (ActiveContext.branchId ctx)) centers
         = None /\
       NewCenter.centerCode nc = code /\
       NewCenter.branchId nc = ActiveContext.branchId ctx /\
       NewCenter.assignedEmployeeId nc = ActiveContext.employeeId ctx /\
       NewCenter.type nc = newCenterType).
Proof.
  unfold CenterScreen.handleSubmitDeposit.
  destruct readOnly; [discriminate|].
  destruct activeContext as [ctx|]; [|discriminate].
  destruct (String.eqb centerCodeInput "") eqn:Ec; [discriminate|].
  apply String.eqb_neq in Ec. cbv zeta.
  destruct (String.eqb (ActiveContext.branchId ctx) ""); [discriminate|].
  destruct (or0_is_Num (parseFloat amountInput)) as [a ->].
  destruct (or0_is_Num (parseFloat loanInput)) as [l ->].
  destruct ((isNaN (Num a) || lt (Num a) (ofZ 0))
            && (isNaN (Num l) || lt (Num l) (ofZ 0))); [discriminate|].
  destruct (strictEq (Num a) (ofZ 0) && strictEq (Num l) (ofZ 0));
    [discriminate|].
  destruct (parseInt centerCodeInput) as [code|] eqn:Ep; [|discriminate].
  destruct (code <=? 0)%Z eqn:El; [discriminate|]. apply Z.leb_gt in El.
  destruct (getCenterType_submitted centers ctx centerCodeInput code
              newCenterType Ep Ec) as [Et Hn].
  rewrite Et.
  destruct (gt (Num a) (ofZ 0)) eqn:Ea, (gt (Num l) (ofZ 0)) eqn:Eg;
    intros [= <- <-]; exists ctx, code;
    (split; [reflexivity|]); (split; [reflexivity|]); (split; [exact El|]);
    (split; [cbn [app length]; lia|]); split.
  1,3,5,7:
    repeat (apply Forall_cons; split); try apply Forall_nil;
    cbn [CenterCollectionRecord.branchId CenterCollectionRecord.employeeId
         CenterCollectionRecord.centerCode CenterCollectionRecord.status
         CenterCollectionRecord.type CenterCollectionRecord.amount
         CenterCollectionRecord.loanAmount];
    repeat apply conj; try reflexivity;
    solve [ left; exists a; repeat apply conj; try reflexivity;
            now apply lt_Num in Ea
          | right; exists l; repeat apply conj; try reflexivity;
            now apply lt_Num in Eg ].
  all: intros nc;
    destruct (CenterScreen.isNewCenter parseInt centers (Some ctx)
                centerCodeInput) eqn:En; [|discriminate];
    destruct onCreateCenter; [|discriminate]; cbn [andb];
    intros [= <-]; cbn; repeat apply conj; try reflexivity; now apply Hn.
Qed.

(** X24: a negative savings amount typed with no loan amount (empty,
    unreadable or 0) raises no alert and stages no record; with a code that
    is new in the branch the center is created all the same. *)
Theorem handleSubmitDeposit_negative_savings ctx centers centerCodeInput
    amountInput loanInput newCenterName newCenterType onCreateCenter
    timestamp tempIdPrefix (a : Qc) (code : Z) :
  centerCodeInput <> "" ->
  ActiveContext.branchId ctx <> "" ->
  parseFloat amountInput = Num a -> (a < 0)%Qc ->
  truthy (parseFloat loanInput) = false ->
  parseInt centerCodeInput = Some code -> (0 < code)%Z ->
  exists created,
    handleSubmitDeposit false (Some ctx) centers centerCodeInput amountInput
      loanInput newCenterName newCenterType onCreateCenter timestamp
      tempIdPrefix = Staged created [] /\
    (created = None <->
     isNewCenter centers (Some ctx) centerCodeInput && onCreateCenter = false).
Proof.
  intros Hc Hb Ha Hneg Hl Hp Hpos. unfold CenterScreen.handleSubmitDeposit.
  apply String.eqb_neq in Hc, Hb. rewrite Hc, Hb. cbv zeta.
  rewrite Ha, or0_Num, Hp.
  assert (El : (parseFloat loanInput)||0 = ofZ 0) by (unfold or0; now rewrite Hl).
  rewrite El.
  assert (E1 : lt (Num a) (ofZ 0) = true) by now apply lt_Num.
  assert (E2 : gt (Num a) (ofZ 0) = false).
  { apply lt_Num_false. now apply Qclt_le_weak. }
  assert (E3 : strictEq (Num a) (ofZ 0) = false).
  { cbn [strictEq ofZ]. unfold Qc_eq_bool.
    destruct (Qcanon.Qc_eq_dec a (Q2Qc (inject_Z 0))) as [E|]; [|reflexivity].
    rewrite E in Hneg. now apply Qclt_not_eq in Hneg. }
  rewrite E1, E2, E3.
  change (isNaN (ofZ 0) || lt (ofZ 0) (ofZ 0)) with false.
  change (gt (ofZ 0) (ofZ 0)) with false.
  rewrite andb_false_r. cbn [andb].
  apply Z.leb_gt in Hpos. rewrite Hpos. cbn [app].
  eexists. split; [reflexivity|].
  destruct (CenterScreen.isNewCenter parseInt centers (Some ctx)
              centerCodeInput && onCreateCenter); split; congruence.
Qed.

End Screen.

(** Code 11 typed with savings 50 and loan 20: whatever is staged is
    pending and carries the code 11. *)
Lemma handleSubmitDeposit_staged_witness :
  match submit "11" "50" "20" OFFICE with
  | Staged created newRecords =>
      Forall (fun r => CenterCollectionRecord.centerCode r = 11%Z /\
                       CenterCollectionRecord.status r = Some PENDING)
             newRecords
  | _ => False
  end.
Proof.
  destruct (submit "11" "50" "20" OFFICE) as [|m|created newRecords] eqn:E;
    try (vm_compute in E; discriminate).
  destruct (handleSubmitDeposit_staged parseFloatDecimal parseIntDecimal
              AccountService.trimAscii _ _ _ _ _ _ _ _ _ _ _ _ _ E)
    as (ctx & code & _ & Hcode & _ & _ & Hall & _).
  injection Hcode as <-.
  revert Hall. apply List.Forall_impl.
  intros r (_ & _ & Hc & Hs & _). now split.
Defined.

Example handleSubmitDeposit_sample :
  match submit "11" "50" "20" OFFICE with
  | Staged created newRecords =>
      map CenterCollectionRecord.type newRecords = [OFFICE; OFFICE] /\
      created <> None
  | _ => False
  end.
Proof. vm_compute. split; [reflexivity|discriminate]. Qed.

(** Savings of -5 typed for the new code 11 with no loan: nothing is staged
    and the center is created. *)
Lemma handleSubmitDeposit_negative_savings_witness :
  exists created,
    submit "11" "-5" "" OWN = Staged created [] /\
    (created = None <->
     CenterScreen.isNewCenter parseIntDecimal Samples.centers
       (Some {| ActiveContext.branchId := "b1";
                ActiveContext.employeeId := "emp1" |}) "11"
     && true = false).
Proof.
  apply (handleSubmitDeposit_negative_savings parseFloatDecimal
           parseIntDecimal AccountService.trimAscii
           {| ActiveContext.branchId := "b1";
              ActiveContext.employeeId := "emp1" |}
           Samples.centers "11" "-5" "" "" OWN true "2024-03-09T08:00:00Z"
           "temp_1" (Q2Qc (inject_Z (-5))) 11).
  - discriminate.
  - discriminate.
  - reflexivity.
  - reflexivity.
  - reflexivity.
  - reflexivity.
  - reflexivity.
Defined.

End ScreenFacts.

(** ** The center report *)
Module ReportFacts.
Import JS CenterReport.

Local Abbreviation strict centers r :=
  (find (fun c => Z.eqb (Center.centerCode c)
                        (CenterCollectionRecord.centerCode r)
                  && String.eqb (Center.branchId c)
                                (CenterCollectionRecord.branchId r)) centers).

Local Abbreviation sameCode centers r :=
  (List.filter (fun c => Z.eqb (Center.centerCode c)
                               (CenterCollectionRecord.centerCode r))
               centers).

(** The only center of a code is the one found in its branch. *)
Lemma strict_master centers r master branch :
  sameCode centers r = [master] ->
  find (fun c => (Center.centerCode c
                  =? CenterCollectionRecord.centerCode r)%Z
                 && String.eqb (Center.branchId c) branch) centers
  = (if String.eqb (Center.branchId master) branch then Some master
     else None).
Proof.
  intros Hm.
  assert (Hin : In master (sameCode centers r)) by (rewrite Hm; now left).
  apply List.filter_In in Hin as [Hin Hc].
  destruct (find _ centers) as [c|] eqn:E.
  - apply find_some in E as [Hc1 Hp]. apply andb_true_iff in Hp as [Hp Hb].
    assert (Hc' : In c (sameCode centers r))
      by (apply List.filter_In; now split).
    rewrite Hm in Hc'. destruct Hc' as [<-|[]]. now rewrite Hb.
  - apply (find_none _ _ E) in Hin. rewrite Hc in Hin. cbn [andb] in Hin.
    now rewrite Hin.
Qed.

Lemma effectiveRecord_idem centers r :
  effectiveRecord centers (effectiveRecord centers r)
  = effectiveRecord centers r.
Proof.
  unfold effectiveRecord at 2.
  destruct (strict centers r) as [c|] eqn:E1.
  - unfold effectiveRecord. now rewrite E1.
  - destruct (sameCode centers r) as [|master [|m2 rest]] eqn:E2.
    + unfold effectiveRecord. now rewrite E1, E2.
    + cbv zeta. unfold effectiveRecord.
      cbn [CenterCollectionRecord.centerCode CenterCollectionRecord.branchId].
      rewrite (strict_master centers r master _ E2).
      rewrite String.eqb_refl. cbv iota. now rewrite E1, E2.
    + unfold effectiveRecord. now rewrite E1, E2.
Qed.

(** X25: hydrating the records of the report a second time changes
    nothing. *)
Theorem effectiveRecords_idempotent centers records :
  effectiveRecords centers (effectiveRecords centers records)
  = effectiveRecords centers records.
Proof.
  unfold effectiveRecords. rewrite map_map. apply map_ext.
  intros r. apply effectiveRecord_idem.
Qed.

(** X26: a record whose code names no center of its own branch but
    exactly one center of the master list moves to the branch of that center;
    its employee, code, amounts and date stay, and the type written on it is
    the one the aggregation of the report then resolves for it. *)
Theorem effectiveRecord_moved centers r master :
  strict centers r = None ->
  sameCode centers r = [master] ->
  let r' := effectiveRecord centers r in
  CenterCollectionRecord.branchId r' = Center.branchId master /\
  CenterCollectionRecord.type r' = effectiveType centers r' /\
  CenterCollectionRecord.employeeId r' = CenterCollectionRecord.employeeId r /\
  CenterCollectionRecord.centerCode r' = CenterCollectionRecord.centerCode r /\
  CenterCollectionRecord.amount r' = CenterCollectionRecord.amount r /\
  CenterCollectionRecord.loanAmount r' = CenterCollectionRecord.loanAmount r /\
  CenterCollectionRecord.createdAt r' = CenterCollectionRecord.createdAt r.
Proof.
  intros E1 E2. cbv zeta. unfold effectiveType, effectiveRecord.
  rewrite E1, E2. cbv zeta.
  cbn [CenterCollectionRecord.centerCode CenterCollectionRecord.branchId
       CenterCollectionRecord.type CenterCollectionRecord.employeeId
       CenterCollectionRecord.amount CenterCollectionRecord.loanAmount
       CenterCollectionRecord.createdAt].
  rewrite (strict_master centers r master _ E2), String.eqb_refl.
  repeat apply conj; reflexivity.
Qed.

Lemma effectiveRecord_moved_witness :
  let r' := effectiveRecord Samples.centers movedRecord in
  CenterCollectionRecord.branchId r' = "b1" /\
  CenterCollectionRecord.type r' = effectiveType Samples.centers r'.
Proof.
  destruct (effectiveRecord_moved Samples.centers movedRecord
              (Samples.center 4 "emp1" None) eq_refl eq_refl)
    as (Hb & Ht & _).
  split; [exact Hb|exact Ht].
Defined.

End ReportFacts.

(** ** The branch selection *)
Module SelectionFacts.
Import Selection.

(** X27: toggling a branch in a selection without duplicates leaves a
    selection without duplicates, flips the membership of that branch and
    keeps that of every other branch. *)
Theorem toggleBranch_toggles (id : string) (prev : list string) :
  List.NoDup prev ->
  List.NoDup (toggleBranch id prev) /\
  (In id (toggleBranch id prev) <-> ~ In id prev) /\
  (forall b, b <> id -> In b (toggleBranch id prev) <-> In b prev).
Proof.
  intros Hnd. unfold toggleBranch.
  destruct (existsb (String.eqb id) prev) eqn:E.
  - apply existsb_exists in E as (x & Hx & Ex). apply String.eqb_eq in Ex.
    subst x. split; [now apply List.NoDup_filter|]. split.
    + split.
      * intros H. apply List.filter_In in H as [_ H].
        now rewrite String.eqb_refl in H.
      * intros H. now destruct H.
    + intros b Hb. rewrite List.filter_In. apply String.eqb_neq in Hb.
      rewrite Hb. cbn [negb]. tauto.
  - assert (Hn : ~ In id prev).
    { intros H. assert (existsb (String.eqb id) prev = true); [|congruence].
      apply existsb_exists. exists id. split; [exact H|].
      apply String.eqb_refl. }
    split; [|split].
    + apply List.NoDup_app; [exact Hnd|repeat constructor; intros []|].
      intros x Hx [<-|[]]. now apply Hn.
    + rewrite List.in_app_iff. cbn [In]. tauto.
    + intros b Hb. rewrite List.in_app_iff. cbn [In]. split; [|tauto].
      intros [H|[H|[]]]; [exact H|congruence].
Qed.

Lemma toggleBranch_toggles_witness :
  List.NoDup (toggleBranch "b1" ["b1"; "b2"]) /\
  (In "b1" (toggleBranch "b1" ["b1"; "b2"]) <-> ~ In "b1" ["b1"; "b2"]) /\
  (forall b, b <> "b1" ->
             In b (toggleBranch "b1" ["b1"; "b2"]) <-> In b ["b1"; "b2"]).
Proof.
  apply toggleBranch_toggles.
  constructor; [intros [H|[]]; discriminate|].
  constructor; [intros []|constructor].
Defined.

End SelectionFacts.

(** ** Numbers on the entries the application builds *)
Module CoercionFacts.
Import JS JSFacts JSMore NumberAlgebra Logic AppState SalaryTable.
Local Open Scope js_scope.





Lemma coerced_withCollections entry a b c d e :
  coerced entry -> coerced (withCollections entry a b c d e).
Proof. intros H. exact H. Qed.

Lemma coerced_withCenter entry a b :
  coerced entry -> coerced (withCenter entry a b).
Proof. intros H. exact H. Qed.



Section Writers.

Context (bonusRates : Qc -> number) (parseFloat Number : string -> number)
        (toLowerCase trim : string -> string).






End Writers.




(** The late hours, the absent days and the basic salary of an entry are
    written by the table alone, which stores [parseFloat(value) || 0]: an
    edit leaves each of them a number. *)
Lemma handleInputChange_keeps_numbers (bonusRates : Qc -> number)
    (parseFloat : string -> number) readOnly row field value commissionRates
    updated :
  handleInputChange bonusRates parseFloat readOnly row field value
    commissionRates = Some updated ->
  (isNaN (SalaryEntry.input_late_hours (SalaryRow.entry row)) = false ->
   isNaN (SalaryEntry.input_late_hours updated) = false) /\
  (isNaN (SalaryEntry.input_absent_days (SalaryRow.entry row)) = false ->
   isNaN (SalaryEntry.input_absent_days updated) = false) /\
  (isNaN (SalaryEntry.basic_salary (SalaryRow.entry row)) = false ->
   isNaN (SalaryEntry.basic_salary updated) = false).
Proof.
  unfold handleInputChange. destruct readOnly; [discriminate|]. cbv zeta.
  intros [= <-].
  cbn [recalculateEntry withField SalaryEntry.input_late_hours
       SalaryEntry.input_absent_days SalaryEntry.basic_salary].
  repeat apply conj; intros H;
    match goal with
    | |- context [EditField.eqb field ?f] => destruct (EditField.eqb field f)
    end; solve [exact H | apply isNaN_or0].
Qed.

End CoercionFacts.

(** ** The collections stored on an entry *)
Module GridFrame.
Import JS JSFacts JSMore AppState.
Local Open Scope js_scope.

Section Grid.

Context (bonusRates : Qc -> number) (toLowerCase trim : string -> string).

Lemma branchTotals_withCollections (own c1 office c2 loan : SalaryEntry.t -> number)
    centerRecords selectedMonth entries employees :
  branchTotals centerRecords selectedMonth
    (map (fun e => withCollections e (own e) (c1 e) (office e) (c2 e) (loan e))
         entries) employees
  = branchTotals centerRecords selectedMonth entries employees.
Proof.
  unfold branchTotals. generalize (recordTotals centerRecords selectedMonth).
  induction entries as [|e entries IH]; intros m; [reflexivity|].
  cbn [map foldl]. apply IH.
Qed.

(** X28: the own, office and loan collections and the two counts stored
    on the entries play no part in the grid: whatever is written over them,
    NaN included, the rows of the grid are the same. *)
Theorem gridRows_ignores_stored_collections
    (own c1 office c2 loan : SalaryEntry.t -> number)
    isNormalUser isManager userBranch entries employees branches
    centerRecords commissionRates selectedMonth centers :
  gridRows bonusRates toLowerCase trim isNormalUser isManager userBranch
    (map (fun e => withCollections e (own e) (c1 e) (office e) (c2 e) (loan e))
         entries)
    employees branches centerRecords commissionRates selectedMonth centers
  = gridRows bonusRates toLowerCase trim isNormalUser isManager userBranch
      entries employees branches centerRecords commissionRates selectedMonth
      centers.
Proof.
  unfold gridRows. destruct isNormalUser; [reflexivity|]. cbv zeta.
  rewrite branchTotals_withCollections.
  generalize (branchTotals centerRecords selectedMonth entries employees).
  intros totals. induction entries as [|e entries IH]; [reflexivity|].
  cbn [map omap list_omap]. rewrite IH. reflexivity.
Qed.

End Grid.

(** The sample grid with NaN written over every stored collection. *)
Lemma gridRows_ignores_stored_collections_witness :
  gridRows Samples.bonusRates AccountService.toLowerCaseAscii
    AccountService.trimAscii false false None
    (map (fun e => withCollections e NaN NaN NaN NaN NaN) Samples2.entries)
    Samples2.employees Samples2.branches Samples.records Samples.ratesMap
    "2024-03" Samples.centers
  = Samples2.gridRows false false None.
Proof.
  apply (gridRows_ignores_stored_collections Samples.bonusRates
           AccountService.toLowerCaseAscii AccountService.trimAscii
           (fun _ => NaN) (fun _ => NaN) (fun _ => NaN) (fun _ => NaN)
           (fun _ => NaN)).
Defined.

End GridFrame.
